(** * Adaptive-learning RAG service: vectorstore lifecycle and lesson API

    A shallow embedding of [dataLoading.py], [rag.py] and [main.py].
    Python functions become functions in a state-and-exception monad over
    an explicit [world] (the file system, the module globals, the console);
    third-party collaborators (PDF extraction, embeddings, FAISS, the
    language model, the JSON codec) are fields of an [Env] record whose
    results may depend on the moment of the call. *)

From Stdlib Require Import ZArith Strings.String Strings.Ascii Strings.Byte.
From Stdlib Require Import List Lia.
From stdpp Require Import base option list gmap strings sorting.


(** Successive slices of at most [n] elements, as [f.read(n)] returns
    them until the empty slice; [fuel] bounds the number of slices. *)
Fixpoint chunks {A} (n fuel : nat) (bs : list A) : list (list A) :=
  match fuel with
  | O => []
  | S fuel' =>
      match bs with
      | [] => []
      | _ => firstn n bs :: chunks n fuel' (skipn n bs)
      end
  end.

(* ===================================================================== *)
(** * hashlib.md5 (RFC 1321), on 32-bit words held in [Z]                 *)
(* ===================================================================== *)

Module MD5.
Local Open Scope Z_scope.

Definition mask32 (x : Z) : Z := Z.land x 0xffffffff.
Definition add32 (x y : Z) : Z := mask32 (x + y).
Definition not32 (x : Z) : Z := Z.lxor x 0xffffffff.
Definition rotl32 (x s : Z) : Z :=
  mask32 (Z.lor (Z.shiftl x s) (Z.shiftr x (32 - s))).

Definition K : list Z :=
  [ 0xd76aa478; 0xe8c7b756; 0x242070db; 0xc1bdceee; 0xf57c0faf; 0x4787c62a;
    0xa8304613; 0xfd469501; 0x698098d8; 0x8b44f7af; 0xffff5bb1; 0x895cd7be;
    0x6b901122; 0xfd987193; 0xa679438e; 0x49b40821; 0xf61e2562; 0xc040b340;
    0x265e5a51; 0xe9b6c7aa; 0xd62f105d; 0x02441453; 0xd8a1e681; 0xe7d3fbc8;
    0x21e1cde6; 0xc33707d6; 0xf4d50d87; 0x455a14ed; 0xa9e3e905; 0xfcefa3f8;
    0x676f02d9; 0x8d2a4c8a; 0xfffa3942; 0x8771f681; 0x6d9d6122; 0xfde5380c;
    0xa4beea44; 0x4bdecfa9; 0xf6bb4b60; 0xbebfbc70; 0x289b7ec6; 0xeaa127fa;
    0xd4ef3085; 0x04881d05; 0xd9d4d039; 0xe6db99e5; 0x1fa27cf8; 0xc4ac5665;
    0xf4292244; 0x432aff97; 0xab9423a7; 0xfc93a039; 0x655b59c3; 0x8f0ccc92;
    0xffeff47d; 0x85845dd1; 0x6fa87e4f; 0xfe2ce6e0; 0xa3014314; 0x4e0811a1;
    0xf7537e82; 0xbd3af235; 0x2ad7d2bb; 0xeb86d391 ].

Definition S : list Z :=
  [ 7; 12; 17; 22; 7; 12; 17; 22; 7; 12; 17; 22; 7; 12; 17; 22;
    5;  9; 14; 20; 5;  9; 14; 20; 5;  9; 14; 20; 5;  9; 14; 20;
    4; 11; 16; 23; 4; 11; 16; 23; 4; 11; 16; 23; 4; 11; 16; 23;
    6; 10; 15; 21; 6; 10; 15; 21; 6; 10; 15; 21; 6; 10; 15; 21 ].

(** The four chaining words A, B, C, D. *)
Record state := State { sA : Z; sB : Z; sC : Z; sD : Z }.

Definition init : state :=
  State 0x67452301 0xefcdab89 0x98badcfe 0x10325476.

Definition byte_val (b : byte) : Z := Z.of_N (Byte.to_N b).

(** Little-endian 32-bit word from four bytes. *)
Definition word_le (b0 b1 b2 b3 : Z) : Z :=
  Z.lor b0 (Z.lor (Z.shiftl b1 8) (Z.lor (Z.shiftl b2 16) (Z.shiftl b3 24))).

Fixpoint words_le (bs : list Z) : list Z :=
  match bs with
  | b0 :: b1 :: b2 :: b3 :: rest => word_le b0 b1 b2 b3 :: words_le rest
  | _ => []
  end.

Definition nthZ (l : list Z) (i : Z) : Z := nth (Z.to_nat i) l 0.

(** One of the 64 operations on a 16-word block [M]. *)
Definition step (M : list Z) (st : state) (i : Z) : state :=
  let '(State a b c d) := st in
  let f :=
    if i <? 16 then Z.lor (Z.land b c) (Z.land (not32 b) d)
    else if i <? 32 then Z.lor (Z.land d b) (Z.land (not32 d) c)
    else if i <? 48 then Z.lxor b (Z.lxor c d)
    else Z.lxor c (Z.lor b (not32 d)) in
  let g :=
    if i <? 16 then i
    else if i <? 32 then (5 * i + 1) mod 16
    else if i <? 48 then (3 * i + 5) mod 16
    else (7 * i) mod 16 in
  let f' := add32 (add32 (add32 f a) (nthZ K i)) (nthZ M g) in
  State d (add32 b (rotl32 f' (nthZ S i))) b c.

Definition rounds : list Z := map Z.of_nat (seq 0 64).

Definition compress (st : state) (block : list Z) : state :=
  let M := words_le block in
  let st' := fold_left (step M) rounds st in
  State (add32 (sA st) (sA st')) (add32 (sB st) (sB st'))
        (add32 (sC st) (sC st')) (add32 (sD st) (sD st')).

(** Padding: a 1 bit, zeros up to 56 mod 64, then the bit length on 64
    bits, little-endian. *)
Definition le_bytes (n : nat) (x : Z) : list Z :=
  map (fun k => Z.land (Z.shiftr x (8 * Z.of_nat k)) 0xff) (seq 0 n).

Definition pad (msg : list Z) : list Z :=
  let len := Z.of_nat (length msg) in
  let zeros := Z.to_nat ((55 - len) mod 64) in
  msg ++ [0x80] ++ repeat 0 zeros ++ le_bytes 8 ((8 * len) mod 2 ^ 64).

Definition blocks (bs : list Z) : list (list Z) := chunks 64 (length bs) bs.

Definition digest (msg : list byte) : list Z :=
  let p := pad (map byte_val msg) in
  let st := fold_left compress (blocks p) init in
  le_bytes 4 (sA st) ++ le_bytes 4 (sB st) ++
  le_bytes 4 (sC st) ++ le_bytes 4 (sD st).

Definition hex_digit (n : Z) : ascii :=
  nth (Z.to_nat n) (list_ascii_of_string "0123456789abcdef") "0"%char.

Definition hex_of_bytes (bs : list Z) : string :=
  string_of_list_ascii
    (flat_map (fun b => [hex_digit (Z.shiftr b 4); hex_digit (Z.land b 0xf)]) bs).

Definition hexdigest_of (msg : list byte) : string := hex_of_bytes (digest msg).

(** The hash object: [update] appends to the message, [hexdigest] hashes
    everything fed so far. *)
Definition hasher := list byte.
Definition new : hasher := [].
Definition update (h : hasher) (data : list byte) : hasher := h ++ data.
Definition hexdigest (h : hasher) : string := hexdigest_of h.

End MD5.


(* ===================================================================== *)
(** * Python values, exceptions and results                               *)
(* ===================================================================== *)

(** The exception classes that occur; all derive from [Exception]. *)
Inductive exn :=
| UnicodeDecodeError
| UnicodeEncodeError
| JSONDecodeError
| AttributeError
| IsADirectoryError
| NotADirectoryError
| KeyError
| HTTPException (status_code : nat) (detail : string)
| EnvironmentError (msg : string)
| OSError (msg : string)
| PyException (msg : string).

Inductive res (A : Type) :=
| Ok (a : A)
| Raise (e : exn).
Arguments Ok {A} a.
Arguments Raise {A} e.

Definition is_JSONDecodeError (e : exn) : bool :=
  match e with JSONDecodeError => true | _ => false end.

(** [str(e)], as interpolated into messages. *)
Definition exn_str (e : exn) : string :=
  match e with
  | UnicodeDecodeError => "'utf-8' codec can't decode byte"
  | UnicodeEncodeError => "'utf-8' codec can't encode character"
  | JSONDecodeError => "Expecting value"
  | AttributeError => "object has no attribute 'get'"
  | IsADirectoryError => "Is a directory"
  | NotADirectoryError => "Not a directory"
  | KeyError => "key"
  | HTTPException _ detail => detail
  | EnvironmentError msg | OSError msg | PyException msg => msg
  end.

(** What [json.load] yields.  A float is kept only up to what this program
    can observe of it, namely whether it is zero. *)
#[warnings="-register-all"] Inductive json :=
| JNull
| JBool (b : bool)
| JInt (z : Z)
| JFloat (is_zero : bool)
| JStr (s : string)
| JList (items : list json)
| JDict (items : list (string * json)).

(** [bool(v)] *)
Definition truthy (v : json) : bool :=
  match v with
  | JNull => false
  | JBool b => b
  | JInt z => negb (z =? 0)%Z
  | JFloat is_zero => negb is_zero
  | JStr s => negb (String.eqb s "")
  | JList items => match items with [] => false | _ => true end
  | JDict items => match items with [] => false | _ => true end
  end.

Fixpoint assoc {V} (k : string) (items : list (string * V)) : option V :=
  match items with
  | [] => None
  | (k', v) :: rest => if String.eqb k k' then Some v else assoc k rest
  end.

(** [v.get(key)]: only a dict has the method; a missing key gives [None]. *)
Definition py_get (v : json) (key : string) : res json :=
  match v with
  | JDict items => Ok (default JNull (assoc key items))
  | _ => Raise AttributeError
  end.

(** [v == s] for a [str] [s]. *)
Definition eq_str (v : json) (s : string) : bool :=
  match v with JStr s' => String.eqb s' s | _ => false end.

(** Strict UTF-8, the codec of a text-mode [open] under a UTF-8 locale. *)
Definition cont (b : Z) : bool := ((0x80 <=? b) && (b <=? 0xBF))%Z.

Fixpoint utf8_valid (bs : list Z) : bool :=
  match bs with
  | [] => true
  | b0 :: r0 =>
      if (b0 <? 0x80)%Z then utf8_valid r0
      else if ((0xC2 <=? b0) && (b0 <=? 0xDF))%Z then
        match r0 with
        | b1 :: r1 => cont b1 && utf8_valid r1
        | _ => false
        end
      else if ((0xE0 <=? b0) && (b0 <=? 0xEF))%Z then
        match r0 with
        | b1 :: b2 :: r2 =>
            (if (b0 =? 0xE0)%Z then (0xA0 <=? b1) && (b1 <=? 0xBF)
             else if (b0 =? 0xED)%Z then (0x80 <=? b1) && (b1 <=? 0x9F)
             else cont b1)%Z
            && cont b2 && utf8_valid r2
        | _ => false
        end
      else if ((0xF0 <=? b0) && (b0 <=? 0xF4))%Z then
        match r0 with
        | b1 :: b2 :: b3 :: r3 =>
            (if (b0 =? 0xF0)%Z then (0x90 <=? b1) && (b1 <=? 0xBF)
             else if (b0 =? 0xF4)%Z then (0x80 <=? b1) && (b1 <=? 0x8F)
             else cont b1)%Z
            && cont b2 && cont b3 && utf8_valid r3
        | _ => false
        end
      else false
  end.

(** Reading a file opened with mode ['r']: the text, or [UnicodeDecodeError].
    Text is kept as its UTF-8 bytes. *)
Definition read_text (content : list byte) : res (list byte) :=
  if utf8_valid (map MD5.byte_val content) then Ok content
  else Raise UnicodeDecodeError.

(* ===================================================================== *)
(** * The world: file system, collaborators' objects, module globals      *)
(* ===================================================================== *)

(** An entry of a subject folder. [Dangling] is a name whose target does
    not exist ([os.path.exists] is false), [SubDir] a directory. *)
Inductive fnode :=
| RegFile (content : list byte)
| SubDir
| Dangling.

(** A folder, in the order the operating system enumerates it. *)
Definition folder := list (string * fnode).

(** An entry of [CURRICULUM_ROOT]. *)
Inductive cnode :=
| SubjectDir (f : folder)
| PlainFile.

(** [CURRICULUM_ROOT] itself. *)
Inductive root_dir :=
| NoRoot
| RootFile
| RootDir (entries : list (string * cnode)).

(** [VECTORSTORE_ROOT/<subject>_faiss/]: the two index files and the
    metadata file; [None] for a file that is not there. *)
Record vsdir := VsDir {
  index_faiss : option (list byte);
  index_pkl : option (list byte);
  metadata_json : option (list byte)
}.

Definition empty_vsdir : vsdir := VsDir None None None.

Record document := Document {
  page_content : string;
  doc_source : string;
  doc_page : nat
}.

Inductive vectorstore := FAISS (docs : list document).
Inductive embeddings := HuggingFaceEmbeddings (model_name : string).
Inductive llm := ChatHuggingFace (repo_id token : string).
Inductive retriever := VectorStoreRetriever (vs : vectorstore) (k : nat).
Inductive llm_chain := LLMChain (model : llm).

(** The dict built by [create_rag_components]; a value of a Python dict may
    be [None]. *)
Record components := Components {
  c_retriever : option retriever;
  c_llm_chain : option llm_chain
}.

Inductive Pace := low | moderate | advance.

Definition pace_str (p : Pace) : string :=
  match p with low => "low" | moderate => "moderate" | advance => "advance" end.

(** The printed lines that are kept: the banners of [build_vectorstore] and
    [load_vectorstore], and what [generate_lesson] prints. *)
Inductive log_line :=
| LogBuilding (subject_name : string)
| LogLoading (subject_name : string)
| LogNotInitialized (subject_name : string)
| LogGenerating (subject_name topic level : string) (pace : Pace)
| LogLesson (subject_name level : string) (pace : Pace) (lesson_text : string)
| LogGenerationError (e : exn).

Record world := World {
  clock : nat;
  curriculum_data : root_dir;
  vectorstores : gmap string vsdir;
  stat_error : string -> option exn;
  hf_token : option string;
  GLOBAL_VECTORSTORES : gmap string vectorstore;
  AVAILABLE_SUBJECTS : list string;
  LLM : option llm;
  RAG_COMPONENTS : gmap string components;
  stdout : list log_line
}.

Definition tick (w : world) : world :=
  World (S (clock w)) (curriculum_data w) (vectorstores w) (stat_error w) (hf_token w)
        (GLOBAL_VECTORSTORES w) (AVAILABLE_SUBJECTS w) (LLM w)
        (RAG_COMPONENTS w) (stdout w).

Definition set_vectorstores (v : gmap string vsdir) (w : world) : world :=
  World (clock w) (curriculum_data w) v (stat_error w) (hf_token w)
        (GLOBAL_VECTORSTORES w) (AVAILABLE_SUBJECTS w) (LLM w)
        (RAG_COMPONENTS w) (stdout w).

Definition set_LLM (l : option llm) (w : world) : world :=
  World (clock w) (curriculum_data w) (vectorstores w) (stat_error w) (hf_token w)
        (GLOBAL_VECTORSTORES w) (AVAILABLE_SUBJECTS w) l
        (RAG_COMPONENTS w) (stdout w).

Definition set_RAG_COMPONENTS (r : gmap string components) (w : world) : world :=
  World (clock w) (curriculum_data w) (vectorstores w) (stat_error w) (hf_token w)
        (GLOBAL_VECTORSTORES w) (AVAILABLE_SUBJECTS w) (LLM w)
        r (stdout w).

Definition set_stdout (o : list log_line) (w : world) : world :=
  World (clock w) (curriculum_data w) (vectorstores w) (stat_error w) (hf_token w)
        (GLOBAL_VECTORSTORES w) (AVAILABLE_SUBJECTS w) (LLM w)
        (RAG_COMPONENTS w) o.

(* ===================================================================== *)
(** * The monad of Python code: state, and exceptions that keep the state *)
(* ===================================================================== *)

Definition M (A : Type) : Type := world -> res A * world.

#[export] Instance M_ret : MRet M := fun A a w => (Ok a, w).

#[export] Instance M_bind : MBind M := fun A B f m w =>
  match m w with
  | (Ok a, w') => f a w'
  | (Raise e, w') => (Raise e, w')
  end.

Definition raise {A} (e : exn) : M A := fun w => (Raise e, w).

(** [lift r]: a result computed without touching the world. *)
Definition lift {A} (r : res A) : M A := fun w => (r, w).

(** [try: body / except Exception as e: handler e] *)
Definition try_except {A} (body : M A) (handler : exn -> M A) : M A := fun w =>
  match body w with
  | (Ok a, w') => (Ok a, w')
  | (Raise e, w') => handler e w'
  end.

(** [try: body / except <class>: handler], for the classes [only] accepts. *)
Definition try_except_only {A} (only : exn -> bool) (body : M A) (handler : exn -> M A)
  : M A := fun w =>
  match body w with
  | (Ok a, w') => (Ok a, w')
  | (Raise e, w') => if only e then handler e w' else (Raise e, w')
  end.

Definition gets {A} (f : world -> A) : M A := fun w => (Ok (f w), w).
Definition modify (f : world -> world) : M unit := fun w => (Ok tt, f w).

(** A call into a collaborator: its outcome may depend on the moment. *)
Definition call {A} (f : nat -> res A) : M A := fun w => (f (clock w), tick w).

Definition print (l : log_line) : M unit :=
  modify (fun w => set_stdout (stdout w ++ [l]) w).

(** [for x in xs: body x], threading an accumulator. *)
Fixpoint for_each {A B} (xs : list A) (acc : B) (body : B -> A -> M B) : M B :=
  match xs with
  | [] => mret acc
  | x :: rest => acc' ← body acc x; for_each rest acc' body
  end.

(** Outcome of [vectorstore.save_local]: both files written, or an exception
    after which each file is untouched ([None]) or holds what was written. *)
Inductive save_outcome :=
| Saved (faiss pkl : list byte)
| SaveFailed (e : exn) (faiss pkl : option (list byte)).

(** The collaborators.  Each takes the moment of the call first. *)
Record Env := {
  (** [PyPDFLoader(pdf_file).load()] *)
  pdf_load : nat -> string -> fnode -> res (list document);
  (** [RecursiveCharacterTextSplitter(1000, 200, len).split_documents] *)
  split_documents : nat -> list document -> res (list document);
  (** [HuggingFaceEmbeddings(model_name=...)] *)
  new_embeddings : nat -> string -> res embeddings;
  (** [FAISS.from_documents] *)
  faiss_from_documents : nat -> list document -> embeddings -> res vectorstore;
  (** [vectorstore.save_local] *)
  faiss_save_local : nat -> vectorstore -> save_outcome;
  (** [FAISS.load_local(..., allow_dangerous_deserialization=True)] *)
  faiss_load_local : nat -> vsdir -> embeddings -> res vectorstore;
  (** a fault of the disk on [mkdir] or on opening a file for writing *)
  disk_fault : nat -> option exn;
  (** writing bytes to an open file: [None] when all of them get written,
      or the exception and how many bytes were written before it *)
  disk_write : nat -> list byte -> option (exn * nat);
  (** [glob.glob] on [CURRICULUM_ROOT/<name>/*.pdf] for a [name] that is
      not the name of one entry read as it stands: a name with one of the
      characters [*], [?] and [[] makes the directory part a pattern, and
      the files found are those of every directory it matches; a name that
      is empty, [.], [..] or has a [/] leads elsewhere in the tree.  The
      files found are keyed by their paths *)
  glob_magic : root_dir -> string -> list (string * fnode);
  (** [Path.is_dir()] on [CURRICULUM_ROOT/<name>] for a [name] that is
      empty, [.], [..] or has a [/] *)
  is_dir_path : root_dir -> string -> bool;
  (** [json.load] on the text of a file, [json.dump(..., indent=4)] *)
  json_loads : list byte -> res json;
  json_dumps : json -> list byte;
  (** [datetime.now().isoformat()] *)
  now_isoformat : nat -> string;
  (** [ChatHuggingFace(llm=HuggingFaceEndpoint(...))] *)
  new_chat_model : nat -> string -> string -> res llm;
  (** [LLMChain(prompt=PromptTemplate(...), llm=llm)] *)
  new_llm_chain : nat -> llm -> res llm_chain;
  (** [vectorstore.as_retriever(search_kwargs={"k": k})] *)
  as_retriever : nat -> vectorstore -> nat -> res retriever;
  (** [retriever.get_relevant_documents(query)] *)
  get_relevant_documents : nat -> retriever -> string -> res (list document);
  (** [llm_chain.invoke(input_data)['text']]; the inputs are context, topic,
      level, pace, subject_name *)
  chain_invoke : nat -> llm_chain -> string -> string -> string -> Pace -> string
                 -> res string
}.

#[export] Instance res_ret : MRet res := fun A a => Ok a.

#[export] Instance res_bind : MBind res := fun A B f r =>
  match r with
  | Ok a => f a
  | Raise e => Raise e
  end.

(* ===================================================================== *)
(** * dataLoading.py                                                      *)
(* ===================================================================== *)

Definition CURRICULUM_ROOT : string := "curriculum_data".
Definition VECTORSTORE_ROOT : string := "vectorstores".
Definition METADATA_FILE : string := "vectorstore_metadata.json".
Definition EMBEDDING_MODEL : string := "BAAI/bge-small-en-v1.5".

(** Names are kept as the bytes the file system has for them.  On names
    that are UTF-8 the order of [str] (by code point) is the bytewise order
    [String.le]. *)
Definition name_bytes (s : string) : list byte := list_byte_of_string s.

Definition utf8_name (s : string) : bool :=
  utf8_valid (map MD5.byte_val (name_bytes s)).

(** [str.encode()].  A name that is not UTF-8 on disk reaches Python as a
    [str] with lone surrogates, which the codec refuses. *)
Definition encode (s : string) : res (list byte) :=
  if utf8_name s then Ok (name_bytes s) else Raise UnicodeEncodeError.

Definition ends_with (suffix s : string) : bool :=
  let n := String.length s in
  let k := String.length suffix in
  (k <=? n)%nat && String.eqb (substring (n - k) k s) suffix.

Definition hidden (s : string) : bool :=
  match s with
  | String "."%char _ => true
  | _ => false
  end.

(** [glob.glob(os.path.join(d, "*.pdf"))]: the names of [d] matching the
    pattern, a leading dot being matched by no wildcard, in the order of
    enumeration; nothing when [d] is not there. *)
Definition glob_matches (name : string) : bool :=
  negb (hidden name) && ends_with ".pdf" name.

Definition glob_pdf (d : option folder) : list string :=
  match d with
  | Some f => filter (fun name => glob_matches name) (map fst f)
  | None => []
  end.

(** [Path.glob("*.pdf")], for which a leading dot is not special. *)
Definition path_glob_pdf (f : folder) : list string :=
  filter (fun name => ends_with ".pdf" name) (map fst f).

(** [sorted] on strings.  The paths the code sorts share the folder as a
    prefix, so they are ordered as their last components are. *)
Definition sorted (names : list string) : list string :=
  merge_sort String.le names.

(** The node a name of folder [d] leads to. *)
Definition node_at (d : option folder) (name : string) : option fnode :=
  f ← d; assoc name f.

(** The iteration [for chunk in iter(lambda: f.read(4096), b"")] *)
Definition read_chunks (content : list byte) : list (list byte) :=
  chunks 4096 (length content) content.

(** One turn of the loop of [get_folder_hash] *)
Definition hash_file (d : option folder) (h : MD5.hasher) (name : string)
  : res MD5.hasher :=
  name_encoded ← encode name;
  let h1 := MD5.update h name_encoded in
  match node_at d name with
  | Some (RegFile content) => Ok (fold_left MD5.update (read_chunks content) h1)
  | Some SubDir => Raise IsADirectoryError
  | Some Dangling | None => Ok h1
  end.

Fixpoint hash_files (d : option folder) (h : MD5.hasher) (names : list string)
  : res MD5.hasher :=
  match names with
  | [] => Ok h
  | name :: rest => h' ← hash_file d h name; hash_files d h' rest
  end.

(** Everything [get_folder_hash] feeds to the hash object. *)
Definition hashed_bytes (d : option folder) : res MD5.hasher :=
  let pdf_files := sorted (glob_pdf d) in
  hash_files d MD5.new pdf_files.

(** [get_folder_hash(folder_path)], [d] being what is at [folder_path]. *)
Definition get_folder_hash (d : option folder) : res string :=
  h ← hashed_bytes d;
  mret (MD5.hexdigest h).

(** [glob.has_magic]: one of [*], [?] and [[] occurs in the text. *)
Definition has_magic (s : string) : bool :=
  existsb (fun c => Ascii.eqb c "*" || Ascii.eqb c "?" || Ascii.eqb c "[")
          (list_ascii_of_string s).

(** The name is one component of a path: it is not empty, not [.] or
    [..], and has no [/].  The entries of a directory have such names. *)
Definition one_component (s : string) : bool :=
  negb (String.eqb s "") && negb (String.eqb s ".") && negb (String.eqb s "..")
  && forallb (fun c => negb (Ascii.eqb c "/")) (list_ascii_of_string s).

(** The name, put after [CURRICULUM_ROOT], is the path of the entry of
    that name for [pathlib] and for [glob] alike. *)
Definition literal_name (s : string) : bool :=
  one_component s && negb (has_magic s).

(** [Path(p).name]: what follows the last [/]. *)
Fixpoint last_component (acc p : string) : string :=
  match p with
  | EmptyString => acc
  | String c rest =>
      if Ascii.eqb c "/" then last_component "" rest
      else last_component (acc +:+ String c "") rest
  end.

Definition path_name (p : string) : string := last_component "" p.

(** One turn of the loop of [get_folder_hash] on the paths of a pattern
    with metacharacters in its directory part: the name hashed is the last
    component of the path. *)
Definition hash_path (g : folder) (h : MD5.hasher) (path : string)
  : res MD5.hasher :=
  name_encoded ← encode (path_name path);
  let h1 := MD5.update h name_encoded in
  match assoc path g with
  | Some (RegFile content) => Ok (fold_left MD5.update (read_chunks content) h1)
  | Some SubDir => Raise IsADirectoryError
  | Some Dangling | None => Ok h1
  end.

Fixpoint hash_paths (g : folder) (h : MD5.hasher) (paths : list string)
  : res MD5.hasher :=
  match paths with
  | [] => Ok h
  | path :: rest => h' ← hash_path g h path; hash_paths g h' rest
  end.

Definition get_folder_hash_paths (g : folder) : res string :=
  h ← hash_paths g MD5.new (sorted (map fst g));
  mret (MD5.hexdigest h).

(** What is at [CURRICULUM_ROOT/<subject_name>]; [None] unless a
    directory. *)
Definition subject_path (w : world) (subject_name : string) : option folder :=
  match curriculum_data w with
  | RootDir entries =>
      match assoc subject_name entries with
      | Some (SubjectDir f) => Some f
      | _ => None
      end
  | _ => None
  end.

(** [VECTORSTORE_ROOT/<subject_name>_faiss]; a directory that is not there
    has none of its files. *)
Definition vectorstore_path (w : world) (subject_name : string) : vsdir :=
  default empty_vsdir (vectorstores w !! subject_name).

(** The paths the code looks up with [Path.exists] and [Path.is_dir]. *)
Definition subject_folder_path (subject_name : string) : string :=
  CURRICULUM_ROOT +:+ "/" +:+ subject_name.

Definition index_file_path (subject_name file : string) : string :=
  VECTORSTORE_ROOT +:+ "/" +:+ subject_name +:+ "_faiss/" +:+ file.

(** [Path.exists()] and [Path.is_dir()] answer by looking the path up.
    When the look-up fails for another reason than the path not being there
    (a name too long for the file system, a directory that cannot be
    searched) they raise its error; [stat_error] of the world has it. *)
Definition stat_path {A} (path : string) (answer : world -> A) : M A := fun w =>
  match stat_error w path with
  | Some e => (Raise e, w)
  | None => (Ok (answer w), w)
  end.

Definition write_vsdir (subject_name : string) (f : vsdir -> vsdir) : M unit :=
  modify (fun w =>
    set_vectorstores (<[subject_name := f (vectorstore_path w subject_name)]> (vectorstores w)) w).

Section DataLoading.
Variable E : Env.

(** [(Path(CURRICULUM_ROOT) / subject_name).is_dir()], the look-up having
    gone through. *)
Definition subject_is_dir (w : world) (subject_name : string) : bool :=
  if one_component subject_name
  then bool_decide (is_Some (subject_path w subject_name))
  else is_dir_path E (curriculum_data w) subject_name.

(** What [glob.glob(os.path.join(folder_path, "*.pdf"))] works on, for the
    folder path of a subject: the folder of that name when the name is
    literal, and otherwise whatever the path matches or leads to.
    [pdf_files] are the names found (paths in the second case), [pdf_dir]
    is where they lead. *)
Definition pdf_dir (w : world) (subject_name : string) : option folder :=
  if literal_name subject_name
  then subject_path w subject_name
  else Some (glob_magic E (curriculum_data w) subject_name).

Definition pdf_files (w : world) (subject_name : string) : list string :=
  if literal_name subject_name
  then glob_pdf (subject_path w subject_name)
  else map fst (glob_magic E (curriculum_data w) subject_name).

(** [get_folder_hash(Path(CURRICULUM_ROOT) / subject_name)] *)
Definition folder_hash (w : world) (subject_name : string) : res string :=
  if literal_name subject_name
  then get_folder_hash (subject_path w subject_name)
  else get_folder_hash_paths (glob_magic E (curriculum_data w) subject_name).

(** A step on the disk that may fail: [mkdir], opening for writing. *)
Definition disk_step : M unit :=
  call (fun t => match disk_fault E t with Some e => Raise e | None => Ok tt end).

(** [Path(...).mkdir(parents=True, exist_ok=True)] *)
Definition mkdir (subject_name : string) : M unit :=
  disk_step;; write_vsdir subject_name (fun d => d).

Definition get_metadata (subject_name : string) : M json :=
  d ← gets (fun w => vectorstore_path w subject_name);
  match metadata_json d with
  | Some content =>
      try_except_only is_JSONDecodeError
        (text ← lift (read_text content); lift (json_loads E text))
        (fun _ => mret (JDict []))
  | None => mret (JDict [])
  end.

(** [with open(path, 'w') as f: json.dump(v, f, indent=4)]: opening
    empties the file, and a failed write leaves what was written so far. *)
Definition dump_metadata (subject_name : string) (v : json) : M unit :=
  disk_step;;
  write_vsdir subject_name (fun d => VsDir (index_faiss d) (index_pkl d) (Some []));;
  let data := json_dumps E v in
  fault ← call (fun t => Ok (disk_write E t data));
  match fault with
  | None =>
      write_vsdir subject_name (fun d => VsDir (index_faiss d) (index_pkl d) (Some data))
  | Some (e, n) =>
      write_vsdir subject_name (fun d =>
        VsDir (index_faiss d) (index_pkl d) (Some (take n data)));;
      raise e
  end.

Definition save_metadata (subject_name files_hash : string) (num_documents num_chunks : nat)
  : M json :=
  last_build ← call (fun t => Ok (now_isoformat E t));
  let metadata := JDict [ ("file_hash", JStr files_hash);
                          ("num_documents", JInt (Z.of_nat num_documents));
                          ("num_chunks", JInt (Z.of_nat num_chunks));
                          ("last_build", JStr last_build) ] in
  mkdir subject_name;;
  dump_metadata subject_name metadata;;
  mret metadata.

Definition should_rebuild_vectorstore (subject_name : string) : M bool :=
  faiss ← stat_path (index_file_path subject_name "index.faiss")
             (fun w => bool_decide (is_Some (index_faiss (vectorstore_path w subject_name))));
  missing ← (if negb faiss return M bool then mret true
             else
               pkl ← stat_path (index_file_path subject_name "index.pkl")
                       (fun w => bool_decide
                          (is_Some (index_pkl (vectorstore_path w subject_name))));
               mret (negb pkl));
  if (missing : bool) then mret true
  else
    current_hash ← (w ← gets id; lift (folder_hash w subject_name));
    metadata ← get_metadata subject_name;
    stored ← lift (py_get metadata "file_hash");
    if negb (eq_str stored current_hash) then mret true else mret false.

Definition create_embeddings : M embeddings :=
  call (fun t => new_embeddings E t EMBEDDING_MODEL).

(** The loop over [pdf_files]: a file that cannot be loaded is skipped. *)
Definition load_pdfs (d : option folder) (pdf_files : list string) : M (list document) :=
  for_each pdf_files [] (fun all_documents pdf_file =>
    try_except
      (documents ← call (fun t =>
         pdf_load E t pdf_file (default Dangling (node_at d pdf_file)));
       mret (all_documents ++ documents))
      (fun _ => mret all_documents)).

(** [vectorstore.save_local(path)] *)
Definition save_local (subject_name : string) (vs : vectorstore) : M unit :=
  o ← call (fun t => Ok (faiss_save_local E t vs));
  match o with
  | Saved f p =>
      write_vsdir subject_name (fun d => VsDir (Some f) (Some p) (metadata_json d))
  | SaveFailed e f p =>
      write_vsdir subject_name (fun d =>
        VsDir (from_option Some (index_faiss d) f)
              (from_option Some (index_pkl d) p) (metadata_json d));;
      raise e
  end.

(** The body of the [try] of [build_vectorstore] *)
Definition build_attempt (subject_name : string) (all_documents text_chunks : list document)
  : M (option vectorstore * option embeddings) :=
  embeddings ← create_embeddings;
  vectorstore ← call (fun t => faiss_from_documents E t text_chunks embeddings);
  mkdir subject_name;;
  save_local subject_name vectorstore;;
  files_hash ← (w ← gets id; lift (folder_hash w subject_name));
  save_metadata subject_name files_hash (length all_documents) (length text_chunks);;
  mret (Some vectorstore, Some embeddings).

Definition build_vectorstore (subject_name : string)
  : M (option vectorstore * option embeddings) :=
  print (LogBuilding subject_name);;
  is_dir ← stat_path (subject_folder_path subject_name)
              (fun w => subject_is_dir w subject_name);
  if negb is_dir then mret (None, None)
  else
    found ← gets (fun w => pdf_dir w subject_name);
    names ← gets (fun w => pdf_files w subject_name);
    let pdf_files := sorted names in
    all_documents ← load_pdfs found pdf_files;
    match all_documents with
    | [] => mret (None, None)
    | _ =>
        text_chunks ← call (fun t => split_documents E t all_documents);
        try_except
          (build_attempt subject_name all_documents text_chunks)
          (fun _ => mret (None, None))
    end.

(** The body of the [try] of [load_vectorstore] *)
Definition load_attempt (subject_name : string)
  : M (option vectorstore * option embeddings) :=
  embeddings ← create_embeddings;
  vectorstore ← (d ← gets (fun w => vectorstore_path w subject_name);
                 call (fun t => faiss_load_local E t d embeddings));
  metadata ← get_metadata subject_name;
  (if truthy metadata
   then lift (py_get metadata "num_chunks");; lift (py_get metadata "last_build");; mret tt
   else mret tt);;
  mret (Some vectorstore, Some embeddings).

Definition load_vectorstore (subject_name : string)
  : M (option vectorstore * option embeddings) :=
  print (LogLoading subject_name);;
  d ← gets (fun w => vectorstore_path w subject_name);
  if negb (bool_decide (is_Some (index_faiss d)))
  then build_vectorstore subject_name
  else try_except (load_attempt subject_name)
                  (fun _ => build_vectorstore subject_name).

Definition initialize_vectorstore (subject_name : string) (force_rebuild : bool)
  : M (option vectorstore * option embeddings) :=
  cache ← gets GLOBAL_VECTORSTORES;
  if bool_decide (is_Some (cache !! subject_name)) && negb force_rebuild
  then
    cached ← lift (match cache !! subject_name with
                   | Some vs => Ok vs
                   | None => Raise KeyError
                   end);
    embeddings ← create_embeddings;
    mret (Some cached, Some embeddings)
  else
    rebuild ← (if force_rebuild return M bool then mret true
               else should_rebuild_vectorstore subject_name);
    if (rebuild : bool) then build_vectorstore subject_name
    else load_vectorstore subject_name.

Definition get_available_subjects : M (list string) :=
  root ← gets curriculum_data;
  match root with
  | NoRoot => mret []
  | RootFile => raise NotADirectoryError
  | RootDir entries =>
      let subjects :=
        flat_map (fun '(name, node) =>
          match node with
          | SubjectDir f =>
              match path_glob_pdf f with [] => [] | _ => [name] end
          | PlainFile => []
          end) entries in
      mret (sorted subjects)
  end.

End DataLoading.

(* ===================================================================== *)
(** * rag.py                                                              *)
(* ===================================================================== *)

Definition REPO_ID : string := "mistralai/Mistral-7B-Instruct-v0.3".

Definition nl : string := String (ascii_of_nat 10) "".

(** [sep.join(items)] *)
Fixpoint join (sep : string) (items : list string) : string :=
  match items with
  | [] => ""
  | [x] => x
  | x :: rest => x +:+ sep +:+ join sep rest
  end.

(** [f"SSS {level} {subject_name} syllabus content for the topic: {topic}"] *)
Definition retrieval_query (level subject_name topic : string) : string :=
  "SSS " +:+ level +:+ " " +:+ subject_name
    +:+ " syllabus content for the topic: " +:+ topic.

(** The context block: the page contents joined by a line of dashes. *)
Definition context_of (source_documents : list document) : string :=
  join (nl +:+ "---" +:+ nl) (map page_content source_documents).

Section Rag.
Variable E : Env.

Definition initialize_hf_llm : M llm :=
  current ← gets LLM;
  match current with
  | Some l => mret l
  | None =>
      token ← gets hf_token;
      match token with
      | Some tok =>
          if String.eqb tok ""
          then raise (EnvironmentError "HUGGINGFACEHUB_API_TOKEN is not set.")
          else
            try_except
              (l ← call (fun t => new_chat_model E t REPO_ID tok);
               modify (set_LLM (Some l));;
               mret l)
              (fun e => raise e)
      | None => raise (EnvironmentError "HUGGINGFACEHUB_API_TOKEN is not set.")
      end
  end.

Definition create_rag_components (subject_name : string)
    (vectorstore : option vectorstore) (llm : option llm) : M (option components) :=
  match vectorstore with
  | None => mret None
  | Some vs =>
      match llm with
      | None => mret None
      | Some l =>
          try_except
            (chain ← call (fun t => new_llm_chain E t l);
             retriever ← call (fun t => as_retriever E t vs 3);
             mret (Some (Components (Some retriever) (Some chain))))
            (fun _ => mret None)
      end
  end.

Definition load_subject_components (subject_name : string) : M bool :=
  current ← gets LLM;
  llm_ready ← match current with
              | None => try_except (initialize_hf_llm;; mret true) (fun _ => mret false)
              | Some _ => mret true
              end;
  if negb llm_ready then mret false
  else
    initialized ← try_except
                    (r ← initialize_vectorstore E subject_name false; mret (Some (fst r)))
                    (fun _ => mret None);
    match initialized with
    | None => mret false
    | Some (Some vs) =>
        llm ← gets LLM;
        components ← create_rag_components subject_name (Some vs) llm;
        match components with
        | Some c =>
            modify (fun w => set_RAG_COMPONENTS (<[subject_name := c]> (RAG_COMPONENTS w)) w);;
            mret true
        | None => mret false
        end
    | Some None => mret false
    end.

Definition generate_lesson (subject_name topic level : string) (pace : Pace)
  : M (option string) :=
  found ← gets (fun w => RAG_COMPONENTS w !! subject_name);
  match found with
  | None => print (LogNotInitialized subject_name);; mret None
  | Some components =>
      print (LogGenerating subject_name topic level pace);;
      let retriever := c_retriever components in
      let chain := c_llm_chain components in
      try_except
        (source_documents ←
           match retriever with
           | Some r =>
               call (fun t => get_relevant_documents E t r
                                (retrieval_query level subject_name topic))
           | None => raise AttributeError
           end;
         let context_text := context_of source_documents in
         lesson_text ←
           match chain with
           | Some c =>
               call (fun t => chain_invoke E t c context_text topic level pace subject_name)
           | None => raise AttributeError
           end;
         print (LogLesson subject_name level pace lesson_text);;
         mret (Some lesson_text))
        (fun e => print (LogGenerationError e);; mret None)
  end.

End Rag.

(* ===================================================================== *)
(** * main.py                                                             *)
(* ===================================================================== *)

Inductive SSSLevel := SSS_1 | SSS_2 | SSS_3.

Definition level_str (l : SSSLevel) : string :=
  match l with SSS_1 => "SSS 1" | SSS_2 => "SSS 2" | SSS_3 => "SSS 3" end.

Record LessonRequest := {
  req_subject : string;
  req_topic : string;
  req_sss_level : SSSLevel;
  req_learning_pace : Pace
}.

Record LessonResponse := {
  subject : string;
  topic : string;
  sss_level : string;
  learning_pace : string;
  lesson_notes : string;
  status : string
}.

Definition PLACEHOLDER_NOTES : string :=
  "Lesson generation completed. Check server logs.".

Section Main.
Variable E : Env.

(** The handler of [POST /lesson]; an [HTTPException] is raised as in the
    source and turned into a response by [post_lesson] below. *)
Definition create_lesson (request : LessonRequest) : M LessonResponse :=
  available ← gets AVAILABLE_SUBJECTS;
  (if negb (bool_decide (req_subject request ∈ available))
   then raise (HTTPException 404
          ("Subject '" +:+ req_subject request +:+ "' not found. Available: "
             +:+ join ", " available))
   else mret tt);;
  loaded ← gets (fun w => bool_decide (is_Some (RAG_COMPONENTS w !! req_subject request)));
  (if negb loaded
   then
     try_except
       (success ← load_subject_components E (req_subject request);
        if negb success
        then raise (PyException ("Failed to initialize " +:+ req_subject request))
        else mret tt)
       (fun e => raise (HTTPException 503
          ("Could not initialize '" +:+ req_subject request +:+ "': " +:+ exn_str e)))
   else mret tt);;
  try_except
    (lesson_text ← generate_lesson E (req_subject request) (req_topic request)
                     (level_str (req_sss_level request)) (req_learning_pace request);
     mret {| subject := req_subject request;
             topic := req_topic request;
             sss_level := level_str (req_sss_level request);
             learning_pace := pace_str (req_learning_pace request);
             lesson_notes :=
               match lesson_text with
               | Some text => if String.eqb text "" then PLACEHOLDER_NOTES else text
               | None => PLACEHOLDER_NOTES
               end;
             status := "success" |})
    (fun e => raise (HTTPException 500 ("Lesson generation failed: " +:+ exn_str e))).

(** What the client receives: the status code, and the body on success. *)
Inductive http_response :=
| Response (status_code : nat) (body : LessonResponse)
| ErrorResponse (status_code : nat) (detail : string).

Definition post_lesson (request : LessonRequest) : world -> http_response * world :=
  fun w =>
    match create_lesson request w with
    | (Ok body, w') => (Response 200 body, w')
    | (Raise (HTTPException code detail), w') => (ErrorResponse code detail, w')
    | (Raise _, w') => (ErrorResponse 500 "Internal Server Error", w')
    end.

End Main.

(* ===================================================================== *)
(** * Sample collaborators and worlds                                     *)
(* ===================================================================== *)

Definition dq : string := String (ascii_of_nat 34) "".

(** A JSON codec that knows one shape only, the object
    [{"file_hash": "<hex>"}]; any other text is reported as not JSON. *)
Definition sample_dumps (v : json) : list byte :=
  match py_get v "file_hash" with
  | Ok (JStr h) =>
      list_byte_of_string ("{" +:+ dq +:+ "file_hash" +:+ dq +:+ ": " +:+ dq +:+ h +:+ dq +:+ "}")
  | _ => list_byte_of_string "null"
  end.

Definition is_hex (c : ascii) : bool :=
  existsb (Ascii.eqb c) (list_ascii_of_string "0123456789abcdef").

Definition sample_loads (text : list byte) : res json :=
  let s := string_of_list_byte text in
  let pre := "{" +:+ dq +:+ "file_hash" +:+ dq +:+ ": " +:+ dq in
  let post := dq +:+ "}" in
  let n := String.length s in
  let body := substring (String.length pre) (n - String.length pre - String.length post) s in
  if String.prefix pre s && ends_with post s
     && (String.length pre + String.length post <=? n)%nat
     && forallb is_hex (list_ascii_of_string body)
  then Ok (JDict [("file_hash", JStr body)])
  else Raise JSONDecodeError.

(** Collaborators that all work. *)
Definition healthy_env : Env := {|
  pdf_load := fun _ name node =>
    match node with
    | RegFile content => Ok [Document (string_of_list_byte content) name 0]
    | _ => Raise (OSError "cannot open")
    end;
  split_documents := fun _ docs => Ok docs;
  new_embeddings := fun _ model => Ok (HuggingFaceEmbeddings model);
  faiss_from_documents := fun _ docs _ => Ok (FAISS docs);
  faiss_save_local := fun _ _ => Saved (list_byte_of_string "faiss") (list_byte_of_string "pkl");
  faiss_load_local := fun _ _ _ => Ok (FAISS []);
  disk_fault := fun _ => None;
  disk_write := fun _ _ => None;
  glob_magic := fun _ _ => [];
  is_dir_path := fun _ _ => false;
  json_loads := sample_loads;
  json_dumps := sample_dumps;
  now_isoformat := fun _ => "2025-01-01T00:00:00";
  new_chat_model := fun _ repo tok => Ok (ChatHuggingFace repo tok);
  new_llm_chain := fun _ l => Ok (LLMChain l);
  as_retriever := fun _ vs k => Ok (VectorStoreRetriever vs k);
  get_relevant_documents := fun _ r _ =>
    match r with VectorStoreRetriever (FAISS docs) k => Ok (firstn k docs) end;
  chain_invoke := fun _ _ _ topic _ _ _ => Ok ("# " +:+ topic)
|}.

(** The same, except that retrieval fails (the network is down). *)
Definition retrieval_down_env : Env := {|
  pdf_load := pdf_load healthy_env;
  split_documents := split_documents healthy_env;
  new_embeddings := new_embeddings healthy_env;
  faiss_from_documents := faiss_from_documents healthy_env;
  faiss_save_local := faiss_save_local healthy_env;
  faiss_load_local := faiss_load_local healthy_env;
  disk_fault := disk_fault healthy_env;
  disk_write := disk_write healthy_env;
  glob_magic := glob_magic healthy_env;
  is_dir_path := is_dir_path healthy_env;
  json_loads := json_loads healthy_env;
  json_dumps := json_dumps healthy_env;
  now_isoformat := now_isoformat healthy_env;
  new_chat_model := new_chat_model healthy_env;
  new_llm_chain := new_llm_chain healthy_env;
  as_retriever := as_retriever healthy_env;
  get_relevant_documents := fun _ _ _ => Raise (PyException "connection refused");
  chain_invoke := chain_invoke healthy_env
|}.

(** The same as [healthy_env], except that the persisted index cannot be
    read back (a corrupt or incompatible file). *)
Definition corrupt_index_env : Env := {|
  pdf_load := pdf_load healthy_env;
  split_documents := split_documents healthy_env;
  new_embeddings := new_embeddings healthy_env;
  faiss_from_documents := faiss_from_documents healthy_env;
  faiss_save_local := faiss_save_local healthy_env;
  faiss_load_local := fun _ _ _ => Raise (PyException "could not read index");
  disk_fault := disk_fault healthy_env;
  disk_write := disk_write healthy_env;
  glob_magic := glob_magic healthy_env;
  is_dir_path := is_dir_path healthy_env;
  json_loads := json_loads healthy_env;
  json_dumps := json_dumps healthy_env;
  now_isoformat := now_isoformat healthy_env;
  new_chat_model := new_chat_model healthy_env;
  new_llm_chain := new_llm_chain healthy_env;
  as_retriever := as_retriever healthy_env;
  get_relevant_documents := get_relevant_documents healthy_env;
  chain_invoke := chain_invoke healthy_env
|}.


Definition maths_folder : folder :=
  [ ("b.pdf", RegFile (list_byte_of_string "%PDF-1.4 geometry"));
    ("a.pdf", RegFile (list_byte_of_string "%PDF-1.4 algebra"));
    ("notes.txt", RegFile (list_byte_of_string "todo")) ].

(** A fresh process: one subject on disk, nothing built, nothing loaded. *)
Definition fresh_world : world := {|
  clock := 0;
  curriculum_data := RootDir [ ("Mathematics", SubjectDir maths_folder);
                               ("Empty", SubjectDir []);
                               ("README.md", PlainFile) ];
  vectorstores := ∅;
  stat_error := fun _ => None;
  hf_token := Some "hf_token";
  GLOBAL_VECTORSTORES := ∅;
  AVAILABLE_SUBJECTS := ["Mathematics"];
  LLM := None;
  RAG_COMPONENTS := ∅;
  stdout := []
|}.

(** Two folders that differ, one PDF against two. *)
Definition one_pdf_folder : folder :=
  [ ("a.pdf", RegFile (list_byte_of_string "b.pdf")) ].

Definition two_pdf_folder : folder :=
  [ ("a.pdf", RegFile []);
    ("b.pdf", RegFile []) ].

Definition maths_hash : string := "be0b869d3db0110304d28a212f3918e0".

(** The directory a build of Mathematics leaves behind. *)
Definition built_vsdir : vsdir :=
  VsDir (Some (list_byte_of_string "faiss"))
        (Some (list_byte_of_string "pkl"))
        (Some (sample_dumps (JDict [("file_hash", JStr maths_hash)]))).

(** A process started after Mathematics was built by an earlier one. *)
Definition built_world : world := {|
  clock := 0;
  curriculum_data := curriculum_data fresh_world;
  vectorstores := {[ "Mathematics"%string := built_vsdir ]};
  stat_error := fun _ => None;
  hf_token := Some "hf_token";
  GLOBAL_VECTORSTORES := ∅;
  AVAILABLE_SUBJECTS := ["Mathematics"];
  LLM := None;
  RAG_COMPONENTS := ∅;
  stdout := []
|}.

(** The same, with a metadata file that holds the single byte 0xFF. *)
Definition bad_metadata_world : world := {|
  clock := 0;
  curriculum_data := curriculum_data fresh_world;
  vectorstores :=
    {[ "Mathematics"%string :=
         VsDir (index_faiss built_vsdir) (index_pkl built_vsdir) (Some [Byte.xff]) ]};
  stat_error := fun _ => None;
  hf_token := Some "hf_token";
  GLOBAL_VECTORSTORES := ∅;
  AVAILABLE_SUBJECTS := ["Mathematics"];
  LLM := None;
  RAG_COMPONENTS := ∅;
  stdout := []
|}.




Definition maths_components : components :=
  Components (Some (VectorStoreRetriever (FAISS []) 3))
             (Some (LLMChain (ChatHuggingFace REPO_ID "hf_token"))).

(** A process in which Mathematics has been initialized. *)
Definition ready_world : world := {|
  clock := 0;
  curriculum_data := curriculum_data fresh_world;
  vectorstores := {[ "Mathematics"%string := built_vsdir ]};
  stat_error := fun _ => None;
  hf_token := Some "hf_token";
  GLOBAL_VECTORSTORES := ∅;
  AVAILABLE_SUBJECTS := ["Mathematics"];
  LLM := Some (ChatHuggingFace REPO_ID "hf_token");
  RAG_COMPONENTS := {[ "Mathematics"%string := maths_components ]};
  stdout := []
|}.

Definition algebra_request : LessonRequest := {|
  req_subject := "Mathematics";
  req_topic := "Algebra";
  req_sss_level := SSS_1;
  req_learning_pace := low
|}.

(* ===================================================================== *)
(** * Vocabulary of the statements                                        *)
(* ===================================================================== *)

(** The bytes a name of [d] contributes after its own name. *)
Definition content_at (d : option folder) (name : string) : list byte :=
  match node_at d name with
  | Some (RegFile content) => content
  | _ => []
  end.

(** No entry of the folder is a directory. *)
Definition only_files (f : folder) : Prop :=
  Forall (fun e => snd e <> SubDir) f.

(** Every name of the folder is UTF-8. *)
Definition valid_names (f : folder) : Prop :=
  Forall (fun e => utf8_name (fst e) = true) f.

(** What reading the metadata file of a directory gives. *)
Definition metadata_of (E : Env) (d : vsdir) : res json :=
  match metadata_json d with
  | Some content =>
      match read_text content with
      | Ok text =>
          match json_loads E text with
          | Raise JSONDecodeError => Ok (JDict [])
          | r => r
          end
      | Raise e => Raise e
      end
  | None => Ok (JDict [])
  end.

(** The fingerprint kept in the metadata file, as [should_rebuild_vectorstore]
    reads it. *)
Definition stored_fingerprint (E : Env) (d : vsdir) : res json :=
  m ← metadata_of E d; py_get m "file_hash".

(** Whether both index files of a subject are there, as the two calls of
    [exists()] find out, the second being made only when the first file is
    there. *)
Definition index_present (w : world) (subject_name : string) : res bool :=
  let d := vectorstore_path w subject_name in
  match stat_error w (index_file_path subject_name "index.faiss") with
  | Some e => Raise e
  | None =>
      match index_faiss d with
      | None => Ok false
      | Some _ =>
          match stat_error w (index_file_path subject_name "index.pkl") with
          | Some e => Raise e
          | None => Ok (bool_decide (is_Some (index_pkl d)))
          end
      end
  end.

(** The answer of [should_rebuild_vectorstore], from what is on disk. *)
Definition gate_decision (E : Env) (w : world) (subject_name : string) : res bool :=
  present ← index_present w subject_name;
  if (present : bool)
  then
    current ← folder_hash E w subject_name;
    stored ← stored_fingerprint E (vectorstore_path w subject_name);
    mret (negb (eq_str stored current))
  else Ok true.

(** The index of a build whose [try] starts at moment [t] is on disk:
    the embedding model, the index construction, the creation of the
    directory and [save_local] succeeded, and the two index files of [d']
    are those [save_local] wrote. *)
Definition index_persisted (E : Env) (t : nat) (chunks : list document)
    (vs : vectorstore) (emb : embeddings) (d' : vsdir) : Prop :=
  new_embeddings E t EMBEDDING_MODEL = Ok emb
  /\ faiss_from_documents E (1 + t) chunks emb = Ok vs
  /\ disk_fault E (2 + t) = None
  /\ exists f p, faiss_save_local E (3 + t) vs = Saved f p
                 /\ index_faiss d' = Some f /\ index_pkl d' = Some p.

(** [n] calls into collaborators later. *)
Fixpoint ticks (n : nat) (w : world) : world :=
  match n with
  | O => w
  | S n' => ticks n' (tick w)
  end.

(** Every run of [m] takes the world to one related to it by [R]. *)
Definition steps {A} (R : relation world) (m : M A) : Prop :=
  forall w, R w (snd (m w)).

(** Relations between worlds that the passing of time respects. *)
Class Ticking (R : relation world) := {
  ticking_preorder :: PreOrder R;
  ticking_tick w : R w (tick w)
}.

(** Relations that hold across whatever touches only the clock, the
    vectorstore directories and the console. *)
Class DiskOnly (R : relation world) := {
  disk_only_ticking :: Ticking R;
  disk_only_vectorstores v w : R w (set_vectorstores v w);
  disk_only_stdout o w : R w (set_stdout o w)
}.

(** The module globals and the curriculum are the same. *)
Definition same_globals (w w' : world) : Prop :=
  curriculum_data w' = curriculum_data w
  /\ hf_token w' = hf_token w
  /\ GLOBAL_VECTORSTORES w' = GLOBAL_VECTORSTORES w
  /\ AVAILABLE_SUBJECTS w' = AVAILABLE_SUBJECTS w
  /\ LLM w' = LLM w
  /\ RAG_COMPONENTS w' = RAG_COMPONENTS w.

(** Everything but the clock is the same. *)
Definition same_but_clock (w w' : world) : Prop :=
  same_globals w w'
  /\ vectorstores w' = vectorstores w
  /\ stdout w' = stdout w.

(** The world once [load_subject_components] has made sure of the model:
    [initialize_hf_llm] has run if [LLM] was [None]. *)
Definition llm_ensured (E : Env) (w : world) : world :=
  match LLM w with
  | Some _ => w
  | None => snd (initialize_hf_llm E w)
  end.

(** Both entries of a components dict are there. *)
Definition components_ok (c : components) : Prop :=
  is_Some (c_retriever c) /\ is_Some (c_llm_chain c).

(** The invariant of [RAG_COMPONENTS]. *)
Definition rag_ok (w : world) : Prop :=
  forall subject_name c, RAG_COMPONENTS w !! subject_name = Some c -> components_ok c.

(** The worlds a process can be in: it starts with [RAG_COMPONENTS] empty
    and then runs the functions of [rag.py] and the request handler. *)
Inductive reachable (E : Env) : world -> Prop :=
| reach_start w :
    RAG_COMPONENTS w = ∅ -> reachable E w
| reach_llm w :
    reachable E w -> reachable E (snd (initialize_hf_llm E w))
| reach_load w subject_name :
    reachable E w -> reachable E (snd (load_subject_components E subject_name w))
| reach_generate w subject_name topic level pace :
    reachable E w -> reachable E (snd (generate_lesson E subject_name topic level pace w))
| reach_post w request :
    reachable E w -> reachable E (snd (post_lesson E request w)).

(* ===================================================================== *)
(** * The rest of the modules: import, startup, status                    *)
(* ===================================================================== *)

Definition set_GLOBAL_VECTORSTORES (g : gmap string vectorstore) (w : world) : world :=
  World (clock w) (curriculum_data w) (vectorstores w) (stat_error w) (hf_token w)
        g (AVAILABLE_SUBJECTS w) (LLM w) (RAG_COMPONENTS w) (stdout w).

Definition set_AVAILABLE_SUBJECTS (a : list string) (w : world) : world :=
  World (clock w) (curriculum_data w) (vectorstores w) (stat_error w) (hf_token w)
        (GLOBAL_VECTORSTORES w) a (LLM w) (RAG_COMPONENTS w) (stdout w).

(** [initialize_all_vectorstores()]: discovers the subjects and initializes
    none of them. *)
Definition initialize_all_vectorstores : M (list string) :=
  subjects ← get_available_subjects;
  mret subjects.

(** What importing the modules does to the globals, [dataLoading] first
    ([GLOBAL_VECTORSTORES = {}], [AVAILABLE_SUBJECTS =
    initialize_all_vectorstores()]), then [rag] ([LLM = None],
    [RAG_COMPONENTS = {}]).  The token of the world is the variable of the
    environment as [load_dotenv()] leaves it. *)
Definition import_modules : M unit :=
  modify (set_GLOBAL_VECTORSTORES ∅);;
  subjects ← initialize_all_vectorstores;
  modify (set_AVAILABLE_SUBJECTS subjects);;
  modify (set_LLM None);;
  modify (set_RAG_COMPONENTS ∅).

Record StatusResponse := {
  available_subjects : list string;
  initialized_subjects : list string;
  ready : bool
}.

(** The handler of [GET /status] *)
Definition get_status : M StatusResponse :=
  available ← gets AVAILABLE_SUBJECTS;
  rag ← gets RAG_COMPONENTS;
  let initialized :=
    List.filter (fun s => bool_decide (is_Some (rag !! s))) available in
  mret {| available_subjects := available;
          initialized_subjects := initialized;
          ready := true |}.

(** The startup half of [lifespan]: the model is set up, and a failure to
    do so is printed and ignored. *)
Definition lifespan_startup (E : Env) : M unit :=
  try_except (initialize_hf_llm E;; mret tt) (fun _ => mret tt).

(* ===================================================================== *)
(** * More vocabulary of the statements                                   *)
(* ===================================================================== *)

(** The pages the loop of [build_vectorstore] collects from [names], the
    first file being loaded at moment [t]: those of the files that load, in
    the order of the files. *)
Fixpoint loaded_pages (E : Env) (d : option folder) (t : nat) (names : list string)
  : list document :=
  match names with
  | [] => []
  | name :: rest =>
      match pdf_load E t name (default Dangling (node_at d name)) with
      | Ok documents => documents
      | Raise _ => []
      end ++ loaded_pages E d (S t) rest
  end.

(** The MD5 of the empty message. *)
Definition EMPTY_FINGERPRINT : string := "d41d8cd98f00b204e9800998ecf8427e".

(** Nothing changed but the clock, the console and the vectorstore
    directory of [subject_name]. *)
Definition only_subject (subject_name : string) (w w' : world) : Prop :=
  same_globals w w'
  /\ forall other, other <> subject_name -> vectorstores w' !! other = vectorstores w !! other.

(** Nothing changed but the clock and the console. *)
Definition only_console (w w' : world) : Prop :=
  same_globals w w' /\ vectorstores w' = vectorstores w.

(** The codec reads back the fingerprint [h] from any record it wrote
    with it. *)
Definition reads_back (E : Env) (h : string) : Prop :=
  forall m, py_get m "file_hash" = Ok (JStr h) ->
    exists m', read_text (json_dumps E m) = Ok (json_dumps E m)
               /\ json_loads E (json_dumps E m) = Ok m'
               /\ py_get m' "file_hash" = Ok (JStr h).

(** A folder whose only PDF is a hidden file. *)
Definition hidden_pdf_folder : folder :=
  [ (".draft.pdf", RegFile (list_byte_of_string "%PDF-1.4 draft"));
    ("readme.txt", RegFile (list_byte_of_string "notes")) ].

Definition hidden_pdf_world : world := {|
  clock := 0;
  curriculum_data := RootDir [ ("Physics", SubjectDir hidden_pdf_folder) ];
  vectorstores := ∅;
  stat_error := fun _ => None;
  hf_token := Some "hf_token";
  GLOBAL_VECTORSTORES := ∅;
  AVAILABLE_SUBJECTS := ["Physics"];
  LLM := None;
  RAG_COMPONENTS := ∅;
  stdout := []
|}.

(** A process without a token for the model. *)
Definition no_token_world : world := {|
  clock := 0;
  curriculum_data := curriculum_data fresh_world;
  vectorstores := ∅;
  stat_error := fun _ => None;
  hf_token := None;
  GLOBAL_VECTORSTORES := ∅;
  AVAILABLE_SUBJECTS := ["Mathematics"];
  LLM := None;
  RAG_COMPONENTS := ∅;
  stdout := []
|}.

(** The catalogue is the same: the curriculum, the token, the cache of
    [dataLoading] and the list of subjects found at import. *)
Definition same_setup (w w' : world) : Prop :=
  curriculum_data w' = curriculum_data w
  /\ hf_token w' = hf_token w
  /\ GLOBAL_VECTORSTORES w' = GLOBAL_VECTORSTORES w
  /\ AVAILABLE_SUBJECTS w' = AVAILABLE_SUBJECTS w.

(** A folder in which a directory bears the name of a PDF. *)
Definition pdf_directory_folder : folder :=
  [ ("a.pdf", RegFile (list_byte_of_string "%PDF-1.4 algebra"));
    ("scans.pdf", SubDir) ].

Definition pdf_directory_world : world := {|
  clock := 0;
  curriculum_data := RootDir [ ("Biology", SubjectDir pdf_directory_folder) ];
  vectorstores := {[ "Biology"%string := built_vsdir ]};
  stat_error := fun _ => None;
  hf_token := Some "hf_token";
  GLOBAL_VECTORSTORES := ∅;
  AVAILABLE_SUBJECTS := ["Biology"];
  LLM := None;
  RAG_COMPONENTS := ∅;
  stdout := []
|}.

Definition physics_request : LessonRequest := {|
  req_subject := "Physics";
  req_topic := "Waves";
  req_sss_level := SSS_2;
  req_learning_pace := moderate
|}.

(** [glob.glob] for the subject name [Math[1]]: read as a pattern it
    matches the entry [Math1], and not the entry [Math[1]] itself. *)
Definition pattern_glob (root : root_dir) (name : string) : list (string * fnode) :=
  if String.eqb name "Math[1]"
  then match root with
       | RootDir entries =>
           match assoc "Math1" entries with
           | Some (SubjectDir f) =>
               map (fun e => (CURRICULUM_ROOT +:+ "/Math1/" +:+ fst e, snd e))
                   (List.filter (fun e => glob_matches (fst e)) f)
           | _ => []
           end
       | _ => []
       end
  else [].

Definition pattern_env : Env := {|
  pdf_load := pdf_load healthy_env;
  split_documents := split_documents healthy_env;
  new_embeddings := new_embeddings healthy_env;
  faiss_from_documents := faiss_from_documents healthy_env;
  faiss_save_local := faiss_save_local healthy_env;
  faiss_load_local := faiss_load_local healthy_env;
  disk_fault := disk_fault healthy_env;
  disk_write := disk_write healthy_env;
  glob_magic := pattern_glob;
  is_dir_path := is_dir_path healthy_env;
  json_loads := json_loads healthy_env;
  json_dumps := json_dumps healthy_env;
  now_isoformat := now_isoformat healthy_env;
  new_chat_model := new_chat_model healthy_env;
  new_llm_chain := new_llm_chain healthy_env;
  as_retriever := as_retriever healthy_env;
  get_relevant_documents := get_relevant_documents healthy_env;
  chain_invoke := chain_invoke healthy_env
|}.

Definition math1_folder : folder :=
  [ ("b.pdf", RegFile (list_byte_of_string "%PDF-1.4 sets")) ].

Definition bracket_folder : folder :=
  [ ("a.pdf", RegFile (list_byte_of_string "%PDF-1.4 graphs")) ].

Definition math1_hash : string := "efc0f3aac220f63ecc4a70b65e3476b2".

(** Two subjects, [Math1] and [Math[1]]; the vectorstore directory of the
    second holds an index and the fingerprint of the folder of the first. *)
Definition pattern_world : world := {|
  clock := 0;
  curriculum_data := RootDir [ ("Math1", SubjectDir math1_folder);
                               ("Math[1]", SubjectDir bracket_folder) ];
  vectorstores :=
    {[ "Math[1]"%string :=
         VsDir (Some (list_byte_of_string "faiss")) (Some (list_byte_of_string "pkl"))
               (Some (sample_dumps (JDict [("file_hash", JStr math1_hash)]))) ]};
  stat_error := fun _ => None;
  hf_token := Some "hf_token";
  GLOBAL_VECTORSTORES := ∅;
  AVAILABLE_SUBJECTS := ["Math1"; "Math[1]"];
  LLM := None;
  RAG_COMPONENTS := ∅;
  stdout := []
|}.

(** The world of [built_world], with a vectorstore directory that cannot
    be searched: looking up a file in it fails. *)
Definition unsearchable_world : world := {|
  clock := 0;
  curriculum_data := curriculum_data built_world;
  vectorstores := vectorstores built_world;
  stat_error := fun path =>
    if String.eqb path (index_file_path "Mathematics" "index.faiss")
    then Some (OSError "Permission denied")
    else None;
  hf_token := Some "hf_token";
  GLOBAL_VECTORSTORES := ∅;
  AVAILABLE_SUBJECTS := ["Mathematics"];
  LLM := None;
  RAG_COMPONENTS := ∅;
  stdout := []
|}.

(* ===================================================================== *)
(** * The MD5 of known messages                                           *)
(* ===================================================================== *)

Example md5_empty :
  MD5.hexdigest MD5.new = "d41d8cd98f00b204e9800998ecf8427e"%string.
Proof. vm_compute. reflexivity. Qed.

Example md5_abc :
  MD5.hexdigest (MD5.update MD5.new (name_bytes "abc"))
  = "900150983cd24fb0d6963f7d28e17f72"%string.
Proof. vm_compute. reflexivity. Qed.

Example md5_two_blocks :
  MD5.hexdigest_of (repeat "a"%byte 70) = "0f5c6c4e740bfcc08c3c26ccb2673d46"%string.
Proof. vm_compute. reflexivity. Qed.

Example md5_update_twice :
  MD5.hexdigest (MD5.update (MD5.update MD5.new (name_bytes "a")) (name_bytes "bc"))
  = MD5.hexdigest (MD5.update MD5.new (name_bytes "abc")).
Proof. reflexivity. Qed.

(* ===================================================================== *)
(** * Reasoning about runs                                                *)
(* ===================================================================== *)

Ltac unfold_monad :=
  unfold mbind, M_bind, mret, M_ret, gets, modify, call, lift, raise,
         try_except, try_except_only, print in *.

Lemma bind_ok {A B} (m : M A) (f : A -> M B) (w w' : world) (a : A) :
  m w = (Ok a, w') -> (m ≫= f) w = f a w'.
Proof. intros H. unfold mbind, M_bind. by rewrite H. Qed.

Lemma bind_raise {A B} (m : M A) (f : A -> M B) (w w' : world) (e : exn) :
  m w = (Raise e, w') -> (m ≫= f) w = (Raise e, w').
Proof. intros H. unfold mbind, M_bind. by rewrite H. Qed.

Lemma try_except_ok {A} (body : M A) (handler : exn -> M A) (w w' : world) (a : A) :
  body w = (Ok a, w') -> try_except body handler w = (Ok a, w').
Proof. intros H. unfold try_except. by rewrite H. Qed.

Lemma try_except_raise {A} (body : M A) (handler : exn -> M A) (w w' : world) (e : exn) :
  body w = (Raise e, w') -> try_except body handler w = handler e w'.
Proof. intros H. unfold try_except. by rewrite H. Qed.

Section Steps.
Context (R : relation world) `{!PreOrder R}.

Lemma steps_ret {A} (a : A) : steps R (mret a).
Proof. intros w. reflexivity. Qed.

Lemma steps_raise {A} (e : exn) : steps R (@raise A e).
Proof. intros w. reflexivity. Qed.

Lemma steps_lift {A} (r : res A) : steps R (lift r).
Proof. intros w. reflexivity. Qed.

Lemma steps_gets {A} (f : world -> A) : steps R (gets f).
Proof. intros w. reflexivity. Qed.

Lemma steps_modify (f : world -> world) :
  (forall w, R w (f w)) -> steps R (modify f).
Proof. intros H w. apply H. Qed.

Lemma steps_bind {A B} (m : M A) (f : A -> M B) :
  steps R m -> (forall a, steps R (f a)) -> steps R (m ≫= f).
Proof.
  intros Hm Hf w. unfold mbind, M_bind. specialize (Hm w).
  destruct (m w) as [[a|e] w1]; simpl in *; [|done].
  etrans; [exact Hm|]. apply Hf.
Qed.

Lemma steps_try_except {A} (body : M A) (handler : exn -> M A) :
  steps R body -> (forall e, steps R (handler e)) -> steps R (try_except body handler).
Proof.
  intros Hm Hh w. unfold try_except. specialize (Hm w).
  destruct (body w) as [[a|e] w1]; simpl in *; [done|].
  etrans; [exact Hm|]. apply Hh.
Qed.

Lemma steps_try_except_only {A} only (body : M A) (handler : exn -> M A) :
  steps R body -> (forall e, steps R (handler e)) ->
  steps R (try_except_only only body handler).
Proof.
  intros Hm Hh w. unfold try_except_only. specialize (Hm w).
  destruct (body w) as [[a|e] w1]; simpl in *; [done|].
  destruct (only e); [|done]. etrans; [exact Hm|]. apply Hh.
Qed.

Lemma steps_stat_path {A} (path : string) (answer : world -> A) :
  steps R (stat_path path answer).
Proof. intros w. unfold stat_path. destruct (stat_error w path); reflexivity. Qed.

Lemma steps_for_each {A B} (xs : list A) (acc : B) (body : B -> A -> M B) :
  (forall acc x, steps R (body acc x)) -> steps R (for_each xs acc body).
Proof.
  intros Hbody. revert acc. induction xs as [|x xs IH]; intros acc; simpl.
  - apply steps_ret.
  - apply steps_bind; [apply Hbody | intros acc'; apply IH].
Qed.

End Steps.

Lemma steps_call {A} (R : relation world) `{!Ticking R} (f : nat -> res A) :
  steps R (call f).
Proof. intros w. apply ticking_tick. Qed.

Lemma steps_print (R : relation world) `{!DiskOnly R} (l : log_line) :
  steps R (print l).
Proof. intros w. apply disk_only_stdout. Qed.

Lemma steps_write_vsdir (R : relation world) `{!DiskOnly R} s (f : vsdir -> vsdir) :
  steps R (write_vsdir s f).
Proof. intros w. apply disk_only_vectorstores. Qed.

#[export] Instance same_globals_preorder : PreOrder same_globals.
Proof.
  split.
  - by intros w.
  - intros w1 w2 w3 (?&?&?&?&?&?) (?&?&?&?&?&?). unfold same_globals.
    repeat split; congruence.
Qed.

#[export] Instance same_globals_ticking : Ticking same_globals.
Proof. split; [apply _|]. intros w. by repeat split. Qed.

#[export] Instance same_globals_disk_only : DiskOnly same_globals.
Proof. split; [apply _| |]; intros; by repeat split. Qed.

#[export] Instance same_but_clock_preorder : PreOrder same_but_clock.
Proof.
  split.
  - by intros w.
  - intros w1 w2 w3 (Hg1&?&?) (Hg2&?&?). unfold same_but_clock.
    split; [exact (transitivity Hg1 Hg2)|]. split; congruence.
Qed.

#[export] Instance same_but_clock_ticking : Ticking same_but_clock.
Proof. split; [apply _|]. intros w. by repeat split. Qed.

(** Runs the steps lemmas through the structure of a program. *)
Ltac steps_tac :=
  repeat
    (cbv beta;
     lazymatch goal with
     | |- steps ?R (mret _) => apply (steps_ret R)
     | |- steps ?R (raise _) => apply (steps_raise R)
     | |- steps ?R (lift _) => apply (steps_lift R)
     | |- steps ?R (gets _) => apply (steps_gets R)
     | |- steps ?R (stat_path _ _) => apply (steps_stat_path R)
     | |- steps ?R (call _) => apply (steps_call R)
     | |- steps ?R (print _) => apply (steps_print R)
     | |- steps ?R (write_vsdir _ _) => apply (steps_write_vsdir R)
     | |- steps ?R (_ ≫= _) => apply (steps_bind R); [|intros ?]
     | |- steps ?R (try_except _ _) => apply (steps_try_except R); [|intros ?]
     | |- steps ?R (try_except_only _ _ _) =>
         apply (steps_try_except_only R); [|intros ?]
     | |- steps ?R (for_each _ _ _) => apply (steps_for_each R); intros ? ?
     | |- steps ?R (match ?x with _ => _ end) => destruct x
     end).

Section DataLoadingSteps.
Context (E : Env) (R : relation world).

Lemma steps_get_metadata `{!Ticking R} s : steps R (get_metadata E s).
Proof. unfold get_metadata. steps_tac. Qed.

Lemma steps_should_rebuild `{!Ticking R} s : steps R (should_rebuild_vectorstore E s).
Proof.
  unfold should_rebuild_vectorstore. steps_tac. apply steps_get_metadata.
Qed.

Lemma steps_load_attempt `{!Ticking R} s : steps R (load_attempt E s).
Proof.
  unfold load_attempt, create_embeddings. steps_tac. apply steps_get_metadata.
Qed.

Lemma steps_build_attempt `{!DiskOnly R} s docs chunks :
  steps R (build_attempt E s docs chunks).
Proof.
  unfold build_attempt, save_metadata, dump_metadata, save_local, mkdir, disk_step,
    create_embeddings.
  steps_tac.
Qed.

Lemma steps_build_vectorstore `{!DiskOnly R} s : steps R (build_vectorstore E s).
Proof.
  unfold build_vectorstore, load_pdfs. steps_tac. apply steps_build_attempt; apply _.
Qed.

Lemma steps_load_vectorstore `{!DiskOnly R} s : steps R (load_vectorstore E s).
Proof.
  unfold load_vectorstore. steps_tac;
    first [apply steps_build_vectorstore | apply steps_load_attempt]; apply _.
Qed.

Lemma steps_initialize_vectorstore `{!DiskOnly R} s force :
  steps R (initialize_vectorstore E s force).
Proof.
  unfold initialize_vectorstore, create_embeddings. steps_tac;
    first [ apply steps_build_vectorstore | apply steps_load_vectorstore
          | apply steps_should_rebuild ]; apply _.
Qed.

End DataLoadingSteps.

(* ===================================================================== *)
(** * Lists, slices and association lists                                 *)
(* ===================================================================== *)

Lemma chunks_concat {A} n fuel (bs : list A) :
  0 < n -> length bs <= fuel -> concat (chunks n fuel bs) = bs.
Proof.
  revert bs. induction fuel as [|fuel IH]; intros bs Hn Hlen.
  - destruct bs; simpl in *; [done|lia].
  - destruct bs as [|b bs']; [done|].
    cbn [chunks concat]. rewrite IH; [apply take_drop | done |].
    rewrite length_drop. simpl in *. lia.
Qed.

Lemma fold_update (l : list (list byte)) (h : MD5.hasher) :
  fold_left MD5.update l h = h ++ concat l.
Proof.
  revert h. induction l as [|x l IH]; intros h; simpl.
  - by rewrite app_nil_r.
  - rewrite IH. unfold MD5.update. by rewrite <- app_assoc.
Qed.

Lemma update_read_chunks (content : list byte) (h : MD5.hasher) :
  fold_left MD5.update (read_chunks content) h = h ++ content.
Proof.
  rewrite fold_update. unfold read_chunks.
  rewrite chunks_concat; [done | lia | done].
Qed.

Lemma assoc_None {V} (k : string) (f : list (string * V)) :
  assoc k f = None <-> k ∉ map fst f.
Proof.
  induction f as [|[k' v] f IH]; simpl.
  - split; [intros _; apply not_elem_of_nil | done].
  - destruct (String.eqb_spec k k') as [->|Hne].
    + split; [done|]. intros H. exfalso. apply H. left.
    + rewrite IH. rewrite not_elem_of_cons. tauto.
Qed.

Lemma assoc_Some {V} (k : string) (v : V) (f : list (string * V)) :
  NoDup (map fst f) -> assoc k f = Some v <-> (k, v) ∈ f.
Proof.
  induction f as [|[k' v'] f IH]; simpl; intros Hnd.
  - split; [done|]. intros H. by apply elem_of_nil in H.
  - apply NoDup_cons in Hnd as [Hk' Hnd].
    destruct (String.eqb_spec k k') as [->|Hne].
    + split.
      * intros [= ->]. left.
      * intros [[= ->]|Hin]%elem_of_cons; [done|].
        exfalso. apply Hk'. apply (list_elem_of_fmap_2 fst) in Hin. done.
    + rewrite IH by done. rewrite elem_of_cons.
      split; [tauto|]. intros [[= -> ->]|Hin]; done.
Qed.

Lemma assoc_Permutation {V} (k : string) (f f' : list (string * V)) :
  NoDup (map fst f) -> f ≡ₚ f' -> assoc k f = assoc k f'.
Proof.
  intros Hnd Hp.
  assert (Hnd' : NoDup (map fst f')).
  { by rewrite <- (Permutation_map fst Hp). }
  destruct (assoc k f) as [v|] eqn:Hf.
  - symmetry. apply assoc_Some; [done|]. rewrite <- Hp. by apply assoc_Some.
  - symmetry. apply assoc_None. apply assoc_None in Hf.
    by rewrite <- (Permutation_map fst Hp).
Qed.

Lemma sorted_Permutation (l l' : list string) :
  l ≡ₚ l' -> sorted l = sorted l'.
Proof.
  intros Hp. unfold sorted.
  apply (Sorted_unique String.le).
  - apply Sorted_merge_sort; apply _.
  - apply Sorted_merge_sort; apply _.
  - by rewrite !merge_sort_Permutation.
Qed.

Lemma sorted_elem_of (l : list string) (x : string) :
  x ∈ sorted l <-> x ∈ l.
Proof. unfold sorted. by rewrite merge_sort_Permutation. Qed.

Lemma assoc_elem_of {V} (k : string) (v : V) (f : list (string * V)) :
  assoc k f = Some v -> (k, v) ∈ f.
Proof.
  induction f as [|[k' v'] f IH]; simpl; [done|].
  destruct (String.eqb_spec k k') as [->|Hne].
  - intros [= ->]. left.
  - intros H. right. by apply IH.
Qed.

Lemma assoc_app {V} (k : string) (l1 l2 : list (string * V)) :
  assoc k (l1 ++ l2) =
  match assoc k l1 with Some v => Some v | None => assoc k l2 end.
Proof.
  induction l1 as [|[k' v'] l1 IH]; simpl; [done|].
  by destruct (String.eqb k k').
Qed.

Lemma concat_map_length_Permutation {A} (g : A -> list byte) (l l' : list A) :
  l ≡ₚ l' -> length (concat (map g l)) = length (concat (map g l')).
Proof.
  induction 1; simpl; rewrite ?length_app in *; lia.
Qed.

Lemma concat_map_ext {A} (g g' : A -> list byte) (l : list A) :
  (forall x, x ∈ l -> g x = g' x) -> concat (map g l) = concat (map g' l).
Proof.
  induction l as [|x l IH]; simpl; intros H; [done|].
  rewrite (H x) by left. rewrite IH; [done|].
  intros y Hy. apply H. by right.
Qed.

(* ===================================================================== *)
(** * The content hasher                                                  *)
(* ===================================================================== *)

Lemma hash_files_ext (d d' : option folder) (h : MD5.hasher) (names : list string) :
  (forall n, node_at d n = node_at d' n) ->
  hash_files d h names = hash_files d' h names.
Proof.
  intros Hext. revert h. induction names as [|n names IH]; intros h; simpl; [done|].
  unfold hash_file. rewrite Hext. destruct (encode n) as [b|e]; simpl; [|done].
  destruct (node_at d' n) as [[content| |]|]; simpl; by rewrite ?IH.
Qed.

Lemma hash_files_fed (d : option folder) (h : MD5.hasher) (names : list string) :
  (forall n, n ∈ names -> node_at d n <> Some SubDir) ->
  (forall n, n ∈ names -> utf8_name n = true) ->
  hash_files d h names
  = Ok (h ++ concat (map (fun n => name_bytes n ++ content_at d n) names)).
Proof.
  revert h. induction names as [|n names IH]; intros h Hfiles Hvalid; simpl.
  - by rewrite app_nil_r.
  - assert (Hn : node_at d n <> Some SubDir) by (apply Hfiles; left).
    assert (Hrest : forall m, m ∈ names -> node_at d m <> Some SubDir).
    { intros m Hm. apply Hfiles. by right. }
    assert (Hrest' : forall m, m ∈ names -> utf8_name m = true).
    { intros m Hm. apply Hvalid. by right. }
    unfold hash_file, content_at, encode. rewrite (Hvalid n) by left. simpl.
    destruct (node_at d n) as [[content| |]|]; try done; simpl;
      rewrite ?update_read_chunks, (IH _ Hrest Hrest'); unfold MD5.update;
      by rewrite <- ?app_assoc, ?app_nil_r.
Qed.

Lemma valid_names_elem_of (f : folder) (n : string) :
  valid_names f -> n ∈ map fst f -> utf8_name n = true.
Proof.
  intros Hv Hn. apply list_elem_of_In, in_map_iff in Hn as ([n' node] & <- & Hin).
  unfold valid_names in Hv. rewrite Forall_forall in Hv.
  by apply (Hv (n', node)), list_elem_of_In.
Qed.

Lemma valid_names_glob_pdf (f : folder) (n : string) :
  valid_names f -> n ∈ sorted (glob_pdf (Some f)) -> utf8_name n = true.
Proof.
  intros Hv Hn. apply (proj1 (sorted_elem_of _ _)) in Hn. simpl in Hn.
  apply list_elem_of_filter in Hn as [_ Hn]. by apply (valid_names_elem_of f).
Qed.

Lemma only_files_node_at (f : folder) (n : string) :
  only_files f -> node_at (Some f) n <> Some SubDir.
Proof.
  intros Hf Hn. simpl in Hn. apply assoc_elem_of in Hn.
  unfold only_files in Hf. rewrite Forall_forall in Hf.
  by apply (Hf _ Hn).
Qed.

Lemma hashed_bytes_files (f : folder) :
  only_files f ->
  valid_names f ->
  hashed_bytes (Some f)
  = Ok (concat (map (fun n => name_bytes n ++ content_at (Some f) n)
                    (sorted (glob_pdf (Some f))))).
Proof.
  intros Hf Hv. unfold hashed_bytes. rewrite hash_files_fed; [done| |].
  - intros n _. by apply only_files_node_at.
  - intros n. by apply valid_names_glob_pdf.
Qed.

(** A matched name that is not UTF-8 makes the hasher raise. *)
Lemma hash_files_undecodable (d : option folder) (h : MD5.hasher)
    (names : list string) (n : string) :
  n ∈ names -> utf8_name n = false ->
  (forall m, m ∈ names -> node_at d m <> Some SubDir) ->
  hash_files d h names = Raise UnicodeEncodeError.
Proof.
  intros Hin Hn Hfiles. revert h. induction names as [|a names IH]; intros h.
  - by apply elem_of_nil in Hin.
  - cbn [hash_files]. unfold hash_file, encode.
    destruct (utf8_name a) eqn:Ha; [|done]. simpl.
    apply elem_of_cons in Hin as [->|Hin]; [congruence|].
    assert (Hrest : forall h', hash_files d h' names = Raise UnicodeEncodeError).
    { apply IH; [done|]. intros m Hm. apply Hfiles. by right. }
    assert (Ha' : node_at d a <> Some SubDir) by (apply Hfiles; left).
    destruct (node_at d a) as [[content| |]|]; simpl; done.
Qed.

Lemma get_folder_hash_undecodable (f : folder) (n : string) :
  only_files f ->
  n ∈ map fst f -> glob_matches n = true -> utf8_name n = false ->
  get_folder_hash (Some f) = Raise UnicodeEncodeError.
Proof.
  intros Hf Hin Hm Hn. unfold get_folder_hash, hashed_bytes.
  rewrite (hash_files_undecodable (Some f) MD5.new _ n); [done| |done|].
  - apply sorted_elem_of. unfold glob_pdf. apply list_elem_of_filter.
    split; [by apply Is_true_true|done].
  - intros m _. by apply only_files_node_at.
Qed.

Lemma hashed_bytes_Permutation (f f' : folder) :
  NoDup (map fst f) -> f ≡ₚ f' -> hashed_bytes (Some f') = hashed_bytes (Some f).
Proof.
  intros Hnd Hp. unfold hashed_bytes.
  assert (Hs : sorted (glob_pdf (Some f')) = sorted (glob_pdf (Some f))).
  { apply sorted_Permutation. simpl. by rewrite <- (Permutation_map fst Hp). }
  rewrite Hs. apply hash_files_ext. intros n. simpl.
  symmetry. by apply assoc_Permutation.
Qed.

Lemma glob_matches_nonempty (n : string) :
  glob_matches n = true -> 0 < length (name_bytes n).
Proof.
  destruct n as [|a n]; [done|]. intros _. unfold name_bytes. simpl. lia.
Qed.

Lemma hashed_bytes_content_change (l1 l2 : folder) (n : string) (c c' : list byte) :
  NoDup (map fst (l1 ++ (n, RegFile c) :: l2)) ->
  only_files (l1 ++ l2) ->
  valid_names (l1 ++ (n, RegFile c) :: l2) ->
  glob_matches n = true ->
  c' <> c ->
  hashed_bytes (Some (l1 ++ (n, RegFile c') :: l2))
  <> hashed_bytes (Some (l1 ++ (n, RegFile c) :: l2)).
Proof.
  intros Hnd Hfiles Hvalid Hglob Hne.
  assert (Hvf : forall x, valid_names (l1 ++ (n, RegFile x) :: l2)).
  { intros x. unfold valid_names in *. rewrite Forall_app in *.
    destruct Hvalid as [H1 H2]. split; [done|]. inversion H2. by constructor. }
  set (f := l1 ++ (n, RegFile c) :: l2) in *.
  set (f' := l1 ++ (n, RegFile c') :: l2).
  assert (Hnames : map fst f' = map fst f).
  { unfold f, f'. by rewrite !map_app. }
  assert (Hn1 : n ∉ map fst l1).
  { unfold f in Hnd. rewrite map_app in Hnd. simpl in Hnd.
    apply NoDup_app in Hnd as (_ & Hd & _). intros Hin.
    apply (Hd n Hin). left. }
  assert (Hof : forall x, only_files (l1 ++ (n, RegFile x) :: l2)).
  { intros x. unfold only_files in *. rewrite Forall_app in *.
    destruct Hfiles as [H1 H2]. split; [done|]. by constructor. }
  rewrite !hashed_bytes_files by first [apply Hof | apply Hvf].
  assert (Hglobs : glob_pdf (@Some folder f') = glob_pdf (@Some folder f)).
  { simpl. by rewrite Hnames. }
  fold f f'. rewrite Hglobs.
  set (ns := sorted (glob_pdf (@Some folder f))).
  assert (Hin : n ∈ ns).
  { apply sorted_elem_of. simpl. apply list_elem_of_filter. split.
    - by rewrite Hglob.
    - unfold f. rewrite map_app. apply elem_of_app. right. left. }
  assert (Hndns : NoDup ns).
  { unfold ns, sorted. rewrite merge_sort_Permutation. simpl.
    by apply NoDup_filter. }
  apply list_elem_of_split in Hin as (s1 & s2 & Hsplit).
  rewrite Hsplit in Hndns |- *.
  apply NoDup_app in Hndns as (_ & Hs1 & Hs2).
  apply NoDup_cons in Hs2 as [Hs2 _].
  assert (Hat : forall x, content_at (Some (l1 ++ (n, RegFile x) :: l2)) n = x).
  { intros x. unfold content_at. simpl. rewrite assoc_app.
    apply assoc_None in Hn1. rewrite Hn1. simpl. by rewrite String.eqb_refl. }
  assert (Hother : forall m, m <> n ->
            content_at (@Some folder f') m = content_at (@Some folder f) m).
  { intros m Hm. unfold content_at, f, f'. simpl. rewrite !assoc_app. simpl.
    apply String.eqb_neq in Hm. by rewrite Hm. }
  rewrite !map_app, !concat_app. simpl.
  unfold f, f' at 2. rewrite !Hat. fold f f'.
  rewrite (concat_map_ext (fun m => name_bytes m ++ content_at (@Some folder f') m)
                           (fun m => name_bytes m ++ content_at (@Some folder f) m) s1).
  2:{ intros m Hm. rewrite Hother; [done|]. intros ->. by apply (Hs1 n Hm); left. }
  rewrite (concat_map_ext (fun m => name_bytes m ++ content_at (@Some folder f') m)
                           (fun m => name_bytes m ++ content_at (@Some folder f) m) s2).
  2:{ intros m Hm. rewrite Hother; [done|]. by intros ->. }
  intros [= Heq].
  apply app_inv_head in Heq. rewrite <- !app_assoc in Heq.
  apply app_inv_head in Heq. apply app_inv_tail in Heq. done.
Qed.

Lemma hashed_bytes_added_file (f : folder) (n : string) (c : list byte) :
  n ∉ map fst f ->
  only_files f ->
  valid_names f ->
  utf8_name n = true ->
  glob_matches n = true ->
  hashed_bytes (Some ((n, RegFile c) :: f)) <> hashed_bytes (Some f).
Proof.
  intros Hfresh Hfiles Hvalid Hn Hglob.
  set (f' := (n, RegFile c) :: f).
  assert (Hfiles' : only_files f') by (by constructor).
  assert (Hvalid' : valid_names f') by (by constructor).
  rewrite !hashed_bytes_files by done.
  intros [= Heq]. apply (f_equal length) in Heq. revert Heq.
  assert (Hp : sorted (glob_pdf (@Some folder f')) ≡ₚ n :: sorted (glob_pdf (@Some folder f))).
  { unfold sorted. rewrite !merge_sort_Permutation. simpl.
    rewrite filter_cons_True; [done|]. by rewrite Hglob. }
  rewrite (concat_map_length_Permutation _ _ _ Hp). cbn [map concat].
  rewrite (concat_map_ext (fun m => name_bytes m ++ content_at (@Some folder f') m)
                           (fun m => name_bytes m ++ content_at (@Some folder f) m)
                           (sorted (glob_pdf (@Some folder f)))).
  2:{ intros m Hm. apply (proj1 (sorted_elem_of _ _)) in Hm. simpl in Hm.
      apply list_elem_of_filter in Hm as [_ Hm].
      unfold content_at, f'. simpl.
      destruct (String.eqb_spec m n) as [->|_]; [exfalso; exact (Hfresh Hm)|reflexivity]. }
  rewrite !length_app. pose proof (glob_matches_nonempty n Hglob).
  cbn [glob_pdf]. lia.
Qed.

(** C3, as amended.  For a folder of files with distinct names that are
    UTF-8: the fingerprint is the MD5 of the names and contents of the
    matched files, concatenated in ascending name order; it does not depend
    on the order of enumeration; and replacing the content of one matched
    file, adding a matched file or removing one each change the bytes that
    are hashed. *)
Theorem get_folder_hash_fingerprint (f : folder) :
  NoDup (map fst f) ->
  only_files f ->
  valid_names f ->
  get_folder_hash (Some f)
  = Ok (MD5.hexdigest_of
          (concat (map (fun n => name_bytes n ++ content_at (Some f) n)
                       (sorted (glob_pdf (Some f))))))
  /\ (forall f' : folder, f ≡ₚ f' ->
        hashed_bytes (Some f') = hashed_bytes (Some f)
        /\ get_folder_hash (Some f') = get_folder_hash (Some f))
  /\ (forall (l1 l2 : folder) n c c',
        f = l1 ++ (n, RegFile c) :: l2 -> glob_matches n = true -> c' <> c ->
        hashed_bytes (Some (l1 ++ (n, RegFile c') :: l2)) <> hashed_bytes (Some f))
  /\ (forall n c,
        n ∉ map fst f -> utf8_name n = true -> glob_matches n = true ->
        hashed_bytes (Some ((n, RegFile c) :: f)) <> hashed_bytes (Some f))
  /\ (forall (l1 l2 : folder) n c,
        f = l1 ++ (n, RegFile c) :: l2 -> glob_matches n = true ->
        hashed_bytes (Some (l1 ++ l2)) <> hashed_bytes (Some f)).
Proof.
  intros Hnd Hfiles Hvalid. repeat split.
  - unfold get_folder_hash. by rewrite hashed_bytes_files.
  - by apply hashed_bytes_Permutation.
  - unfold get_folder_hash. by rewrite (hashed_bytes_Permutation f f').
  - intros l1 l2 n c c' -> Hglob Hne.
    apply hashed_bytes_content_change; try done.
    unfold only_files in *. rewrite Forall_app in *.
    destruct Hfiles as [H1 H2]. split; [done|]. by inversion H2.
  - intros n c Hfresh Hn Hglob. by apply hashed_bytes_added_file.
  - intros l1 l2 n c -> Hglob Heq.
    assert (Hvn : utf8_name n = true).
    { apply (valid_names_elem_of _ n Hvalid). rewrite map_app.
      apply elem_of_app. right. left. }
    assert (Hv12 : valid_names (l1 ++ l2)).
    { unfold valid_names in *. rewrite Forall_app in *.
      destruct Hvalid as [H1 H2]. split; [done|]. by inversion H2. }
    assert (Hp : ((n, RegFile c) :: l1 ++ l2) ≡ₚ l1 ++ (n, RegFile c) :: l2)
      by apply Permutation_middle.
    assert (Hnd' : NoDup (map fst ((n, RegFile c) :: l1 ++ l2))).
    { by rewrite (Permutation_map fst Hp). }
    rewrite (hashed_bytes_Permutation _ _ Hnd' Hp) in Heq.
    simpl in Hnd'. apply NoDup_cons in Hnd' as [Hfresh _].
    symmetry in Heq. revert Heq. apply hashed_bytes_added_file; try done.
    unfold only_files in *. rewrite Forall_app in *.
    destruct Hfiles as [H1 H2]. split; [done|]. by inversion H2.
Qed.

Lemma get_folder_hash_fingerprint_witness :
  NoDup (map fst maths_folder) /\ only_files maths_folder /\ valid_names maths_folder
  /\ get_folder_hash (Some maths_folder) = Ok "be0b869d3db0110304d28a212f3918e0"%string.
Proof.
  assert (Hnd : NoDup (map fst maths_folder)).
  { apply (bool_decide_unpack _). vm_compute. exact I. }
  assert (Hfiles : only_files maths_folder).
  { repeat constructor; discriminate. }
  assert (Hvalid : valid_names maths_folder).
  { repeat constructor. }
  split; [exact Hnd|]. split; [exact Hfiles|]. split; [exact Hvalid|].
  destruct (get_folder_hash_fingerprint maths_folder Hnd Hfiles Hvalid) as [H _].
  rewrite H. vm_compute. reflexivity.
Defined.

(** C3, counterexample to the claim as stated.  A name and the bytes that
    follow it are fed to the hash with nothing between them, so the folder
    whose only file [a.pdf] holds the five bytes [b.pdf] and the folder
    that holds the empty files [a.pdf] and [b.pdf] get one fingerprint. *)
Lemma get_folder_hash_not_injective :
  map fst one_pdf_folder <> map fst two_pdf_folder
  /\ NoDup (map fst one_pdf_folder) /\ NoDup (map fst two_pdf_folder)
  /\ only_files one_pdf_folder /\ only_files two_pdf_folder
  /\ valid_names one_pdf_folder /\ valid_names two_pdf_folder
  /\ glob_pdf (Some one_pdf_folder) = map fst one_pdf_folder
  /\ glob_pdf (Some two_pdf_folder) = map fst two_pdf_folder
  /\ get_folder_hash (Some one_pdf_folder) = Ok "b389b47e3f62728eaa7efd9197999eba"%string
  /\ get_folder_hash (Some two_pdf_folder) = get_folder_hash (Some one_pdf_folder).
Proof.
  split; [discriminate|].
  split; [apply (bool_decide_unpack _); vm_compute; exact I|].
  split; [apply (bool_decide_unpack _); vm_compute; exact I|].
  split; [repeat constructor; discriminate|].
  split; [repeat constructor; discriminate|].
  split; [repeat constructor|].
  split; [repeat constructor|].
  repeat split; vm_compute; reflexivity.
Qed.

(* ===================================================================== *)
(** * Subject discovery                                                   *)
(* ===================================================================== *)



(* ===================================================================== *)
(** * The metadata store                                                  *)
(* ===================================================================== *)

Lemma get_metadata_eq (E : Env) (s : string) (w : world) :
  get_metadata E s w = (metadata_of E (vectorstore_path w s), w).
Proof.
  unfold get_metadata, metadata_of. unfold_monad.
  destruct (metadata_json (vectorstore_path w s)) as [content|]; [|done].
  unfold read_text. destruct (utf8_valid _); [|done].
  destruct (json_loads E content) as [v|e]; [done|]. by destruct e.
Qed.

(** What [get_metadata] does, case by case. *)
Lemma get_metadata_cases (E : Env) (s : string) (w : world) :
  let d := vectorstore_path w s in
  (metadata_json d = None -> get_metadata E s w = (Ok (JDict []), w))
  /\ (forall content text v,
        metadata_json d = Some content -> read_text content = Ok text ->
        json_loads E text = Ok v -> get_metadata E s w = (Ok v, w))
  /\ (forall content text,
        metadata_json d = Some content -> read_text content = Ok text ->
        json_loads E text = Raise JSONDecodeError ->
        get_metadata E s w = (Ok (JDict []), w))
  /\ (forall content,
        metadata_json d = Some content ->
        utf8_valid (map MD5.byte_val content) = false ->
        get_metadata E s w = (Raise UnicodeDecodeError, w)).
Proof.
  rewrite get_metadata_eq. unfold metadata_of. cbv zeta.
  repeat split.
  - by intros ->.
  - intros content text v Hm Hr Hj. by rewrite Hm, Hr, Hj.
  - intros content text Hm Hr Hj. by rewrite Hm, Hr, Hj.
  - intros content Hm Hv. unfold read_text. by rewrite Hm, Hv.
Qed.

(* ===================================================================== *)
(** * The in-memory cache                                                 *)
(* ===================================================================== *)

Lemma initialize_vectorstore_same_globals (E : Env) (s : string) (force : bool) (w : world) :
  same_globals w (snd (initialize_vectorstore E s force w)).
Proof. apply (steps_initialize_vectorstore E same_globals). Qed.

(** C2, evaluated where it fails.  No run of [initialize_vectorstore]
    changes [GLOBAL_VECTORSTORES]; in a fresh process a first call for
    Mathematics builds the index and returns it, the cache has no entry for
    Mathematics afterwards, and a second call goes through the gate and the
    loader again. *)
Theorem initialize_vectorstore_never_caches :
  (forall E s force w,
     GLOBAL_VECTORSTORES (snd (initialize_vectorstore E s force w))
     = GLOBAL_VECTORSTORES w)
  /\ (exists vs emb,
        fst (initialize_vectorstore healthy_env "Mathematics" false fresh_world)
        = Ok (Some vs, Some emb))
  /\ GLOBAL_VECTORSTORES
       (snd (initialize_vectorstore healthy_env "Mathematics" false fresh_world))
       !! "Mathematics"%string = None
  /\ stdout
       (snd (initialize_vectorstore healthy_env "Mathematics" false
          (snd (initialize_vectorstore healthy_env "Mathematics" false fresh_world))))
     = [LogBuilding "Mathematics"; LogLoading "Mathematics"].
Proof.
  split; [|split; [|split]].
  - intros E s force w.
    by destruct (initialize_vectorstore_same_globals E s force w) as (_&_&->&_).
  - eexists _, _. vm_compute. reflexivity.
  - vm_compute. reflexivity.
  - vm_compute. reflexivity.
Qed.

(* ===================================================================== *)
(** * The loader                                                          *)
(* ===================================================================== *)

Lemma load_vectorstore_attempt_ok (E : Env) (s : string) (w : world) r w1 :
  is_Some (index_faiss (vectorstore_path w s)) ->
  load_attempt E s (set_stdout (stdout w ++ [LogLoading s]) w) = (Ok r, w1) ->
  load_vectorstore E s w = (Ok r, w1).
Proof.
  intros [x Hx] Hatt. unfold load_vectorstore. unfold_monad. simpl.
  change (vectorstore_path (set_stdout (stdout w ++ [LogLoading s]) w) s)
    with (vectorstore_path w s).
  rewrite Hx. simpl. by rewrite Hatt.
Qed.

(** C8.  [load_vectorstore] hands over to the builder when [index.faiss]
    is missing and whenever its attempt to load raises: when the embedding
    model cannot be set up, when FAISS cannot read the persisted index, when
    the metadata cannot be read.  The exception of the attempt is dropped,
    the outcome is the builder's.  An attempt that succeeds is the outcome. *)
Theorem load_vectorstore_falls_back (E : Env) (s : string) (w : world) :
  let w0 := set_stdout (stdout w ++ [LogLoading s]) w in
  let d := vectorstore_path w s in
  (index_faiss d = None -> load_vectorstore E s w = build_vectorstore E s w0)
  /\ (forall e w1,
        is_Some (index_faiss d) -> load_attempt E s w0 = (Raise e, w1) ->
        load_vectorstore E s w = build_vectorstore E s w1)
  /\ (forall r w1,
        is_Some (index_faiss d) -> load_attempt E s w0 = (Ok r, w1) ->
        load_vectorstore E s w = (Ok r, w1))
  /\ (forall e,
        new_embeddings E (clock w) EMBEDDING_MODEL = Raise e ->
        load_attempt E s w0 = (Raise e, tick w0))
  /\ (forall emb e,
        new_embeddings E (clock w) EMBEDDING_MODEL = Ok emb ->
        faiss_load_local E (S (clock w)) d emb = Raise e ->
        load_attempt E s w0 = (Raise e, tick (tick w0)))
  /\ (forall emb vs e,
        new_embeddings E (clock w) EMBEDDING_MODEL = Ok emb ->
        faiss_load_local E (S (clock w)) d emb = Ok vs ->
        metadata_of E d = Raise e ->
        load_attempt E s w0 = (Raise e, tick (tick w0))).
Proof.
  cbv zeta. repeat split.
  - intros Hnone. unfold load_vectorstore. unfold_monad. simpl.
    change (vectorstore_path (set_stdout (stdout w ++ [LogLoading s]) w) s)
      with (vectorstore_path w s).
    by rewrite Hnone.
  - intros e w1 [x Hx] Hatt. unfold load_vectorstore. unfold_monad. simpl.
    change (vectorstore_path (set_stdout (stdout w ++ [LogLoading s]) w) s)
      with (vectorstore_path w s).
    rewrite Hx. simpl. by rewrite Hatt.
  - intros r w1. apply load_vectorstore_attempt_ok.
  - intros e He. unfold load_attempt, create_embeddings. unfold_monad. simpl.
    by rewrite He.
  - intros emb e Hemb Hload. unfold load_attempt, create_embeddings.
    unfold_monad. simpl. rewrite Hemb.
    change (vectorstore_path (tick (set_stdout (stdout w ++ [LogLoading s]) w)) s)
      with (vectorstore_path w s).
    by rewrite Hload.
  - intros emb vs e Hemb Hload Hmeta. unfold load_attempt.
    set (w0 := set_stdout (stdout w ++ [LogLoading s]) w).
    rewrite (bind_ok _ _ w0 (tick w0) emb).
    2:{ unfold create_embeddings, call. simpl. by rewrite Hemb. }
    rewrite (bind_ok _ _ (tick w0) (tick (tick w0)) vs).
    2:{ unfold_monad. simpl.
        change (vectorstore_path (tick w0) s) with (vectorstore_path w s).
        by rewrite Hload. }
    apply bind_raise. rewrite get_metadata_eq.
    change (vectorstore_path (tick (tick w0)) s) with (vectorstore_path w s).
    by rewrite Hmeta.
Qed.

Lemma load_vectorstore_falls_back_witness :
  is_Some (index_faiss (vectorstore_path built_world "Mathematics"))
  /\ stdout (snd (load_vectorstore corrupt_index_env "Mathematics" built_world))
     = [LogLoading "Mathematics"; LogBuilding "Mathematics"].
Proof.
  assert (Hsome : is_Some (index_faiss (vectorstore_path built_world "Mathematics"))).
  { eexists. vm_compute. reflexivity. }
  split; [exact Hsome|].
  destruct (load_vectorstore_falls_back corrupt_index_env "Mathematics" built_world)
    as (_ & Hfall & _ & _ & Hload & _).
  rewrite (Hfall (PyException "could not read index") _ Hsome
             (Hload (HuggingFaceEmbeddings EMBEDDING_MODEL)
                    (PyException "could not read index") eq_refl eq_refl)).
  vm_compute. reflexivity.
Defined.

(* ===================================================================== *)
(** * The cache gate                                                      *)
(* ===================================================================== *)

Lemma should_rebuild_eq (E : Env) (s : string) (w : world) :
  should_rebuild_vectorstore E s w = (gate_decision E w s, w).
Proof.
  unfold should_rebuild_vectorstore, gate_decision, index_present, stored_fingerprint.
  unfold_monad. unfold stat_path.
  destruct (stat_error w (index_file_path s "index.faiss")) as [e|]; [done|].
  destruct (index_faiss (vectorstore_path w s)) as [x|]; [|done].
  cbn [negb orb bool_decide decide_rel]. simpl.
  destruct (stat_error w (index_file_path s "index.pkl")) as [e|]; [done|].
  destruct (index_pkl (vectorstore_path w s)) as [y|]; [|done].
  cbn [negb orb bool_decide decide_rel]. simpl.
  destruct (folder_hash E w s) as [h|e]; [|done]. simpl.
  rewrite get_metadata_eq.
  destruct (metadata_of E (vectorstore_path w s)) as [m|e]; [|done]. simpl.
  destruct (py_get m "file_hash") as [stored|e]; [|done]. simpl.
  by destruct (eq_str stored h).
Qed.

Lemma initialize_uncached (E : Env) (s : string) (w : world) :
  GLOBAL_VECTORSTORES w !! s = None ->
  initialize_vectorstore E s false w
  = match gate_decision E w s with
    | Ok true => build_vectorstore E s w
    | Ok false => load_vectorstore E s w
    | Raise e => (Raise e, w)
    end.
Proof.
  intros Hnone. unfold initialize_vectorstore.
  unfold mbind at 1. unfold M_bind at 1. unfold gets at 1.
  rewrite Hnone. simpl.
  unfold mbind, M_bind. rewrite should_rebuild_eq.
  by destruct (gate_decision E w s) as [[]|].
Qed.

Lemma folder_hash_literal (E : Env) (w : world) (s : string) :
  literal_name s = true -> folder_hash E w s = get_folder_hash (subject_path w s).
Proof. intros H. unfold folder_hash. by rewrite H. Qed.

Lemma pdf_dir_literal (E : Env) (w : world) (s : string) :
  literal_name s = true ->
  pdf_dir E w s = subject_path w s /\ pdf_files E w s = glob_pdf (subject_path w s).
Proof. intros H. unfold pdf_dir, pdf_files. by rewrite H. Qed.

Lemma literal_name_one_component (s : string) :
  literal_name s = true -> one_component s = true.
Proof. unfold literal_name. by intros [H _]%andb_true_iff. Qed.

Lemma subject_is_dir_literal (E : Env) (w : world) (s : string) :
  one_component s = true ->
  subject_is_dir E w s = bool_decide (is_Some (subject_path w s)).
Proof. intros H. unfold subject_is_dir. by rewrite H. Qed.

Lemma index_present_stat (w : world) (s : string) :
  stat_error w (index_file_path s "index.faiss") = None ->
  stat_error w (index_file_path s "index.pkl") = None ->
  index_present w s
  = Ok (bool_decide (is_Some (index_faiss (vectorstore_path w s)))
        && bool_decide (is_Some (index_pkl (vectorstore_path w s)))).
Proof.
  intros H1 H2. unfold index_present. rewrite H1, H2.
  by destruct (index_faiss (vectorstore_path w s)).
Qed.

(** C5, as amended.  For a subject with no in-memory entry and
    [force_rebuild] false.  When a path of an index file cannot be looked
    up, the error of the look-up is raised.  When an index file is missing
    the builder runs.  When both are there: an exception of the hasher or
    of the reading of the metadata is raised to the caller; when the
    fingerprint in the metadata differs from the one the hasher gives the
    builder runs; when it is the same the loader runs, and if its attempt to
    load succeeds that is the outcome and the builder has not run (its
    banner is not printed).  When both paths can be looked up, the index
    files are there exactly when the vectorstore directory has them.  The
    fingerprint the hasher gives is that of the subject's own folder when
    the name of the subject is one component of a path and has none of the
    characters that [glob] reads as a pattern. *)
Theorem initialize_vectorstore_gate (E : Env) (s : string) (w : world) :
  GLOBAL_VECTORSTORES w !! s = None ->
  let d := vectorstore_path w s in
  (forall e, index_present w s = Raise e ->
     initialize_vectorstore E s false w = (Raise e, w))
  /\ (index_present w s = Ok false ->
      initialize_vectorstore E s false w = build_vectorstore E s w)
  /\ (index_present w s = Ok true ->
      (forall e, folder_hash E w s = Raise e ->
         initialize_vectorstore E s false w = (Raise e, w))
      /\ (forall current e,
            folder_hash E w s = Ok current -> stored_fingerprint E d = Raise e ->
            initialize_vectorstore E s false w = (Raise e, w))
      /\ (forall current stored,
            folder_hash E w s = Ok current ->
            stored_fingerprint E d = Ok stored ->
            if eq_str stored current
            then initialize_vectorstore E s false w = load_vectorstore E s w
                 /\ forall r w1,
                      load_attempt E s (set_stdout (stdout w ++ [LogLoading s]) w)
                      = (Ok r, w1) ->
                      initialize_vectorstore E s false w = (Ok r, w1)
                      /\ stdout w1 = stdout w ++ [LogLoading s]
            else initialize_vectorstore E s false w = build_vectorstore E s w))
  /\ (stat_error w (index_file_path s "index.faiss") = None ->
      stat_error w (index_file_path s "index.pkl") = None ->
      index_present w s
      = Ok (bool_decide (is_Some (index_faiss d)) && bool_decide (is_Some (index_pkl d))))
  /\ (literal_name s = true ->
      folder_hash E w s = get_folder_hash (subject_path w s)).
Proof.
  intros Hnone. cbv zeta.
  split; [|split; [|split; [|split]]].
  - intros e He. rewrite initialize_uncached by done. unfold gate_decision.
    by rewrite He.
  - intros He. rewrite initialize_uncached by done. unfold gate_decision.
    by rewrite He.
  - intros Hpresent.
    assert (Hgate : gate_decision E w s
                    = (current ← folder_hash E w s;
                       stored ← stored_fingerprint E (vectorstore_path w s);
                       mret (negb (eq_str stored current)))).
    { unfold gate_decision. by rewrite Hpresent. }
    rewrite initialize_uncached, Hgate by done.
    split; [|split].
    + intros e ->. done.
    + intros current e -> ->. done.
    + intros current stored -> ->. simpl.
      destruct (eq_str stored current); simpl; [|done].
      split; [done|]. intros r w1 Hatt.
      assert (Hfaiss : is_Some (index_faiss (vectorstore_path w s))).
      { unfold index_present in Hpresent.
        destruct (stat_error w (index_file_path s "index.faiss")); [done|].
        by destruct (index_faiss (vectorstore_path w s)). }
      split.
      * by apply load_vectorstore_attempt_ok.
      * pose proof (steps_load_attempt E same_but_clock s
                      (set_stdout (stdout w ++ [LogLoading s]) w)) as Hout.
        rewrite Hatt in Hout. by destruct Hout as (_ & _ & Hout).
  - apply index_present_stat.
  - apply folder_hash_literal.
Qed.

Lemma initialize_vectorstore_gate_witness :
  GLOBAL_VECTORSTORES built_world !! "Mathematics"%string = None
  /\ index_present built_world "Mathematics" = Ok true
  /\ stdout (snd (initialize_vectorstore healthy_env "Mathematics" false built_world))
     = [LogLoading "Mathematics"].
Proof.
  assert (Hnone : GLOBAL_VECTORSTORES built_world !! "Mathematics"%string = None)
    by (vm_compute; reflexivity).
  assert (Hpresent : index_present built_world "Mathematics" = Ok true)
    by (vm_compute; reflexivity).
  split; [exact Hnone|]. split; [exact Hpresent|].
  destruct (initialize_vectorstore_gate healthy_env "Mathematics" built_world Hnone)
    as (_ & _ & Hgate & _).
  destruct (Hgate Hpresent) as (_ & _ & Hcompare).
  specialize (Hcompare maths_hash (JStr maths_hash)).
  assert (H3 : folder_hash healthy_env built_world "Mathematics" = Ok maths_hash)
    by (vm_compute; reflexivity).
  assert (H4 : stored_fingerprint healthy_env (vectorstore_path built_world "Mathematics")
               = Ok (JStr maths_hash)) by (vm_compute; reflexivity).
  specialize (Hcompare H3 H4).
  change (eq_str (JStr maths_hash) maths_hash) with true in Hcompare.
  destruct Hcompare as [_ Hload].
  edestruct Hload as [-> Hout]; [vm_compute; reflexivity|].
  exact Hout.
Defined.

(** C5, counterexample to the claim as stated.  Both index files are
    there and the stored fingerprint is that of the folder, yet the builder
    runs: FAISS cannot read the persisted index, and the loader falls back. *)
Lemma gate_match_still_builds :
  GLOBAL_VECTORSTORES built_world !! "Mathematics"%string = None
  /\ is_Some (index_faiss (vectorstore_path built_world "Mathematics"))
  /\ is_Some (index_pkl (vectorstore_path built_world "Mathematics"))
  /\ index_present built_world "Mathematics" = Ok true
  /\ literal_name "Mathematics" = true
  /\ get_folder_hash (subject_path built_world "Mathematics") = Ok maths_hash
  /\ stored_fingerprint corrupt_index_env (vectorstore_path built_world "Mathematics")
     = Ok (JStr maths_hash)
  /\ stdout (snd (initialize_vectorstore corrupt_index_env "Mathematics" false built_world))
     = [LogLoading "Mathematics"; LogBuilding "Mathematics"].
Proof.
  split; [vm_compute; reflexivity|].
  split; [eexists; vm_compute; reflexivity|].
  split; [eexists; vm_compute; reflexivity|].
  repeat split; vm_compute; reflexivity.
Qed.

(* ===================================================================== *)
(** * Metadata that cannot be decoded                                     *)
(* ===================================================================== *)

(** C7, evaluated where it fails.  A metadata file that is not valid UTF-8
    (here the single byte 0xFF) makes [get_metadata] raise
    [UnicodeDecodeError], which its [except json.JSONDecodeError] does not
    catch, whatever the JSON codec does; the exception goes on through
    [should_rebuild_vectorstore] and [initialize_vectorstore]. *)
Theorem get_metadata_raises_on_undecodable_bytes (E : Env) :
  metadata_json (vectorstore_path bad_metadata_world "Mathematics")
  = Some [Byte.xff]
  /\ get_metadata E "Mathematics" bad_metadata_world
     = (Raise UnicodeDecodeError, bad_metadata_world)
  /\ initialize_vectorstore E "Mathematics" false bad_metadata_world
     = (Raise UnicodeDecodeError, bad_metadata_world).
Proof.
  split; [vm_compute; reflexivity|]. split.
  - rewrite get_metadata_eq. vm_compute. reflexivity.
  - rewrite initialize_uncached by (vm_compute; reflexivity).
    vm_compute. reflexivity.
Qed.


(* ===================================================================== *)
(** * The builder                                                         *)
(* ===================================================================== *)

Lemma vectorstore_path_write (s : string) (d : vsdir) (w : world) :
  vectorstore_path (set_vectorstores (<[s := d]> (vectorstores w)) w) s = d.
Proof. unfold vectorstore_path. simpl. by rewrite lookup_insert_eq. Qed.

Lemma build_attempt_run (E : Env) (s : string) (docs chunks : list document) (w : world) :
  let t := clock w in
  let d := vectorstore_path w s in
  match build_attempt E s docs chunks w with
  | (Ok r, w') =>
      let d' := vectorstore_path w' s in
      exists vs emb h,
        r = (Some vs, Some emb)
        /\ index_persisted E t chunks vs emb d'
        /\ folder_hash E w s = Ok h
        /\ metadata_json d'
           = Some (json_dumps E
               (JDict [ ("file_hash", JStr h);
                        ("num_documents", JInt (Z.of_nat (length docs)));
                        ("num_chunks", JInt (Z.of_nat (length chunks)));
                        ("last_build", JStr (now_isoformat E (4 + t))) ]))
  | (Raise e, w') =>
      let d' := vectorstore_path w' s in
      metadata_json d' = metadata_json d
      \/ exists vs emb m n,
           index_persisted E t chunks vs emb d'
           /\ metadata_json d' = Some (take n (json_dumps E m))
  end.
Proof.
  cbv zeta.
  unfold build_attempt, save_metadata, dump_metadata, save_local, mkdir, disk_step,
    create_embeddings, write_vsdir, index_persisted.
  unfold_monad. simpl.
  repeat (case_match; simplify_eq/=; rewrite ?vectorstore_path_write; try done).
  all: try (left; unfold vectorstore_path; simpl; rewrite ?lookup_insert_eq; simpl; done).
  all: unfold vectorstore_path, folder_hash, subject_path in *; simpl in *;
       repeat (rewrite lookup_insert_eq; simpl).
  - eexists _, _, _. repeat split; eauto.
  - right. eexists _, _, _, _. repeat split; eauto.
Qed.

Lemma ticks_same_but_clock (n : nat) (w : world) : same_but_clock w (ticks n w).
Proof.
  revert w. induction n as [|n IH]; intros w; simpl; [reflexivity|].
  etrans; [apply (ticking_tick w)|]. apply IH.
Qed.

Lemma ticks_clock (n : nat) (w : world) : clock (ticks n w) = n + clock w.
Proof.
  revert w. induction n as [|n IH]; intros w; simpl; [done|].
  rewrite IH. simpl. lia.
Qed.


Lemma load_pdfs_run (E : Env) (d : option folder) (names : list string) (w : world) :
  exists docs, load_pdfs E d names w = (Ok docs, ticks (length names) w).
Proof.
  unfold load_pdfs. generalize (@nil document) as acc. revert w.
  induction names as [|name names IH]; intros w acc; simpl.
  - by eexists.
  - unfold mbind at 1. unfold M_bind at 1. unfold try_except.
    unfold mbind at 1. unfold M_bind at 1. unfold call at 1.
    destruct (pdf_load E (clock w) name (default Dangling (node_at d name)));
      simpl; apply IH.
Qed.

Lemma sorted_length (l : list string) : length (sorted l) = length l.
Proof. unfold sorted. apply Permutation_length, merge_sort_Permutation. Qed.

Lemma subject_path_same (w w' : world) (s : string) :
  curriculum_data w' = curriculum_data w -> subject_path w' s = subject_path w s.
Proof. intros H. unfold subject_path. by rewrite H. Qed.

Lemma folder_hash_same (E : Env) (w w' : world) (s : string) :
  curriculum_data w' = curriculum_data w -> folder_hash E w' s = folder_hash E w s.
Proof. intros H. unfold folder_hash, subject_path. by rewrite H. Qed.

(** How a run of [build_vectorstore] goes up to its [try]. *)
Lemma build_vectorstore_prelude (E : Env) (s : string) (w : world) :
  let w0 := set_stdout (stdout w ++ [LogBuilding s]) w in
  match stat_error w (subject_folder_path s) with
  | Some e => build_vectorstore E s w = (Raise e, w0)
  | None =>
      if subject_is_dir E w s
      then
        let names := sorted (pdf_files E w s) in
        exists docs,
          let w1 := ticks (length names) w0 in
          load_pdfs E (pdf_dir E w s) names w0 = (Ok docs, w1)
          /\ match docs with
             | [] => build_vectorstore E s w = (Ok (None, None), w1)
             | _ =>
                 match split_documents E (clock w1) docs with
                 | Ok chunks =>
                     build_vectorstore E s w
                     = try_except (build_attempt E s docs chunks)
                                  (fun _ => mret (None, None)) (tick w1)
                 | Raise e => build_vectorstore E s w = (Raise e, tick w1)
                 end
             end
      else build_vectorstore E s w = (Ok (None, None), w0)
  end.
Proof.
  cbv zeta. unfold build_vectorstore.
  set (w0 := set_stdout (stdout w ++ [LogBuilding s]) w).
  rewrite (bind_ok _ _ w w0 tt) by reflexivity.
  destruct (stat_error w (subject_folder_path s)) as [e|] eqn:Hstat.
  { rewrite (bind_raise _ _ w0 w0 e); [done|].
    unfold stat_path. cbn [stat_error w0 set_stdout]. by rewrite Hstat. }
  rewrite (bind_ok _ _ w0 w0 (subject_is_dir E w s)).
  2:{ unfold stat_path. cbn [stat_error w0 set_stdout]. by rewrite Hstat. }
  destruct (subject_is_dir E w s) eqn:Hdir; [|done].
  cbn [negb].
  rewrite (bind_ok _ _ w0 w0 (pdf_dir E w s)) by reflexivity.
  rewrite (bind_ok _ _ w0 w0 (pdf_files E w s)) by reflexivity.
  destruct (load_pdfs_run E (pdf_dir E w s) (sorted (pdf_files E w s)) w0)
    as [docs Hdocs].
  exists docs. split; [exact Hdocs|].
  rewrite (bind_ok _ _ _ _ _ Hdocs).
  destruct docs as [|doc docs]; [done|].
  set (w1 := ticks (length (sorted (pdf_files E w s))) w0).
  destruct (split_documents E (clock w1) (doc :: docs)) as [chunks|e] eqn:Hsplit.
  - by rewrite (bind_ok _ _ w1 (tick w1) chunks) by (unfold call; by rewrite Hsplit).
  - by rewrite (bind_raise _ _ w1 (tick w1) e) by (unfold call; by rewrite Hsplit).
Qed.

(** The builder leaves the curriculum as it is up to its [try]. *)
Lemma build_attempt_curriculum (s : string) (w : world) (n : nat) :
  curriculum_data (tick (ticks n (set_stdout (stdout w ++ [LogBuilding s]) w)))
  = curriculum_data w.
Proof.
  destruct (ticks_same_but_clock n (set_stdout (stdout w ++ [LogBuilding s]) w))
    as ((Hc & _) & _).
  exact Hc.
Qed.



(* ===================================================================== *)
(** * The components of a subject                                         *)
(* ===================================================================== *)

#[local] Arguments initialize_vectorstore : simpl never.
#[local] Arguments initialize_hf_llm : simpl never.
#[local] Arguments load_subject_components : simpl never.
#[local] Arguments generate_lesson : simpl never.

Lemma initialize_hf_llm_run (E : Env) (w : world) :
  match initialize_hf_llm E w with
  | (Ok l, w') => LLM w' = Some l /\ RAG_COMPONENTS w' = RAG_COMPONENTS w
  | (Raise e, w') => LLM w' = LLM w /\ RAG_COMPONENTS w' = RAG_COMPONENTS w
  end.
Proof.
  unfold initialize_hf_llm. unfold_monad.
  repeat (case_match; simplify_eq/=); done.
Qed.

Lemma create_rag_components_run (E : Env) (s : string) vs l (w : world) :
  exists r w', create_rag_components E s vs l w = (Ok r, w')
    /\ same_but_clock w w'
    /\ match r with
       | Some c => components_ok c /\ is_Some vs /\ is_Some l
       | None => True
       end.
Proof.
  unfold create_rag_components. unfold_monad.
  destruct vs as [vs|], l as [l|]; simpl; try by (eexists _, _).
  destruct (new_llm_chain E (clock w) l) as [chain|e]; simpl.
  - destruct (as_retriever E (S (clock w)) vs 3) as [r|e]; simpl.
    + eexists _, _. split; [done|]. split; [by repeat split|].
      repeat split; by eexists.
    + eexists _, _. split; [done|]. by repeat split.
  - eexists _, _. split; [done|]. by repeat split.
Qed.

Lemma load_subject_components_run (E : Env) (s : string) (w : world) :
  exists b w',
    load_subject_components E s w = (Ok b, w')
    /\ if b
       then exists l vs emb c w1 w2 w3,
              LLM w' = Some l
              /\ initialize_vectorstore E s false w1 = (Ok (Some vs, emb), w2)
              /\ create_rag_components E s (Some vs) (Some l) w2 = (Ok (Some c), w3)
              /\ components_ok c
              /\ RAG_COMPONENTS w' = <[s := c]> (RAG_COMPONENTS w)
       else RAG_COMPONENTS w' = RAG_COMPONENTS w.
Proof.
  unfold load_subject_components.
  unfold mbind at 1. unfold M_bind at 1. unfold gets at 1.
  assert (Hrest : forall wa l,
    LLM wa = Some l -> RAG_COMPONENTS wa = RAG_COMPONENTS w ->
    exists b w',
      (initialized ← try_except
                       (r ← initialize_vectorstore E s false; mret (Some (fst r)))
                       (fun _ => mret None);
       match initialized with
       | None => mret false
       | Some (Some vs) =>
           llm ← gets LLM;
           components ← create_rag_components E s (Some vs) llm;
           match components with
           | Some c =>
               modify (fun w => set_RAG_COMPONENTS (<[s := c]> (RAG_COMPONENTS w)) w);;
               mret true
           | None => mret false
           end
       | Some None => mret false
       end) wa = (Ok b, w')
      /\ if b
         then exists l vs emb c w1 w2 w3,
                LLM w' = Some l
                /\ initialize_vectorstore E s false w1 = (Ok (Some vs, emb), w2)
                /\ create_rag_components E s (Some vs) (Some l) w2 = (Ok (Some c), w3)
                /\ components_ok c
                /\ RAG_COMPONENTS w' = <[s := c]> (RAG_COMPONENTS w)
         else RAG_COMPONENTS w' = RAG_COMPONENTS w).
  { intros wa l Hl Hrag.
    pose proof (initialize_vectorstore_same_globals E s false wa) as Hsame.
    destruct (initialize_vectorstore E s false wa) as [[[ovs emb]|e] w2] eqn:Hinit;
      simpl in Hsame; destruct Hsame as (_ & _ & _ & _ & HL2 & HR2).
    2:{ exists false, w2. split; [|congruence].
        unfold mbind at 1. unfold M_bind at 1.
        rewrite (try_except_raise _ _ wa w2 e); [done|].
        by rewrite (bind_raise _ _ wa w2 e). }
    unfold mbind at 1. unfold M_bind at 1.
    rewrite (try_except_ok _ _ wa w2 (Some ovs)).
    2:{ by rewrite (bind_ok _ _ wa w2 (ovs, emb)). }
    destruct ovs as [vs|]; [|exists false, w2; split; [done|congruence]].
    unfold mbind at 1. unfold M_bind at 1. unfold gets at 1.
    rewrite HL2, Hl.
    destruct (create_rag_components_run E s (Some vs) (Some l) w2)
      as (oc & w3 & Hc & Hsame3 & Hoc).
    rewrite (bind_ok _ _ w2 w3 oc Hc).
    destruct Hsame3 as ((_ & _ & _ & _ & HL3 & HR3) & _).
    destruct oc as [c|]; [|exists false, w3; split; [done|congruence]].
    eexists true, _. split; [reflexivity|].
    exists l, vs, emb, c, wa, w2, w3. simpl.
    repeat split; try done; try congruence; by destruct Hoc as [[? ?] _]. }
  destruct (LLM w) as [l0|] eqn:HLLM.
  - unfold mbind at 1. unfold M_bind at 1. unfold mret at 1. unfold M_ret at 1.
    simpl. by apply (Hrest w l0).
  - unfold mbind at 1. unfold M_bind at 1.
    pose proof (initialize_hf_llm_run E w) as Hllm.
    destruct (initialize_hf_llm E w) as [[l|e] wl] eqn:Hinit.
    + rewrite (try_except_ok _ _ w wl true).
      2:{ by rewrite (bind_ok _ _ w wl l). }
      simpl. destruct Hllm as [HL HR]. by apply (Hrest wl l).
    + rewrite (try_except_raise _ _ w wl e).
      2:{ by rewrite (bind_raise _ _ w wl e). }
      simpl. exists false, wl. split; [done|]. by destruct Hllm.
Qed.

(* ===================================================================== *)
(** * Lesson generation                                                   *)
(* ===================================================================== *)

(** C4, as amended.  [generate_lesson] never raises.  For a subject
    without components it returns [None] and prints the "not initialized"
    line; for a subject with components it returns the text of the model,
    or, when retrieval or the model raises, again [None], after printing the
    error.  The two failures give the caller the same value and differ in
    the printed line only. *)
Theorem generate_lesson_outcomes (E : Env) (s topic level : string) (pace : Pace) (w : world) :
  match RAG_COMPONENTS w !! s with
  | None =>
      generate_lesson E s topic level pace w
      = (Ok None, set_stdout (stdout w ++ [LogNotInitialized s]) w)
  | Some c =>
      exists r w',
        generate_lesson E s topic level pace w = (Ok r, w')
        /\ RAG_COMPONENTS w' = RAG_COMPONENTS w
        /\ match r with
           | Some text =>
               stdout w' = stdout w ++ [ LogGenerating s topic level pace;
                                         LogLesson s level pace text ]
               /\ exists rt docs ch,
                    c_retriever c = Some rt /\ c_llm_chain c = Some ch
                    /\ get_relevant_documents E (clock w) rt
                         (retrieval_query level s topic) = Ok docs
                    /\ chain_invoke E (S (clock w)) ch (context_of docs)
                         topic level pace s = Ok text
           | None =>
               exists e,
                 stdout w' = stdout w ++ [ LogGenerating s topic level pace;
                                           LogGenerationError e ]
                 /\ ((c_retriever c = None /\ e = AttributeError)
                     \/ (exists rt, c_retriever c = Some rt
                          /\ get_relevant_documents E (clock w) rt
                               (retrieval_query level s topic) = Raise e)
                     \/ (exists rt docs,
                           c_retriever c = Some rt
                           /\ get_relevant_documents E (clock w) rt
                                (retrieval_query level s topic) = Ok docs
                           /\ ((c_llm_chain c = None /\ e = AttributeError)
                               \/ exists ch, c_llm_chain c = Some ch
                                    /\ chain_invoke E (S (clock w)) ch (context_of docs)
                                         topic level pace s = Raise e)))
           end
  end.
Proof.
  unfold generate_lesson. unfold_monad. simpl.
  destruct (RAG_COMPONENTS w !! s) as [c|]; [|done].
  destruct (c_retriever c) as [rt|] eqn:Hrt; simpl.
  2:{ eexists None, _. split; [done|]. split; [done|].
      exists AttributeError. simpl. rewrite <- app_assoc. split; [done|]. by left. }
  destruct (get_relevant_documents E (clock w) rt (retrieval_query level s topic))
    as [docs|e] eqn:Hdocs; simpl.
  2:{ eexists None, _. split; [done|]. split; [done|].
      exists e. simpl. rewrite <- app_assoc. split; [done|]. right. left. by exists rt. }
  destruct (c_llm_chain c) as [ch|] eqn:Hch; simpl.
  2:{ eexists None, _. split; [done|]. split; [done|].
      exists AttributeError. simpl. rewrite <- app_assoc. split; [done|].
      right. right. exists rt, docs. repeat split; try done. by left. }
  destruct (chain_invoke E (S (clock w)) ch (context_of docs) topic level pace s)
    as [text|e] eqn:Htext; simpl.
  - eexists (Some text), _. split; [done|]. split; [done|]. simpl.
    rewrite <- app_assoc. split; [done|]. by exists rt, docs, ch.
  - eexists None, _. split; [done|]. split; [done|].
    exists e. simpl. rewrite <- app_assoc. split; [done|].
    right. right. exists rt, docs. repeat split; try done. right. by exists ch.
Qed.

(** C4, counterexample to the claim as stated.  With retrieval down,
    [generate_lesson] gives the caller the same value, [None], for a subject
    that was never initialized and for one whose retrieval raises. *)
Lemma generate_lesson_failures_look_alike :
  RAG_COMPONENTS fresh_world !! "Mathematics"%string = None
  /\ RAG_COMPONENTS ready_world !! "Mathematics"%string = Some maths_components
  /\ get_relevant_documents retrieval_down_env (clock ready_world)
       (VectorStoreRetriever (FAISS []) 3)
       (retrieval_query "SSS 1" "Mathematics" "Algebra")
     = Raise (PyException "connection refused")
  /\ fst (generate_lesson retrieval_down_env "Mathematics" "Algebra" "SSS 1" low fresh_world)
     = Ok None
  /\ fst (generate_lesson retrieval_down_env "Mathematics" "Algebra" "SSS 1" low ready_world)
     = Ok None.
Proof. repeat split; vm_compute; reflexivity. Qed.

Lemma generate_lesson_total (E : Env) (s topic level : string) (pace : Pace) (w : world) :
  exists r w',
    generate_lesson E s topic level pace w = (Ok r, w')
    /\ RAG_COMPONENTS w' = RAG_COMPONENTS w.
Proof.
  unfold generate_lesson. unfold_monad. simpl.
  repeat (case_match; simplify_eq/=); by eexists _, _.
Qed.

(* ===================================================================== *)
(** * The lesson endpoint                                                 *)
(* ===================================================================== *)

(** The runs of the handler: 404 for an unknown subject, 503 when the lazy
    load returns [False], and otherwise the response built from whatever
    [generate_lesson] returned. *)
Lemma create_lesson_run (E : Env) (request : LessonRequest) (w : world) :
  let s := req_subject request in
  if bool_decide (s ∈ AVAILABLE_SUBJECTS w)
  then
    exists w1,
      ((is_Some (RAG_COMPONENTS w !! s) /\ w1 = w)
       \/ (RAG_COMPONENTS w !! s = None
           /\ exists b, load_subject_components E s w = (Ok b, w1)
              /\ (b = false ->
                  exists detail,
                    create_lesson E request w = (Raise (HTTPException 503 detail), w1))))
      /\ (is_Some (RAG_COMPONENTS w !! s)
          \/ load_subject_components E s w = (Ok true, w1) ->
          exists r w2,
            generate_lesson E s (req_topic request)
              (level_str (req_sss_level request)) (req_learning_pace request) w1
            = (Ok r, w2)
            /\ RAG_COMPONENTS w2 = RAG_COMPONENTS w1
            /\ create_lesson E request w
               = (Ok {| subject := s;
                        topic := req_topic request;
                        sss_level := level_str (req_sss_level request);
                        learning_pace := pace_str (req_learning_pace request);
                        lesson_notes :=
                          match r with
                          | Some text =>
                              if String.eqb text "" then PLACEHOLDER_NOTES else text
                          | None => PLACEHOLDER_NOTES
                          end;
                        status := "success" |}, w2))
  else
    exists detail, create_lesson E request w = (Raise (HTTPException 404 detail), w).
Proof.
  cbv zeta. unfold create_lesson.
  rewrite (bind_ok _ _ w w (AVAILABLE_SUBJECTS w)) by reflexivity.
  destruct (bool_decide (req_subject request ∈ AVAILABLE_SUBJECTS w)) eqn:Hav;
    cbn [negb].
  2:{ eexists. apply bind_raise. reflexivity. }
  rewrite (bind_ok _ _ w w tt) by reflexivity.
  rewrite (bind_ok _ _ w w
             (bool_decide (is_Some (RAG_COMPONENTS w !! req_subject request))))
    by reflexivity.
  assert (Hgen : forall w1,
    exists r w2,
      generate_lesson E (req_subject request) (req_topic request)
        (level_str (req_sss_level request)) (req_learning_pace request) w1
      = (Ok r, w2)
      /\ RAG_COMPONENTS w2 = RAG_COMPONENTS w1
      /\ try_except
           (lesson_text ← generate_lesson E (req_subject request) (req_topic request)
                            (level_str (req_sss_level request))
                            (req_learning_pace request);
            mret {| subject := req_subject request;
                    topic := req_topic request;
                    sss_level := level_str (req_sss_level request);
                    learning_pace := pace_str (req_learning_pace request);
                    lesson_notes :=
                      match lesson_text with
                      | Some text =>
                          if String.eqb text "" then PLACEHOLDER_NOTES else text
                      | None => PLACEHOLDER_NOTES
                      end;
                    status := "success" |})
           (fun e => raise (HTTPException 500
                       ("Lesson generation failed: " +:+ exn_str e))) w1
         = (Ok {| subject := req_subject request;
                  topic := req_topic request;
                  sss_level := level_str (req_sss_level request);
                  learning_pace := pace_str (req_learning_pace request);
                  lesson_notes :=
                    match r with
                    | Some text =>
                        if String.eqb text "" then PLACEHOLDER_NOTES else text
                    | None => PLACEHOLDER_NOTES
                    end;
                  status := "success" |}, w2)).
  { intros w1.
    destruct (generate_lesson_total E (req_subject request) (req_topic request)
                (level_str (req_sss_level request)) (req_learning_pace request) w1)
      as (r & w2 & Hg & Hr).
    exists r, w2. split; [done|]. split; [done|].
    apply try_except_ok. by rewrite (bind_ok _ _ w1 w2 r Hg). }
  destruct (RAG_COMPONENTS w !! req_subject request) as [c|] eqn:Hrag.
  - exists w. split; [left; split; [by eexists|done]|]. intros _.
    replace (bool_decide (is_Some (Some c))) with true
      by (symmetry; apply bool_decide_eq_true; by eexists).
    cbn [negb]. rewrite (bind_ok _ _ w w tt) by reflexivity.
    destruct (Hgen w) as (r & w2 & Hg & Hr & Htry). by exists r, w2.
  - replace (bool_decide (is_Some (@None components))) with false
      by (symmetry; apply bool_decide_eq_false; by intros [? ?]).
    cbn [negb].
    destruct (load_subject_components_run E (req_subject request) w)
      as (b & w1 & Hload & _).
    exists w1. split.
    + right. split; [done|]. exists b. split; [done|]. intros ->.
      eexists. apply bind_raise.
      erewrite try_except_raise; [reflexivity|].
      by rewrite (bind_ok _ _ w w1 false Hload).
    + intros [[? [=]]|Htrue]. rewrite Hload in Htrue.
      injection Htrue as ->.
      rewrite (bind_ok _ _ w w1 tt).
      2:{ apply try_except_ok. by rewrite (bind_ok _ _ w w1 true Hload). }
      destruct (Hgen w1) as (r & w2 & Hg & Hr & Htry). by exists r, w2.
Qed.

Lemma post_lesson_run (E : Env) (request : LessonRequest) (w : world) :
  exists w',
    (exists body, post_lesson E request w = (Response 200 body, w')
                  /\ status body = "success"%string)
    \/ (exists detail, post_lesson E request w = (ErrorResponse 404 detail, w'))
    \/ (exists detail, post_lesson E request w = (ErrorResponse 503 detail, w')).
Proof.
  pose proof (create_lesson_run E request w) as Hrun. cbv zeta in Hrun.
  unfold post_lesson.
  destruct (bool_decide (req_subject request ∈ AVAILABLE_SUBJECTS w)).
  2:{ destruct Hrun as [detail ->]. exists w. right. left. by exists detail. }
  destruct Hrun as (w1 & [[Hsome ->]|(Hnone & b & Hload & Hfalse)] & Hgen).
  - destruct (Hgen (or_introl Hsome)) as (r & w2 & _ & _ & ->).
    exists w2. left. by eexists.
  - destruct b.
    + destruct (Hgen (or_intror Hload)) as (r & w2 & _ & _ & ->).
      exists w2. left. by eexists.
    + destruct (Hfalse eq_refl) as [detail ->].
      exists w1. right. right. by exists detail.
Qed.

(** C1, evaluated where it fails.  Every request to [POST /lesson] is
    answered by 200 with status "success", by 404 or by 503: no run gives a
    500.  In a fresh process with retrieval down, a request for Mathematics
    finds the subject, initializes it, fails to retrieve, and is answered by
    200 with status "success" and the placeholder for notes. *)
Theorem post_lesson_success_on_generation_failure :
  (forall E request w,
     exists w',
       (exists body, post_lesson E request w = (Response 200 body, w')
                     /\ status body = "success"%string)
       \/ (exists detail, post_lesson E request w = (ErrorResponse 404 detail, w'))
       \/ (exists detail, post_lesson E request w = (ErrorResponse 503 detail, w')))
  /\ req_subject algebra_request ∈ AVAILABLE_SUBJECTS fresh_world
  /\ fst (load_subject_components retrieval_down_env "Mathematics" fresh_world) = Ok true
  /\ fst (post_lesson retrieval_down_env algebra_request fresh_world)
     = Response 200 {| subject := "Mathematics";
                       topic := "Algebra";
                       sss_level := "SSS 1";
                       learning_pace := "low";
                       lesson_notes := PLACEHOLDER_NOTES;
                       status := "success" |}
  /\ stdout (snd (post_lesson retrieval_down_env algebra_request fresh_world))
     = [ LogBuilding "Mathematics";
         LogGenerating "Mathematics" "Algebra" "SSS 1" low;
         LogGenerationError (PyException "connection refused") ].
Proof.
  split; [apply post_lesson_run|].
  split; [apply (bool_decide_unpack _); vm_compute; exact I|].
  repeat split; vm_compute; reflexivity.
Qed.

(* ===================================================================== *)
(** * The invariant of RAG_COMPONENTS                                     *)
(* ===================================================================== *)

Lemma rag_ok_same (w w' : world) :
  RAG_COMPONENTS w' = RAG_COMPONENTS w -> rag_ok w -> rag_ok w'.
Proof. intros Heq Hok s c. rewrite Heq. apply Hok. Qed.

Lemma rag_ok_insert (w w' : world) (s : string) (c : components) :
  RAG_COMPONENTS w' = <[s := c]> (RAG_COMPONENTS w) ->
  components_ok c -> rag_ok w -> rag_ok w'.
Proof.
  intros Heq Hc Hok s' c'. rewrite Heq.
  destruct (decide (s = s')) as [->|Hne].
  - rewrite lookup_insert_eq. by intros [= <-].
  - rewrite lookup_insert_ne by done. apply Hok.
Qed.

Lemma load_subject_components_rag_ok (E : Env) (s : string) (w : world) :
  rag_ok w -> rag_ok (snd (load_subject_components E s w)).
Proof.
  intros Hok.
  destruct (load_subject_components_run E s w) as (b & w' & -> & Hb). simpl.
  destruct b.
  - destruct Hb as (l & vs & emb & c & w1 & w2 & w3 & _ & _ & _ & Hc & Hins).
    by apply (rag_ok_insert w w' s c).
  - by apply (rag_ok_same w w').
Qed.

Lemma post_lesson_rag_ok (E : Env) (request : LessonRequest) (w : world) :
  rag_ok w -> rag_ok (snd (post_lesson E request w)).
Proof.
  intros Hok.
  pose proof (create_lesson_run E request w) as Hrun. cbv zeta in Hrun.
  unfold post_lesson.
  destruct (bool_decide (req_subject request ∈ AVAILABLE_SUBJECTS w)).
  2:{ by destruct Hrun as [detail ->]. }
  pose proof (load_subject_components_rag_ok E (req_subject request) w Hok) as Hl.
  destruct Hrun as (w1 & [[Hsome ->]|(Hnone & b & Hload & Hfalse)] & Hgen).
  - destruct (Hgen (or_introl Hsome)) as (r & w2 & _ & Hr & ->). simpl.
    by apply (rag_ok_same w w2).
  - rewrite Hload in Hl. simpl in Hl. destruct b.
    + destruct (Hgen (or_intror Hload)) as (r & w2 & _ & Hr & ->). simpl.
      by apply (rag_ok_same w1 w2).
    + by destruct (Hfalse eq_refl) as [detail ->].
Qed.

Lemma reachable_rag_ok (E : Env) (w : world) : reachable E w -> rag_ok w.
Proof.
  induction 1 as [w Hempty|w _ IH|w s _ IH|w s topic level pace _ IH|w request _ IH].
  - intros s c. rewrite Hempty, lookup_empty. done.
  - pose proof (initialize_hf_llm_run E w) as Hrun.
    destruct (initialize_hf_llm E w) as [[l|e] w']; simpl;
      destruct Hrun as [_ Hr]; by apply (rag_ok_same w w').
  - by apply load_subject_components_rag_ok.
  - destruct (generate_lesson_total E s topic level pace w) as (r & w' & -> & Hr).
    simpl. by apply (rag_ok_same w w').
  - by apply post_lesson_rag_ok.
Qed.

(** The run of [load_subject_components], step by step: the model is made
    sure of, then the vectorstore is initialized in the world this leaves,
    then the components are created in the world that leaves. *)
Lemma load_subject_components_eq (E : Env) (s : string) (w : world) :
  load_subject_components E s w
  = let w1 := llm_ensured E w in
    match LLM w1 with
    | None => (Ok false, w1)
    | Some l =>
        match initialize_vectorstore E s false w1 with
        | (Ok (Some vs, _), w2) =>
            match create_rag_components E s (Some vs) (Some l) w2 with
            | (Ok (Some c), w3) =>
                (Ok true, set_RAG_COMPONENTS (<[s := c]> (RAG_COMPONENTS w3)) w3)
            | (_, w3) => (Ok false, w3)
            end
        | (_, w2) => (Ok false, w2)
        end
    end.
Proof.
  cbv zeta. unfold load_subject_components, llm_ensured.
  rewrite (bind_ok _ _ w w (LLM w)) by reflexivity.
  assert (Hrest : forall wa l, LLM wa = Some l ->
    (initialized ← try_except
                     (r ← initialize_vectorstore E s false; mret (Some (fst r)))
                     (fun _ => mret None);
     match initialized with
     | None => mret false
     | Some (Some vs) =>
         llm ← gets LLM;
         components ← create_rag_components E s (Some vs) llm;
         match components with
         | Some c =>
             modify (fun w => set_RAG_COMPONENTS (<[s := c]> (RAG_COMPONENTS w)) w);;
             mret true
         | None => mret false
         end
     | Some None => mret false
     end) wa
    = match initialize_vectorstore E s false wa with
      | (Ok (Some vs, _), w2) =>
          match create_rag_components E s (Some vs) (Some l) w2 with
          | (Ok (Some c), w3) =>
              (Ok true, set_RAG_COMPONENTS (<[s := c]> (RAG_COMPONENTS w3)) w3)
          | (_, w3) => (Ok false, w3)
          end
      | (_, w2) => (Ok false, w2)
      end).
  { intros wa l Hl.
    pose proof (initialize_vectorstore_same_globals E s false wa) as Hsame.
    destruct (initialize_vectorstore E s false wa) as [[[ovs emb]|e] w2] eqn:Hinit;
      simpl in Hsame; destruct Hsame as (_ & _ & _ & _ & HL2 & _).
    2:{ rewrite (bind_ok _ _ wa w2 None); [done|].
        rewrite (try_except_raise _ _ wa w2 e); [done|].
        by rewrite (bind_raise _ _ wa w2 e). }
    rewrite (bind_ok _ _ wa w2 (Some ovs)).
    2:{ apply try_except_ok. by rewrite (bind_ok _ _ wa w2 (ovs, emb)). }
    destruct ovs as [vs|]; [|done].
    rewrite (bind_ok _ _ w2 w2 (Some l)) by (unfold gets; by rewrite HL2, Hl).
    destruct (create_rag_components_run E s (Some vs) (Some l) w2)
      as (oc & w3 & Hc & _ & _).
    rewrite (bind_ok _ _ w2 w3 oc Hc), Hc.
    by destruct oc as [c|]. }
  destruct (LLM w) as [l0|] eqn:HLLM.
  - rewrite (bind_ok _ _ w w true) by reflexivity. cbn [negb].
    rewrite HLLM. by apply Hrest.
  - pose proof (initialize_hf_llm_run E w) as Hllm.
    destruct (initialize_hf_llm E w) as [[l|e] wl] eqn:Hinit; cbn [snd].
    + destruct Hllm as [HL _].
      rewrite (bind_ok _ _ w wl true).
      2:{ apply try_except_ok. by rewrite (bind_ok _ _ w wl l). }
      cbn [negb]. rewrite HL. by apply Hrest.
    + destruct Hllm as [HL _]. rewrite HL, HLLM.
      rewrite (bind_ok _ _ w wl false); [done|].
      rewrite (try_except_raise _ _ w wl e); [done|].
      by rewrite (bind_raise _ _ w wl e).
Qed.

Lemma llm_ensured_rag (E : Env) (w : world) :
  RAG_COMPONENTS (llm_ensured E w) = RAG_COMPONENTS w.
Proof.
  unfold llm_ensured. destruct (LLM w); [done|].
  pose proof (initialize_hf_llm_run E w) as Hllm.
  by destruct (initialize_hf_llm E w) as [[l|e] wl]; destruct Hllm.
Qed.

(** C9.  In every world a process can reach, each entry of
    [RAG_COMPONENTS] holds a retriever and a chain.  [load_subject_components]
    never raises.  It first makes sure of the language model; let [w1] be
    the world this leaves.  When it returns [True], the model is set in
    [w1], the run of [initialize_vectorstore] from [w1] returned a
    vectorstore, the run of [create_rag_components] on that vectorstore and
    that model, from the world the initialization left, returned the
    components, and the outcome is that last world with these components as
    the entry of the subject, the other entries being untouched.  When it
    returns [False], [RAG_COMPONENTS] is what it was, and one of the three
    steps failed: the model is not set in [w1], or the initialization from
    [w1] raised or returned no vectorstore, or the creation of the
    components returned [None]. *)
Theorem rag_components_invariant (E : Env) :
  (forall w, reachable E w -> rag_ok w)
  /\ (forall s w,
        let w1 := llm_ensured E w in
        exists b w',
          load_subject_components E s w = (Ok b, w')
          /\ (rag_ok w -> rag_ok w')
          /\ if b
             then exists l vs emb c w2 w3,
                    LLM w1 = Some l
                    /\ initialize_vectorstore E s false w1 = (Ok (Some vs, emb), w2)
                    /\ create_rag_components E s (Some vs) (Some l) w2
                       = (Ok (Some c), w3)
                    /\ components_ok c
                    /\ w' = set_RAG_COMPONENTS (<[s := c]> (RAG_COMPONENTS w3)) w3
                    /\ RAG_COMPONENTS w' = <[s := c]> (RAG_COMPONENTS w)
             else RAG_COMPONENTS w' = RAG_COMPONENTS w
                  /\ (LLM w1 = None
                      \/ (exists e w2,
                            initialize_vectorstore E s false w1 = (Raise e, w2))
                      \/ (exists emb w2,
                            initialize_vectorstore E s false w1 = (Ok (None, emb), w2))
                      \/ (exists l vs emb w2 w3,
                            LLM w1 = Some l
                            /\ initialize_vectorstore E s false w1
                               = (Ok (Some vs, emb), w2)
                            /\ create_rag_components E s (Some vs) (Some l) w2
                               = (Ok None, w3)))).
Proof.
  split; [apply reachable_rag_ok|].
  intros s w. cbv zeta.
  pose proof (load_subject_components_rag_ok E s w) as Hok.
  pose proof (llm_ensured_rag E w) as Hrag1.
  rewrite (load_subject_components_eq E s w) in Hok |- *. cbv zeta in Hok |- *.
  set (w1 := llm_ensured E w) in *.
  destruct (LLM w1) as [l|] eqn:HLLM.
  2:{ exists false, w1. split; [done|]. split; [exact Hok|]. split; [done|by left]. }
  pose proof (initialize_vectorstore_same_globals E s false w1) as Hsame.
  destruct (initialize_vectorstore E s false w1) as [[[[vs|] emb]|e] w2] eqn:Hinit;
    simpl in Hsame; destruct Hsame as (_ & _ & _ & _ & _ & HR2).
  - destruct (create_rag_components_run E s (Some vs) (Some l) w2)
      as (oc & w3 & Hc & ((_ & _ & _ & _ & _ & HR3) & _) & Hoc).
    rewrite Hc in Hok |- *. destruct oc as [c|].
    + exists true, (set_RAG_COMPONENTS (<[s := c]> (RAG_COMPONENTS w3)) w3).
      split; [done|]. split; [exact Hok|].
      exists l, vs, emb, c, w2, w3. destruct Hoc as (Hcok & _).
      split; [done|]. split; [done|]. split; [done|]. split; [exact Hcok|].
      split; [done|]. simpl. congruence.
    + exists false, w3. split; [done|]. split; [exact Hok|].
      split; [congruence|]. right. right. right. by exists l, vs, emb, w2, w3.
  - exists false, w2. split; [done|]. split; [exact Hok|].
    split; [congruence|]. right. right. left. by exists emb, w2.
  - exists false, w2. split; [done|]. split; [exact Hok|].
    split; [congruence|]. right. left. by exists e, w2.
Qed.

Lemma rag_components_invariant_witness :
  reachable healthy_env
    (snd (load_subject_components healthy_env "Mathematics" fresh_world))
  /\ rag_ok (snd (load_subject_components healthy_env "Mathematics" fresh_world)).
Proof.
  assert (Hreach : reachable healthy_env
            (snd (load_subject_components healthy_env "Mathematics" fresh_world))).
  { apply reach_load, reach_start. reflexivity. }
  split; [exact Hreach|].
  exact (proj1 (rag_components_invariant healthy_env) _ Hreach).
Defined.

(* ===================================================================== *)
(** * More on the content hasher                                          *)
(* ===================================================================== *)

Lemma hash_files_ext_in (d d' : option folder) (h : MD5.hasher) (names : list string) :
  (forall n, n ∈ names -> node_at d n = node_at d' n) ->
  hash_files d h names = hash_files d' h names.
Proof.
  revert h. induction names as [|n names IH]; intros h Hext; simpl; [done|].
  unfold hash_file. rewrite (Hext n) by left.
  destruct (encode n) as [b|e]; simpl; [|done].
  destruct (node_at d' n) as [[content| |]|]; simpl; try done;
    apply IH; intros m Hm; apply Hext; by right.
Qed.

Lemma glob_pdf_without_unmatched (l1 l2 : folder) (n : string) (node : fnode) :
  glob_matches n = false ->
  glob_pdf (Some (l1 ++ (n, node) :: l2)) = glob_pdf (Some (l1 ++ l2)).
Proof.
  intros Hn. unfold glob_pdf. rewrite !map_app. cbn [map fst].
  rewrite !filter_app, filter_cons_False; [done|].
  intros H. apply Is_true_true in H. congruence.
Qed.

(** X1.  The fingerprint depends on the matched files only: an entry whose
    name [glob] does not match (not ending in [.pdf], or hidden) can be
    added to a folder or removed from it without changing the fingerprint,
    whatever it is; and a folder that is missing or has no matched file has
    the fingerprint of the empty message. *)
Theorem get_folder_hash_sees_matched_files_only :
  (forall (l1 l2 : folder) n node,
     glob_matches n = false ->
     get_folder_hash (Some (l1 ++ (n, node) :: l2)) = get_folder_hash (Some (l1 ++ l2)))
  /\ (forall d, glob_pdf d = [] -> get_folder_hash d = Ok EMPTY_FINGERPRINT).
Proof.
  split.
  - intros l1 l2 n node Hn. unfold get_folder_hash, hashed_bytes.
    rewrite glob_pdf_without_unmatched by done.
    rewrite (hash_files_ext_in (Some (l1 ++ (n, node) :: l2)) (Some (l1 ++ l2)));
      [done|].
    intros m Hm. apply (proj1 (sorted_elem_of _ _)) in Hm. simpl in Hm.
    apply list_elem_of_filter in Hm as [Hglob _].
    simpl. rewrite !assoc_app. simpl.
    destruct (String.eqb_spec m n) as [->|_]; [|done].
    rewrite Hn in Hglob. done.
  - intros d Hd. unfold get_folder_hash, hashed_bytes. rewrite Hd.
    vm_compute. reflexivity.
Qed.

Lemma get_folder_hash_sees_matched_files_only_witness :
  glob_matches "notes.txt" = false
  /\ get_folder_hash (Some maths_folder) = get_folder_hash (Some (firstn 2 maths_folder))
  /\ glob_pdf (Some hidden_pdf_folder) = []
  /\ get_folder_hash (Some hidden_pdf_folder) = Ok EMPTY_FINGERPRINT.
Proof.
  destruct get_folder_hash_sees_matched_files_only as [Hdrop Hempty].
  split; [reflexivity|]. split.
  - exact (Hdrop (firstn 2 maths_folder) [] "notes.txt"
             (RegFile (list_byte_of_string "todo")) eq_refl).
  - split; [reflexivity|]. apply Hempty. reflexivity.
Defined.

Lemma chunks_shape {A} (n fuel : nat) (bs : list A) :
  0 < n -> length bs <= fuel ->
  Forall (fun c => 0 < length c <= n) (chunks n fuel bs)
  /\ forall i c, chunks n fuel bs !! i = Some c ->
                 S i < length (chunks n fuel bs) -> length c = n.
Proof.
  intros Hn. revert bs. induction fuel as [|fuel IH]; intros bs Hlen.
  - simpl. split; [constructor|]. intros i c Hc. by rewrite lookup_nil in Hc.
  - destruct bs as [|b bs']; simpl.
    { split; [constructor|]. intros i c Hc. by rewrite lookup_nil in Hc. }
    assert (Hrest : length (drop n (b :: bs')) <= fuel).
    { rewrite length_drop. simpl in *. lia. }
    destruct (IH _ Hrest) as [Hall Hfull]. split.
    + constructor; [|exact Hall]. rewrite length_take. simpl. lia.
    + intros [|i] c Hc Hi; simpl in *.
      * injection Hc as <-. rewrite length_take.
        destruct (chunks n fuel (drop n (b :: bs'))) as [|c' cs] eqn:Hcs;
          [simpl in Hi; lia|].
        assert (Hne : drop n (b :: bs') <> []).
        { intros Hnil. rewrite Hnil in Hcs. by destruct fuel. }
        assert (n < length (b :: bs')).
        { destruct (decide (n < length (b :: bs'))) as [|Hge]; [done|].
          exfalso. apply Hne. apply drop_ge. lia. }
        simpl in *. lia.
      * apply (Hfull i c Hc). lia.
Qed.

(** X2.  The loop that reads a file by slices of 4096 bytes feeds the hash
    exactly the bytes of the file, in order: the slices put end to end are
    the content, none is empty, none is longer than 4096 bytes, and every
    slice but the last has 4096 bytes. *)
Theorem read_chunks_shape (content : list byte) :
  concat (read_chunks content) = content
  /\ Forall (fun c => 0 < length c <= 4096) (read_chunks content)
  /\ (forall i c, read_chunks content !! i = Some c ->
                  S i < length (read_chunks content) -> length c = 4096)
  /\ forall h, fold_left MD5.update (read_chunks content) h = MD5.update h content.
Proof.
  unfold read_chunks.
  destruct (chunks_shape 4096 (length content) content) as [Hall Hfull]; [lia|done|].
  split; [apply chunks_concat; [lia|done]|].
  split; [exact Hall|]. split; [exact Hfull|].
  intros h. apply update_read_chunks.
Qed.

Lemma read_chunks_shape_witness :
  map length (read_chunks (repeat "a"%byte 5000)) = [4096; 904]
  /\ forall c, read_chunks (repeat "a"%byte 5000) !! 0 = Some c -> length c = 4096.
Proof.
  assert (Hlen : map length (read_chunks (repeat "a"%byte 5000)) = [4096; 904])
    by (vm_compute; reflexivity).
  split; [exact Hlen|]. intros c Hc.
  apply (proj1 (proj2 (proj2 (read_chunks_shape (repeat "a"%byte 5000)))) 0 c Hc).
  rewrite <- (length_map length), Hlen. simpl. lia.
Defined.

(* ===================================================================== *)
(** * More on the builder                                                 *)
(* ===================================================================== *)

Lemma for_each_load_pdfs (E : Env) (d : option folder) (names : list string)
    (acc : list document) (w : world) :
  for_each names acc (fun all_documents pdf_file =>
    try_except
      (documents ← call (fun t =>
         pdf_load E t pdf_file (default Dangling (node_at d pdf_file)));
       mret (all_documents ++ documents))
      (fun _ => mret all_documents)) w
  = (Ok (acc ++ loaded_pages E d (clock w) names), ticks (length names) w).
Proof.
  revert acc w. induction names as [|name names IH]; intros acc w; simpl.
  - by rewrite app_nil_r.
  - unfold mbind at 1. unfold M_bind at 1. unfold try_except.
    unfold mbind at 1. unfold M_bind at 1. unfold call at 1.
    destruct (pdf_load E (clock w) name (default Dangling (node_at d name)))
      as [documents|e]; simpl; rewrite IH; simpl.
    + by rewrite <- app_assoc.
    + done.
Qed.

Lemma load_pdfs_eq (E : Env) (d : option folder) (names : list string) (w : world) :
  load_pdfs E d names w
  = (Ok (loaded_pages E d (clock w) names), ticks (length names) w).
Proof. unfold load_pdfs. by rewrite for_each_load_pdfs. Qed.

Lemma loaded_pages_elem_of (E : Env) (d : option folder) (t : nat)
    (names : list string) (doc : document) :
  doc ∈ loaded_pages E d t names <->
  exists i name documents,
    names !! i = Some name
    /\ pdf_load E (i + t) name (default Dangling (node_at d name)) = Ok documents
    /\ doc ∈ documents.
Proof.
  revert t. induction names as [|name names IH]; intros t; simpl.
  - split; [by intros ?%elem_of_nil|]. intros (i & n & ds & Hi & _). by destruct i.
  - rewrite elem_of_app, IH. split.
    + intros [Hhere|(i & n & ds & Hi & Hload & Hin)].
      * destruct (pdf_load E t name (default Dangling (node_at d name)))
          as [documents|e] eqn:Hload; [|by apply elem_of_nil in Hhere].
        by exists 0, name, documents.
      * exists (S i), n, ds. split; [done|]. split; [|done].
        by replace (S i + t) with (i + S t) by lia.
    + intros ([|i] & n & ds & Hi & Hload & Hin); simpl in *.
      * injection Hi as <-. left. by rewrite Hload.
      * right. exists i, n, ds. split; [done|]. split; [|done].
        by replace (i + S t) with (S (i + t)) by lia.
Qed.

(** X3.  The loop that loads the PDFs never raises and makes one call per
    file: a file that cannot be loaded is skipped, and the pages collected
    are those of the files that load, in the order of the files. *)
Theorem load_pdfs_skips_failures (E : Env) (d : option folder) (names : list string)
    (w : world) :
  load_pdfs E d names w
  = (Ok (loaded_pages E d (clock w) names), ticks (length names) w)
  /\ forall doc,
       doc ∈ loaded_pages E d (clock w) names <->
       exists i name documents,
         names !! i = Some name
         /\ pdf_load E (i + clock w) name (default Dangling (node_at d name))
            = Ok documents
         /\ doc ∈ documents.
Proof. split; [apply load_pdfs_eq | intros doc; apply loaded_pages_elem_of]. Qed.

(** How a run of [build_vectorstore] goes up to its [try], once the
    subject folder has been found. *)
Lemma build_vectorstore_pages (E : Env) (s : string) (w : world) :
  stat_error w (subject_folder_path s) = None ->
  subject_is_dir E w s = true ->
  let w0 := set_stdout (stdout w ++ [LogBuilding s]) w in
  let names := sorted (pdf_files E w s) in
  let docs := loaded_pages E (pdf_dir E w s) (clock w) names in
  let w1 := ticks (length names) w0 in
  match docs with
  | [] => build_vectorstore E s w = (Ok (None, None), w1)
  | _ =>
      match split_documents E (clock w1) docs with
      | Ok chunks =>
          build_vectorstore E s w
          = try_except (build_attempt E s docs chunks)
                       (fun _ => mret (None, None)) (tick w1)
      | Raise e => build_vectorstore E s w = (Raise e, tick w1)
      end
  end.
Proof.
  intros Hstat Hdir. cbv zeta.
  pose proof (build_vectorstore_prelude E s w) as Hpre. cbv zeta in Hpre.
  rewrite Hstat, Hdir in Hpre. destruct Hpre as (docs & Hdocs & Hpre).
  rewrite load_pdfs_eq in Hdocs. injection Hdocs as <-.
  exact Hpre.
Qed.

(** X4.  [build_vectorstore] without content.  When the path of the
    subject folder cannot be looked up, the error of the look-up is raised.
    Otherwise the function gives [(None, None)], without asking for
    embeddings and without writing anything, when the path of the subject
    is not a directory and when no page could be loaded from the files
    [glob] found: after the banner it has only made one attempt to load per
    file found.  For a subject whose name is one component of a path, the
    directory is the entry of that name in the curriculum; when the name
    has moreover none of the characters [glob] reads as a pattern, the
    files found are the matched files of that folder. *)
Theorem build_vectorstore_without_content (E : Env) (s : string) (w : world) :
  let w0 := set_stdout (stdout w ++ [LogBuilding s]) w in
  (forall e, stat_error w (subject_folder_path s) = Some e ->
     build_vectorstore E s w = (Raise e, w0))
  /\ (stat_error w (subject_folder_path s) = None ->
      (subject_is_dir E w s = false ->
       build_vectorstore E s w = (Ok (None, None), w0))
      /\ (subject_is_dir E w s = true ->
          loaded_pages E (pdf_dir E w s) (clock w) (sorted (pdf_files E w s)) = [] ->
          build_vectorstore E s w
          = (Ok (None, None), ticks (length (pdf_files E w s)) w0))
      /\ (subject_is_dir E w s = true -> pdf_files E w s = [] ->
          build_vectorstore E s w = (Ok (None, None), w0)))
  /\ (one_component s = true ->
      subject_is_dir E w s = bool_decide (is_Some (subject_path w s)))
  /\ (literal_name s = true ->
      pdf_dir E w s = subject_path w s
      /\ pdf_files E w s = glob_pdf (subject_path w s)).
Proof.
  cbv zeta. split; [|split; [|split]].
  - intros e He. pose proof (build_vectorstore_prelude E s w) as Hpre.
    cbv zeta in Hpre. by rewrite He in Hpre.
  - intros Hstat. split; [|split].
    + intros Hnone. pose proof (build_vectorstore_prelude E s w) as Hpre.
      cbv zeta in Hpre. by rewrite Hstat, Hnone in Hpre.
    + intros Hsome Hdocs.
      pose proof (build_vectorstore_pages E s w Hstat Hsome) as Hpre.
      cbv zeta in Hpre. by rewrite Hdocs, sorted_length in Hpre.
    + intros Hsome Hfiles.
      pose proof (build_vectorstore_pages E s w Hstat Hsome) as Hpre.
      cbv zeta in Hpre. by rewrite Hfiles in Hpre.
  - apply subject_is_dir_literal.
  - apply pdf_dir_literal.
Qed.

Lemma build_vectorstore_without_content_witness :
  stat_error fresh_world (subject_folder_path "Chemistry") = None
  /\ one_component "Chemistry" = true
  /\ subject_path fresh_world "Chemistry" = None
  /\ build_vectorstore healthy_env "Chemistry" fresh_world
     = (Ok (None, None), set_stdout [LogBuilding "Chemistry"] fresh_world).
Proof.
  split; [reflexivity|]. split; [reflexivity|]. split; [reflexivity|].
  exact (proj1 (proj1 (proj2 (build_vectorstore_without_content healthy_env
                                "Chemistry" fresh_world)) eq_refl) eq_refl).
Defined.

(* ===================================================================== *)
(** * Subjects that are listed and cannot be built                        *)
(* ===================================================================== *)

Lemma filter_nil_not_elem_of (P : string -> Prop) `{!forall x, Decision (P x)}
    (l : list string) :
  (forall x, x ∈ l -> ~ P x) -> filter P l = [].
Proof.
  intros Hall. destruct (filter P l) as [|x l'] eqn:Hf; [done|].
  assert (Hx : x ∈ filter P l) by (rewrite Hf; left).
  apply list_elem_of_filter in Hx as [HP Hx]. by destruct (Hall x Hx).
Qed.

Lemma glob_pdf_hidden_only (f : folder) :
  (forall n, n ∈ map fst f -> ends_with ".pdf" n = true -> hidden n = true) ->
  glob_pdf (Some f) = [].
Proof.
  intros H. unfold glob_pdf. apply filter_nil_not_elem_of.
  intros n Hn Hm. apply Is_true_true in Hm. unfold glob_matches in Hm.
  apply andb_true_iff in Hm as [Hh He]. rewrite (H n Hn He) in Hh. done.
Qed.

Lemma path_glob_pdf_nonempty (f : folder) (n : string) :
  n ∈ map fst f -> ends_with ".pdf" n = true -> path_glob_pdf f <> [].
Proof.
  intros Hn He Hnil.
  assert (Hx : n ∈ path_glob_pdf f).
  { unfold path_glob_pdf. apply list_elem_of_filter. split; [|done].
    by apply Is_true_true. }
  rewrite Hnil in Hx. by apply elem_of_nil in Hx.
Qed.

Lemma get_available_subjects_elem (w : world) entries (s : string) (f : folder) :
  curriculum_data w = RootDir entries ->
  (s, SubjectDir f) ∈ entries ->
  path_glob_pdf f <> [] ->
  exists subjects, get_available_subjects w = (Ok subjects, w) /\ s ∈ subjects.
Proof.
  intros Hroot Hin Hpdf. unfold get_available_subjects. unfold_monad.
  rewrite Hroot. eexists. split; [reflexivity|].
  apply sorted_elem_of, list_elem_of_In, in_flat_map.
  exists (s, SubjectDir f). split; [by apply list_elem_of_In|].
  destruct (path_glob_pdf f); [done|by left].
Qed.

Lemma vectorstore_path_same (w w' : world) (s : string) :
  vectorstores w' !! s = vectorstores w !! s ->
  vectorstore_path w' s = vectorstore_path w s.
Proof. intros H. unfold vectorstore_path. by rewrite H. Qed.

(** What a run of [initialize_hf_llm] is, case by case. *)
Lemma initialize_hf_llm_eq (E : Env) (w : world) :
  initialize_hf_llm E w
  = match LLM w with
    | Some l => (Ok l, w)
    | None =>
        match hf_token w with
        | Some tok =>
            if String.eqb tok ""
            then (Raise (EnvironmentError "HUGGINGFACEHUB_API_TOKEN is not set."), w)
            else match new_chat_model E (clock w) REPO_ID tok with
                 | Ok l => (Ok l, set_LLM (Some l) (tick w))
                 | Raise e => (Raise e, tick w)
                 end
        | None => (Raise (EnvironmentError "HUGGINGFACEHUB_API_TOKEN is not set."), w)
        end
    end.
Proof.
  unfold initialize_hf_llm. unfold_monad.
  destruct (LLM w); [done|]. destruct (hf_token w) as [tok|]; [|done].
  destruct (String.eqb tok ""); [done|].
  by destruct (new_chat_model E (clock w) REPO_ID tok).
Qed.

(** The model is set up before the vectorstore is looked at, and that
    changes nothing the vectorstore functions read but the clock. *)
Lemma initialize_hf_llm_frame (E : Env) (w : world) :
  let w' := snd (initialize_hf_llm E w) in
  same_setup w w' /\ vectorstores w' = vectorstores w
  /\ RAG_COMPONENTS w' = RAG_COMPONENTS w /\ stdout w' = stdout w
  /\ stat_error w' = stat_error w.
Proof.
  cbv zeta. rewrite initialize_hf_llm_eq.
  destruct (LLM w); [done|]. destruct (hf_token w) as [tok|]; [|done].
  destruct (String.eqb tok ""); [done|].
  by destruct (new_chat_model E (clock w) REPO_ID tok).
Qed.

(** A subject whose initialization gives no vectorstore is not loaded. *)
Lemma load_subject_components_no_vectorstore (E : Env) (s : string) (w : world) :
  (forall w1, same_setup w w1 -> vectorstores w1 = vectorstores w ->
     stat_error w1 = stat_error w ->
     exists emb w2, initialize_vectorstore E s false w1 = (Ok (None, emb), w2)) ->
  exists w', load_subject_components E s w = (Ok false, w').
Proof.
  intros Hinit. unfold load_subject_components.
  rewrite (bind_ok _ _ w w (LLM w)) by reflexivity.
  assert (Hready : forall w1, same_setup w w1 -> vectorstores w1 = vectorstores w ->
            stat_error w1 = stat_error w ->
            exists w',
              (initialized ← try_except
                 (r ← initialize_vectorstore E s false; mret (Some (fst r)))
                 (fun _ => mret None);
               match initialized with
               | None => mret false
               | Some (Some vs) =>
                   llm ← gets LLM;
                   components ← create_rag_components E s (Some vs) llm;
                   match components with
                   | Some c =>
                       modify (fun w =>
                         set_RAG_COMPONENTS (<[s := c]> (RAG_COMPONENTS w)) w);;
                       mret true
                   | None => mret false
                   end
               | Some None => mret false
               end) w1 = (Ok false, w')).
  { intros w1 H1 H2 H3. destruct (Hinit w1 H1 H2 H3) as (emb & w2 & Hrun).
    exists w2. rewrite (bind_ok _ _ w1 w2 (Some None)); [reflexivity|].
    apply try_except_ok. by rewrite (bind_ok _ _ _ _ _ Hrun). }
  destruct (LLM w) as [l|] eqn:HLLM.
  - rewrite (bind_ok _ _ w w true) by reflexivity. cbn [negb].
    by apply Hready.
  - pose proof (initialize_hf_llm_frame E w) as (Hs & Hv & _ & _ & Ho).
    destruct (initialize_hf_llm E w) as [[l|e] w1] eqn:Hllm; cbn [snd] in *.
    + rewrite (bind_ok _ _ w w1 true).
      2:{ apply try_except_ok. by rewrite (bind_ok _ _ _ _ _ Hllm). }
      cbn [negb]. by apply Hready.
    + rewrite (bind_ok _ _ w w1 false).
      2:{ erewrite try_except_raise; [reflexivity|]. by apply bind_raise. }
      cbn [negb]. by eexists.
Qed.

(** X5.  The two places that look for PDFs disagree on hidden files.
    Take a subject whose name is one component of a path and has none of
    the characters [glob] reads as a pattern, whose paths can be looked up,
    and whose folder has PDFs that all have a name starting with a dot.  It is listed by
    [get_available_subjects], but the builder finds nothing to load in it:
    with no index on disk its initialization gives no vectorstore, the
    subject is never loaded, and a request for it is answered 503. *)
Theorem hidden_pdfs_are_listed_but_not_built (E : Env) (w : world) entries
    (s : string) (f : folder) :
  literal_name s = true ->
  stat_error w (subject_folder_path s) = None ->
  curriculum_data w = RootDir entries ->
  assoc s entries = Some (SubjectDir f) ->
  (exists n, n ∈ map fst f /\ ends_with ".pdf" n = true) ->
  (forall n, n ∈ map fst f -> ends_with ".pdf" n = true -> hidden n = true) ->
  (exists subjects, get_available_subjects w = (Ok subjects, w) /\ s ∈ subjects)
  /\ build_vectorstore E s w
     = (Ok (None, None), set_stdout (stdout w ++ [LogBuilding s]) w)
  /\ (GLOBAL_VECTORSTORES w !! s = None -> vectorstores w !! s = None ->
      stat_error w (index_file_path s "index.faiss") = None ->
      initialize_vectorstore E s false w
      = (Ok (None, None), set_stdout (stdout w ++ [LogBuilding s]) w)
      /\ (exists w', load_subject_components E s w = (Ok false, w'))
      /\ forall request,
           req_subject request = s -> s ∈ AVAILABLE_SUBJECTS w ->
           RAG_COMPONENTS w !! s = None ->
           exists detail w',
             post_lesson E request w = (ErrorResponse 503 detail, w')).
Proof.
  intros Hplain Hstat Hroot Hassoc (n & Hn & Hpdf) Hhidden.
  assert (Hpath : forall w1, curriculum_data w1 = curriculum_data w ->
            subject_path w1 s = Some f).
  { intros w1 H1. unfold subject_path. by rewrite H1, Hroot, Hassoc. }
  assert (Hbuild : forall w1, curriculum_data w1 = curriculum_data w ->
            stat_error w1 = stat_error w ->
            build_vectorstore E s w1
            = (Ok (None, None), set_stdout (stdout w1 ++ [LogBuilding s]) w1)).
  { intros w1 H1 H2.
    assert (Hstat1 : stat_error w1 (subject_folder_path s) = None) by (by rewrite H2).
    assert (Hsome : subject_is_dir E w1 s = true).
    { rewrite subject_is_dir_literal by (by apply literal_name_one_component).
      rewrite (Hpath w1 H1). apply bool_decide_eq_true_2. by eexists. }
    pose proof (build_vectorstore_pages E s w1 Hstat1 Hsome) as Hpre.
    cbv zeta in Hpre.
    destruct (pdf_dir_literal E w1 s Hplain) as [_ Hfiles].
    rewrite Hfiles, (Hpath w1 H1) in Hpre.
    rewrite (glob_pdf_hidden_only f Hhidden) in Hpre. exact Hpre. }
  assert (Hinit : forall w1, same_setup w w1 -> vectorstores w1 = vectorstores w ->
            stat_error w1 = stat_error w ->
            GLOBAL_VECTORSTORES w !! s = None -> vectorstores w !! s = None ->
            stat_error w (index_file_path s "index.faiss") = None ->
            initialize_vectorstore E s false w1
            = (Ok (None, None), set_stdout (stdout w1 ++ [LogBuilding s]) w1)).
  { intros w1 (Hc & _ & Hg & _) Hv Hst Hcache Hdisk Hfaiss.
    rewrite initialize_uncached by (by rewrite Hg).
    unfold gate_decision, index_present, vectorstore_path.
    rewrite Hst, Hfaiss, Hv, Hdisk. cbn.
    by apply Hbuild. }
  split; [|split].
  - apply (get_available_subjects_elem w entries s f Hroot).
    + by apply assoc_elem_of.
    + by apply (path_glob_pdf_nonempty f n).
  - by apply Hbuild.
  - intros Hcache Hdisk Hfaiss.
    assert (Hload : exists w', load_subject_components E s w = (Ok false, w')).
    { apply load_subject_components_no_vectorstore. intros w1 H1 H2 H3.
      eexists _, _. by apply Hinit. }
    split; [by apply (Hinit w)|]. split; [exact Hload|].
    intros request <- Havail Hrag. destruct Hload as (w' & Hload).
    pose proof (create_lesson_run E request w) as Hrun. cbv zeta in Hrun.
    rewrite bool_decide_eq_true_2 in Hrun by done.
    destruct Hrun as (w1 & [[Hsome _]|(_ & b & Hb & H503)] & _).
    { rewrite Hrag in Hsome. by destruct Hsome. }
    rewrite Hload in Hb. injection Hb as <- <-.
    destruct (H503 eq_refl) as (detail & Hcreate).
    exists detail, w'. unfold post_lesson. by rewrite Hcreate.
Qed.

Lemma hidden_pdfs_are_listed_but_not_built_witness :
  literal_name "Physics" = true
  /\ fst (get_available_subjects hidden_pdf_world) = Ok ["Physics"%string]
  /\ fst (build_vectorstore healthy_env "Physics" hidden_pdf_world) = Ok (None, None)
  /\ exists detail w',
       post_lesson healthy_env physics_request hidden_pdf_world
       = (ErrorResponse 503 detail, w').
Proof.
  assert (H := hidden_pdfs_are_listed_but_not_built healthy_env hidden_pdf_world
            [("Physics"%string, SubjectDir hidden_pdf_folder)] "Physics"
            hidden_pdf_folder eq_refl eq_refl eq_refl eq_refl).
  destruct H as (_ & Hbuild & Hrest).
  - exists ".draft.pdf"%string. split; [|reflexivity].
    apply list_elem_of_In. simpl. by left.
  - intros n Hn He. apply list_elem_of_In in Hn. simpl in Hn.
    destruct Hn as [<-|[<-|[]]]; [reflexivity|discriminate He].
  - split; [reflexivity|]. split; [reflexivity|]. split; [by rewrite Hbuild|].
    destruct (Hrest eq_refl eq_refl eq_refl) as (_ & _ & H503).
    apply (H503 physics_request eq_refl); [|reflexivity].
    apply list_elem_of_In. simpl. by left.
Defined.

(* ===================================================================== *)
(** * More on the fingerprint and the gate                                *)
(* ===================================================================== *)

Lemma hash_files_directory (d : option folder) (h : MD5.hasher) (names : list string)
    (n : string) :
  n ∈ names -> node_at d n = Some SubDir ->
  (forall m, m ∈ names -> utf8_name m = true) ->
  hash_files d h names = Raise IsADirectoryError.
Proof.
  intros Hin Hdir Hvalid. revert h. induction names as [|a names IH]; intros h.
  - by apply elem_of_nil in Hin.
  - cbn [hash_files]. unfold hash_file, encode. rewrite (Hvalid a) by left. simpl.
    apply elem_of_cons in Hin as [<-|Hin]; [by rewrite Hdir|].
    assert (Hrest : hash_files d
              (match node_at d a with
               | Some (RegFile content) =>
                   fold_left MD5.update (read_chunks content)
                     (MD5.update h (name_bytes a))
               | _ => MD5.update h (name_bytes a)
               end) names = Raise IsADirectoryError).
    { apply IH; [done|]. intros m Hm. apply Hvalid. by right. }
    destruct (node_at d a) as [[content| |]|]; simpl; done.
Qed.

Lemma get_folder_hash_directory (f : folder) (n : string) :
  assoc n f = Some SubDir -> glob_matches n = true -> valid_names f ->
  get_folder_hash (Some f) = Raise IsADirectoryError.
Proof.
  intros Hdir Hm Hvalid. unfold get_folder_hash, hashed_bytes.
  rewrite (hash_files_directory (Some f) MD5.new _ n); [done| |exact Hdir|].
  - apply sorted_elem_of. unfold glob_pdf. apply list_elem_of_filter.
    split; [by apply Is_true_true|].
    apply list_elem_of_In. apply (in_map fst f (n, SubDir)).
    by apply list_elem_of_In, assoc_elem_of.
  - intros m. by apply valid_names_glob_pdf.
Qed.

(** A build that gives a vectorstore has gone through its [try]. *)
Lemma build_vectorstore_success (E : Env) (s : string) (w w' : world)
    (vs : vectorstore) (emb : option embeddings) :
  build_vectorstore E s w = (Ok (Some vs, emb), w') ->
  let names := sorted (pdf_files E w s) in
  let docs := loaded_pages E (pdf_dir E w s) (clock w) names in
  let w1 := ticks (length names) (set_stdout (stdout w ++ [LogBuilding s]) w) in
  stat_error w (subject_folder_path s) = None
  /\ subject_is_dir E w s = true
  /\ docs <> []
  /\ exists chunks,
       split_documents E (clock w1) docs = Ok chunks
       /\ build_attempt E s docs chunks (tick w1) = (Ok (Some vs, emb), w').
Proof.
  intros Hbuild. cbv zeta.
  pose proof (build_vectorstore_prelude E s w) as Hpre. cbv zeta in Hpre.
  destruct (stat_error w (subject_folder_path s)) as [e|] eqn:Hstat; [congruence|].
  destruct (subject_is_dir E w s) eqn:Hdir; [|congruence].
  destruct Hpre as (docs & Hdocs & Hpre).
  rewrite load_pdfs_eq in Hdocs. injection Hdocs as <-.
  split; [done|]. split; [done|].
  destruct (loaded_pages E (pdf_dir E w s) (clock w) (sorted (pdf_files E w s)))
    as [|doc docs]; [congruence|].
  split; [done|].
  match type of Hpre with
  | match split_documents E ?t ?ds with _ => _ end =>
      destruct (split_documents E t ds) as [chunks|e]
  end; [|congruence].
  exists chunks. split; [done|].
  rewrite Hpre in Hbuild. unfold try_except in Hbuild.
  match type of Hbuild with
  | context [build_attempt E s ?ds chunks ?w1] =>
      destruct (build_attempt E s ds chunks w1) as [[r|e] w2]
  end; [|discriminate Hbuild].
  by injection Hbuild as -> ->.
Qed.

(** X6.  A directory whose name ends in [.pdf] breaks the fingerprint.
    Take a subject whose name is one component of a path and has none of
    the characters [glob] reads as a pattern, and whose folder, with names
    that are UTF-8, has a directory matched by [*.pdf].  Then [get_folder_hash] raises [IsADirectoryError]
    on the folder, the builder never gives a vectorstore for the subject,
    and once the index files are on disk the gate raises instead of
    answering. *)
Theorem pdf_named_directory_breaks_fingerprint (E : Env) (s : string) (w : world)
    (f : folder) (n : string) :
  literal_name s = true ->
  subject_path w s = Some f ->
  valid_names f ->
  assoc n f = Some SubDir ->
  glob_matches n = true ->
  get_folder_hash (Some f) = Raise IsADirectoryError
  /\ (forall vs emb, fst (build_vectorstore E s w) <> Ok (Some vs, emb))
  /\ (index_present w s = Ok true ->
      should_rebuild_vectorstore E s w = (Raise IsADirectoryError, w)
      /\ (GLOBAL_VECTORSTORES w !! s = None ->
          initialize_vectorstore E s false w = (Raise IsADirectoryError, w))).
Proof.
  intros Hplain Hpath Hvalid Hdir Hm.
  pose proof (get_folder_hash_directory f n Hdir Hm Hvalid) as Hhash.
  assert (Hfh : forall w1, curriculum_data w1 = curriculum_data w ->
            folder_hash E w1 s = Raise IsADirectoryError).
  { intros w1 H1. rewrite (folder_hash_same E w w1 s H1).
    by rewrite folder_hash_literal, Hpath. }
  split; [exact Hhash|]. split.
  - intros vs emb Hfst.
    destruct (build_vectorstore E s w) as [r w'] eqn:Hbuild. cbn [fst] in Hfst.
    subst r.
    destruct (build_vectorstore_success E s w w' vs emb Hbuild)
      as (_ & _ & _ & chunks & _ & Hatt).
    match type of Hatt with
    | build_attempt E s ?ds chunks ?w1 = _ =>
        pose proof (build_attempt_run E s ds chunks w1) as Hrun
    end.
    cbv zeta in Hrun. rewrite Hatt in Hrun.
    destruct Hrun as (vs' & emb' & h & _ & _ & Hh & _).
    rewrite Hfh in Hh by apply build_attempt_curriculum. discriminate.
  - intros Hpresent.
    assert (Hgate : gate_decision E w s = Raise IsADirectoryError).
    { unfold gate_decision. by rewrite Hpresent, (Hfh w). }
    split; [by rewrite should_rebuild_eq, Hgate|].
    intros Hcache. by rewrite initialize_uncached, Hgate.
Qed.

Lemma pdf_named_directory_breaks_fingerprint_witness :
  literal_name "Biology" = true
  /\ get_folder_hash (Some pdf_directory_folder) = Raise IsADirectoryError
  /\ initialize_vectorstore healthy_env "Biology" false pdf_directory_world
     = (Raise IsADirectoryError, pdf_directory_world).
Proof.
  destruct (pdf_named_directory_breaks_fingerprint healthy_env "Biology"
              pdf_directory_world pdf_directory_folder "scans.pdf"
              eq_refl eq_refl) as (Hhash & _ & Hgate);
    [repeat constructor|reflexivity|reflexivity|].
  split; [reflexivity|]. split; [exact Hhash|].
  exact (proj2 (Hgate eq_refl) eq_refl).
Defined.

Lemma gate_decision_after_build (E : Env) (s : string) (w' : world) (h : string)
    (m : json) :
  index_present w' s = Ok true ->
  folder_hash E w' s = Ok h ->
  metadata_json (vectorstore_path w' s) = Some (json_dumps E m) ->
  py_get m "file_hash" = Ok (JStr h) ->
  reads_back E h ->
  gate_decision E w' s = Ok false.
Proof.
  intros Hpresent Hh Hmeta Hget Hback.
  destruct (Hback m Hget) as (m' & Hread & Hloads & Hget').
  unfold gate_decision, stored_fingerprint, metadata_of.
  rewrite Hpresent, Hh, Hmeta, Hread, Hloads. simpl. rewrite Hget'. simpl.
  by rewrite String.eqb_refl.
Qed.

Lemma load_attempt_ok (E : Env) (s : string) (w0 : world) (emb : embeddings)
    (vs : vectorstore) items :
  new_embeddings E (clock w0) EMBEDDING_MODEL = Ok emb ->
  faiss_load_local E (S (clock w0)) (vectorstore_path w0 s) emb = Ok vs ->
  metadata_of E (vectorstore_path w0 s) = Ok (JDict items) ->
  load_attempt E s w0 = (Ok (Some vs, Some emb), tick (tick w0)).
Proof.
  intros Hemb Hload Hmeta. unfold load_attempt.
  rewrite (bind_ok _ _ w0 (tick w0) emb)
    by (unfold create_embeddings, call; by rewrite Hemb).
  rewrite (bind_ok _ _ (tick w0) (tick (tick w0)) vs).
  2:{ rewrite (bind_ok _ _ (tick w0) (tick w0) (vectorstore_path w0 s)) by reflexivity.
      unfold call. cbn [clock tick]. by rewrite Hload. }
  rewrite (bind_ok _ _ (tick (tick w0)) (tick (tick w0)) (JDict items)).
  2:{ rewrite get_metadata_eq.
      change (vectorstore_path (tick (tick w0)) s) with (vectorstore_path w0 s).
      by rewrite Hmeta. }
  by destruct (truthy (JDict items)).
Qed.

(** What a build that gives a vectorstore leaves on disk. *)
Lemma build_vectorstore_success_disk (E : Env) (s : string) (w w' : world)
    (vs : vectorstore) (emb : option embeddings) :
  build_vectorstore E s w = (Ok (Some vs, emb), w') ->
  exists h m,
    is_Some (index_faiss (vectorstore_path w' s))
    /\ is_Some (index_pkl (vectorstore_path w' s))
    /\ folder_hash E w s = Ok h
    /\ folder_hash E w' s = Ok h
    /\ metadata_json (vectorstore_path w' s) = Some (json_dumps E m)
    /\ py_get m "file_hash" = Ok (JStr h).
Proof.
  intros Hbuild.
  assert (Hsame : same_globals w w').
  { pose proof (steps_build_vectorstore E same_globals s w) as H.
    by rewrite Hbuild in H. }
  destruct (build_vectorstore_success E s w w' vs emb Hbuild)
    as (_ & _ & _ & chunks & _ & Hatt).
  match type of Hatt with
  | build_attempt E s ?ds chunks ?w1 = _ =>
      pose proof (build_attempt_run E s ds chunks w1) as Hrun
  end.
  cbv zeta in Hrun. rewrite Hatt in Hrun.
  destruct Hrun as (vs' & emb' & h & _ & Hidx & Hh & Hmeta).
  destruct Hidx as (_ & _ & _ & fa & pk & _ & Hfa & Hpk).
  rewrite (folder_hash_same E w _ s) in Hh by apply build_attempt_curriculum.
  destruct Hsame as (Hc & _).
  eexists h, _. split; [by rewrite Hfa|]. split; [by rewrite Hpk|].
  split; [exact Hh|]. split; [by rewrite (folder_hash_same E w w' s Hc)|].
  split; [exact Hmeta|reflexivity].
Qed.

(** X7.  Building and then initializing again.  After a build that gave a
    vectorstore, provided the two index files can be looked up and the JSON
    codec reads back the fingerprint it wrote, [should_rebuild_vectorstore]
    answers [False] and the next initialization goes to the loader; if the
    embeddings model and [FAISS.load_local] then answer, the outcome is what
    was loaded from the directory, with nothing rebuilt and no file
    written.  The fingerprint is the one the hasher gives for the subject,
    whatever its name. *)
Theorem build_then_gate_loads (E : Env) (s : string) (w w' : world)
    (vs : vectorstore) (emb : embeddings) :
  build_vectorstore E s w = (Ok (Some vs, Some emb), w') ->
  stat_error w' (index_file_path s "index.faiss") = None ->
  stat_error w' (index_file_path s "index.pkl") = None ->
  (forall h, folder_hash E w s = Ok h -> reads_back E h) ->
  should_rebuild_vectorstore E s w' = (Ok false, w')
  /\ (GLOBAL_VECTORSTORES w !! s = None ->
      initialize_vectorstore E s false w' = load_vectorstore E s w'
      /\ forall emb2 vs2,
           new_embeddings E (clock w') EMBEDDING_MODEL = Ok emb2 ->
           faiss_load_local E (S (clock w')) (vectorstore_path w' s) emb2 = Ok vs2 ->
           exists w'',
             initialize_vectorstore E s false w' = (Ok (Some vs2, Some emb2), w'')
             /\ vectorstores w'' = vectorstores w'
             /\ stdout w'' = stdout w' ++ [LogLoading s]).
Proof.
  intros Hbuild Hs1 Hs2 Hback.
  assert (Hsame : same_globals w w').
  { pose proof (steps_build_vectorstore E same_globals s w) as H.
    by rewrite Hbuild in H. }
  destruct (build_vectorstore_success_disk E s w w' vs (Some emb) Hbuild)
    as (h & m & Hfa & Hpk & Hh & Hh' & Hmeta & Hget).
  assert (Hpresent : index_present w' s = Ok true).
  { rewrite index_present_stat by done.
    by rewrite !bool_decide_eq_true_2. }
  assert (Hb : reads_back E h) by (by apply Hback).
  destruct (Hb m Hget) as (m' & Hread & Hloads & Hget').
  assert (Hm' : metadata_of E (vectorstore_path w' s) = Ok m').
  { unfold metadata_of. rewrite Hmeta, Hread, Hloads. done. }
  assert (Hgate : gate_decision E w' s = Ok false)
    by (by apply (gate_decision_after_build E s w' h m)).
  split; [by rewrite should_rebuild_eq, Hgate|].
  intros Hcache.
  assert (Hinit : initialize_vectorstore E s false w' = load_vectorstore E s w').
  { rewrite initialize_uncached, Hgate; [done|].
    destruct Hsame as (_ & _ & Hg & _). by rewrite Hg. }
  split; [exact Hinit|].
  intros emb2 vs2 Hemb Hload. rewrite Hinit.
  destruct m' as [| | | | | |items]; try discriminate Hget'.
  eexists. split.
  - apply (load_vectorstore_attempt_ok E s w' _ _ Hfa).
    by apply (load_attempt_ok E s _ emb2 vs2 items).
  - done.
Qed.

Lemma build_then_gate_loads_witness :
  exists w',
    snd (build_vectorstore healthy_env "Mathematics" fresh_world) = w'
    /\ should_rebuild_vectorstore healthy_env "Mathematics" w' = (Ok false, w').
Proof.
  eexists. split; [reflexivity|].
  eapply (build_then_gate_loads healthy_env "Mathematics" fresh_world).
  - vm_compute. reflexivity.
  - reflexivity.
  - reflexivity.
  - intros h Hh. vm_compute in Hh. injection Hh as <-.
    intros m Hm. cbn [json_dumps healthy_env]. unfold sample_dumps. rewrite Hm.
    eexists. vm_compute. repeat split.
Defined.

(** X8.  What a build that gives a vectorstore has done.  The path of
    the subject was found to be a directory; the pages are those of the
    files [glob] found that loaded, in the sorted order of these files; the
    vectorstore returned is the one made from the chunks of these pages
    with the embeddings returned; and the metadata file holds the
    fingerprint the hasher gives for the subject, the number of pages, the
    number of chunks and the time of the build.  For a subject whose name
    is one component of a path and has none of the characters [glob] reads
    as a pattern, the directory is the subject's own folder, the files are
    the matched files of that folder and the fingerprint is that of the
    folder. *)
Theorem build_vectorstore_success_records (E : Env) (s : string) (w w' : world)
    (vs : vectorstore) (emb : embeddings) :
  build_vectorstore E s w = (Ok (Some vs, Some emb), w') ->
  (exists h chunks,
    let names := sorted (pdf_files E w s) in
    let docs := loaded_pages E (pdf_dir E w s) (clock w) names in
    let t := length names + clock w in
    subject_is_dir E w s = true
    /\ docs <> []
    /\ split_documents E t docs = Ok chunks
    /\ new_embeddings E (1 + t) EMBEDDING_MODEL = Ok emb
    /\ faiss_from_documents E (2 + t) chunks emb = Ok vs
    /\ folder_hash E w s = Ok h
    /\ metadata_json (vectorstore_path w' s)
       = Some (json_dumps E
           (JDict [ ("file_hash", JStr h);
                    ("num_documents", JInt (Z.of_nat (length docs)));
                    ("num_chunks", JInt (Z.of_nat (length chunks)));
                    ("last_build", JStr (now_isoformat E (5 + t))) ])))
  /\ (literal_name s = true ->
      is_Some (subject_path w s)
      /\ pdf_dir E w s = subject_path w s
      /\ pdf_files E w s = glob_pdf (subject_path w s)
      /\ folder_hash E w s = get_folder_hash (subject_path w s)).
Proof.
  intros Hbuild. split.
  2:{ intros Hplain. destruct (pdf_dir_literal E w s Hplain) as [H1 H2].
      destruct (build_vectorstore_success E s w w' vs (Some emb) Hbuild)
        as (_ & Hdir & _).
      rewrite subject_is_dir_literal in Hdir
        by (by apply literal_name_one_component).
      split; [by apply bool_decide_eq_true in Hdir|].
      split; [done|]. split; [done|]. by apply folder_hash_literal. }
  destruct (build_vectorstore_success E s w w' vs (Some emb) Hbuild)
    as (_ & Hsome & Hdocs & chunks & Hsplit & Hatt).
  cbv zeta in *.
  set (names := sorted (pdf_files E w s)) in *.
  set (w1 := ticks (length names) (set_stdout (stdout w ++ [LogBuilding s]) w)) in *.
  assert (Hclock : clock w1 = length names + clock w).
  { unfold w1. by rewrite ticks_clock. }
  match type of Hatt with
  | build_attempt E s ?ds chunks ?wa = _ =>
      pose proof (build_attempt_run E s ds chunks wa) as Hrun
  end.
  cbv zeta in Hrun. rewrite Hatt in Hrun.
  destruct Hrun as (vs' & emb' & h & [= <- <-] & Hidx & Hh & Hmeta).
  destruct Hidx as (Hemb & Hfaiss & _).
  change (clock (tick w1)) with (S (clock w1)) in *. rewrite Hclock in *.
  unfold w1 in Hh.
  rewrite (folder_hash_same E w _ s) in Hh by apply build_attempt_curriculum.
  exists h, chunks. split; [done|]. split; [done|]. split; [done|].
  split; [exact Hemb|]. split; [exact Hfaiss|]. split; [exact Hh|]. exact Hmeta.
Qed.

Lemma build_vectorstore_success_records_witness :
  exists chunks,
    split_documents healthy_env 2
      (loaded_pages healthy_env (Some maths_folder) 0 (sorted (glob_pdf (Some maths_folder))))
    = Ok chunks
    /\ length chunks = 2.
Proof.
  assert (Hbuild : exists vs emb,
            build_vectorstore healthy_env "Mathematics" fresh_world
            = (Ok (Some vs, Some emb),
               snd (build_vectorstore healthy_env "Mathematics" fresh_world))).
  { eexists _, _. vm_compute. reflexivity. }
  destruct Hbuild as (vs & emb & Hbuild).
  destruct (build_vectorstore_success_records healthy_env "Mathematics" fresh_world
              _ vs emb Hbuild) as ((h & chunks & _ & _ & Hsplit & _) & _).
  exists chunks. split; [exact Hsplit|].
  vm_compute in Hsplit. by injection Hsplit as <-.
Defined.

(** X9.  The gate and the metadata file, for a subject whose two index
    files are found on disk and for which the hasher gives fingerprint [h].
    A metadata file that is missing or is not JSON makes the gate answer
    [True]; so does an object without a ["file_hash"] that is the string
    [h].  A file that holds JSON other than an object makes the gate raise
    [AttributeError]. *)
Theorem gate_reads_metadata (E : Env) (s : string) (w : world) (h : string) :
  let d := vectorstore_path w s in
  index_present w s = Ok true ->
  folder_hash E w s = Ok h ->
  (metadata_json d = None -> should_rebuild_vectorstore E s w = (Ok true, w))
  /\ (forall content,
        metadata_json d = Some content -> read_text content = Ok content ->
        json_loads E content = Raise JSONDecodeError ->
        should_rebuild_vectorstore E s w = (Ok true, w))
  /\ (forall content v,
        metadata_json d = Some content -> read_text content = Ok content ->
        json_loads E content = Ok v ->
        match v with
        | JDict items =>
            should_rebuild_vectorstore E s w
            = (Ok (match assoc "file_hash" items with
                   | Some (JStr stored) => negb (String.eqb stored h)
                   | _ => true
                   end), w)
        | _ => should_rebuild_vectorstore E s w = (Raise AttributeError, w)
        end).
Proof.
  cbv zeta. intros Hpresent Hh. rewrite should_rebuild_eq.
  unfold gate_decision, stored_fingerprint, metadata_of. rewrite Hpresent, Hh.
  split; [|split].
  - by intros ->.
  - intros content -> -> ->. done.
  - intros content v -> -> ->. destruct v as [| | | | |items|items]; try done.
    simpl. by destruct (assoc "file_hash" items) as [[]|].
Qed.

Lemma gate_reads_metadata_witness :
  index_present built_world "Mathematics" = Ok true
  /\ should_rebuild_vectorstore healthy_env "Mathematics" built_world
     = (Ok false, built_world).
Proof.
  assert (Hh : folder_hash healthy_env built_world "Mathematics" = Ok maths_hash)
    by (vm_compute; reflexivity).
  split; [reflexivity|].
  destruct (gate_reads_metadata healthy_env "Mathematics" built_world maths_hash
              eq_refl Hh) as (_ & _ & Hdict).
  exact (Hdict (sample_dumps (JDict [("file_hash", JStr maths_hash)]))
               (JDict [("file_hash", JStr maths_hash)]) eq_refl eq_refl eq_refl).
Defined.

(** A subject name that [glob] reads as a pattern.  [Math[1]] matches the
    folder [Math1]: the fingerprint of the subject is that of the files of
    [Math1] and not that of its own folder, the gate compares the metadata
    with it and answers [False], and the builder loads the file of [Math1]
    and stores that fingerprint. *)
Lemma pattern_subject_uses_matched_folder :
  literal_name "Math[1]" = false
  /\ pdf_files pattern_env pattern_world "Math[1]" = ["curriculum_data/Math1/b.pdf"%string]
  /\ folder_hash pattern_env pattern_world "Math[1]" = Ok math1_hash
  /\ get_folder_hash (subject_path pattern_world "Math1") = Ok math1_hash
  /\ folder_hash pattern_env pattern_world "Math[1]"
     <> get_folder_hash (subject_path pattern_world "Math[1]")
  /\ should_rebuild_vectorstore pattern_env "Math[1]" pattern_world
     = (Ok false, pattern_world)
  /\ fst (build_vectorstore pattern_env "Math[1]" pattern_world)
     = Ok (Some (FAISS [Document "%PDF-1.4 sets" "curriculum_data/Math1/b.pdf" 0]),
           Some (HuggingFaceEmbeddings EMBEDDING_MODEL))
  /\ stored_fingerprint pattern_env
       (vectorstore_path (snd (build_vectorstore pattern_env "Math[1]" pattern_world))
                         "Math[1]")
     = Ok (JStr math1_hash).
Proof.
  split; [reflexivity|]. split; [reflexivity|].
  split; [vm_compute; reflexivity|].
  split; [vm_compute; reflexivity|].
  split; [vm_compute; discriminate|].
  split; [vm_compute; reflexivity|].
  split; vm_compute; reflexivity.
Qed.

(** A look-up that fails.  When [index.faiss] cannot be looked up, the
    gate raises the error of the look-up, and so does the initialization:
    nothing is built and nothing is loaded. *)
Lemma failed_lookup_is_raised :
  index_present unsearchable_world "Mathematics" = Raise (OSError "Permission denied")
  /\ should_rebuild_vectorstore healthy_env "Mathematics" unsearchable_world
     = (Raise (OSError "Permission denied"), unsearchable_world)
  /\ initialize_vectorstore healthy_env "Mathematics" false unsearchable_world
     = (Raise (OSError "Permission denied"), unsearchable_world).
Proof. repeat split; vm_compute; reflexivity. Qed.

(* ===================================================================== *)
(** * What a run leaves alone                                             *)
(* ===================================================================== *)

(** As [steps_tac], the steps that write being left to [leaf]. *)
Ltac frame_tac leaf :=
  repeat
    (cbv beta;
     lazymatch goal with
     | |- steps ?R (mret _) => apply (steps_ret R)
     | |- steps ?R (raise _) => apply (steps_raise R)
     | |- steps ?R (lift _) => apply (steps_lift R)
     | |- steps ?R (gets _) => apply (steps_gets R)
     | |- steps ?R (stat_path _ _) => apply (steps_stat_path R)
     | |- steps ?R (call _) => apply (steps_call R)
     | |- steps ?R (print _) => leaf
     | |- steps ?R (write_vsdir _ _) => leaf
     | |- steps ?R (modify _) => leaf
     | |- steps ?R (_ ≫= _) => apply (steps_bind R); [|intros ?]
     | |- steps ?R (try_except _ _) => apply (steps_try_except R); [|intros ?]
     | |- steps ?R (try_except_only _ _ _) =>
         apply (steps_try_except_only R); [|intros ?]
     | |- steps ?R (for_each _ _ _) => apply (steps_for_each R); intros ? ?
     | |- steps ?R (match ?x with _ => _ end) => destruct x
     end).

#[export] Instance only_subject_preorder (s : string) : PreOrder (only_subject s).
Proof.
  split.
  - intros w. split; [reflexivity|done].
  - intros w1 w2 w3 [Hg1 Ho1] [Hg2 Ho2]. split; [by etrans|].
    intros other Hne. by rewrite Ho2, Ho1.
Qed.

#[export] Instance only_subject_ticking (s : string) : Ticking (only_subject s).
Proof. split; [apply _|]. intros w. split; [apply ticking_tick|done]. Qed.

Lemma steps_print_subject (s : string) (l : log_line) :
  steps (only_subject s) (print l).
Proof. intros w. split; [apply disk_only_stdout|done]. Qed.

Lemma steps_write_subject (s : string) (f : vsdir -> vsdir) :
  steps (only_subject s) (write_vsdir s f).
Proof.
  intros w. split; [apply disk_only_vectorstores|].
  intros other Hne. simpl. by rewrite lookup_insert_ne.
Qed.

Ltac subject_tac :=
  frame_tac ltac:(first [apply steps_print_subject | apply steps_write_subject]).

Lemma steps_build_vectorstore_subject (E : Env) (s : string) :
  steps (only_subject s) (build_vectorstore E s).
Proof.
  unfold build_vectorstore, load_pdfs, build_attempt, save_metadata, dump_metadata,
    save_local, mkdir, disk_step, create_embeddings.
  subject_tac.
Qed.

Lemma steps_load_vectorstore_subject (E : Env) (s : string) :
  steps (only_subject s) (load_vectorstore E s).
Proof.
  unfold load_vectorstore. subject_tac;
    first [apply steps_build_vectorstore_subject | apply steps_load_attempt; apply _].
Qed.

Lemma steps_initialize_vectorstore_subject (E : Env) (s : string) (force : bool) :
  steps (only_subject s) (initialize_vectorstore E s force).
Proof.
  unfold initialize_vectorstore, create_embeddings. subject_tac;
    first [ apply steps_build_vectorstore_subject
          | apply steps_load_vectorstore_subject
          | apply steps_should_rebuild; apply _ ].
Qed.

(** X10.  Working on one subject leaves the others alone: whatever the
    collaborators do, a run of the builder, of the loader or of
    [initialize_vectorstore] for a subject changes no vectorstore directory
    but that subject's, and neither the curriculum nor a module global. *)
Theorem vectorstore_functions_touch_one_subject (E : Env) (s : string) (w : world) :
  only_subject s w (snd (build_vectorstore E s w))
  /\ only_subject s w (snd (load_vectorstore E s w))
  /\ forall force, only_subject s w (snd (initialize_vectorstore E s force w)).
Proof.
  split; [apply steps_build_vectorstore_subject|].
  split; [apply steps_load_vectorstore_subject|].
  intros force. apply steps_initialize_vectorstore_subject.
Qed.

#[export] Instance same_setup_preorder : PreOrder same_setup.
Proof.
  split.
  - by intros w.
  - intros w1 w2 w3 (?&?&?&?) (?&?&?&?). unfold same_setup.
    repeat split; congruence.
Qed.

#[export] Instance same_setup_ticking : Ticking same_setup.
Proof. split; [apply _|]. intros w. by repeat split. Qed.

#[export] Instance same_setup_disk_only : DiskOnly same_setup.
Proof. split; [apply _| |]; intros; by repeat split. Qed.

Ltac setup_tac :=
  frame_tac ltac:(first [ apply (steps_print same_setup)
                        | apply (steps_modify same_setup); intros ?; by repeat split ]).

Lemma steps_initialize_hf_llm_setup (E : Env) : steps same_setup (initialize_hf_llm E).
Proof. unfold initialize_hf_llm. setup_tac. Qed.

Lemma steps_create_rag_components_setup (E : Env) s vs l :
  steps same_setup (create_rag_components E s vs l).
Proof. unfold create_rag_components. setup_tac. Qed.

Lemma steps_load_subject_components_setup (E : Env) (s : string) :
  steps same_setup (load_subject_components E s).
Proof.
  unfold load_subject_components. setup_tac;
    first [ apply steps_initialize_hf_llm_setup
          | apply steps_initialize_vectorstore; apply _
          | apply steps_create_rag_components_setup ].
Qed.

Lemma steps_generate_lesson_setup (E : Env) s topic level pace :
  steps same_setup (generate_lesson E s topic level pace).
Proof. unfold generate_lesson. setup_tac. Qed.

Lemma steps_create_lesson_setup (E : Env) (request : LessonRequest) :
  steps same_setup (create_lesson E request).
Proof.
  unfold create_lesson. setup_tac;
    first [ apply steps_load_subject_components_setup
          | apply steps_generate_lesson_setup ].
Qed.

Lemma post_lesson_world (E : Env) (request : LessonRequest) (w : world) :
  snd (post_lesson E request w) = snd (create_lesson E request w).
Proof.
  unfold post_lesson. by destruct (create_lesson E request w) as [[body|[]] w'].
Qed.

Lemma post_lesson_404 (E : Env) (request : LessonRequest) (w : world) :
  req_subject request ∉ AVAILABLE_SUBJECTS w ->
  post_lesson E request w
  = (ErrorResponse 404
       ("Subject '" +:+ req_subject request +:+ "' not found. Available: "
          +:+ join ", " (AVAILABLE_SUBJECTS w)), w).
Proof.
  intros Hnot. unfold post_lesson, create_lesson.
  rewrite (bind_ok _ _ w w (AVAILABLE_SUBJECTS w)) by reflexivity.
  rewrite bool_decide_eq_false_2 by done. cbn [negb].
  by rewrite (bind_raise _ _ w w
    (HTTPException 404
       ("Subject '" +:+ req_subject request +:+ "' not found. Available: "
          +:+ join ", " (AVAILABLE_SUBJECTS w)))) by reflexivity.
Qed.

(** X11.  No handler changes the catalogue.  Serving a request, loading a
    subject, generating a lesson and the startup hook leave the curriculum,
    the token, [GLOBAL_VECTORSTORES] and [AVAILABLE_SUBJECTS] as they were;
    so a subject that was not found at import is answered 404 after any
    request as it was before. *)
Theorem handlers_keep_the_catalogue (E : Env) (w : world) :
  (forall request, same_setup w (snd (post_lesson E request w)))
  /\ (forall s, same_setup w (snd (load_subject_components E s w)))
  /\ (forall s topic level pace,
        same_setup w (snd (generate_lesson E s topic level pace w)))
  /\ same_setup w (snd (lifespan_startup E w))
  /\ (forall request request',
        req_subject request' ∉ AVAILABLE_SUBJECTS w ->
        let w' := snd (post_lesson E request w) in
        post_lesson E request' w'
        = (ErrorResponse 404
             ("Subject '" +:+ req_subject request' +:+ "' not found. Available: "
                +:+ join ", " (AVAILABLE_SUBJECTS w)), w')).
Proof.
  assert (Hpost : forall request, same_setup w (snd (post_lesson E request w))).
  { intros request. rewrite post_lesson_world. apply steps_create_lesson_setup. }
  split; [exact Hpost|].
  split; [intros s; apply steps_load_subject_components_setup|].
  split; [intros s topic level pace; apply steps_generate_lesson_setup|].
  split.
  - unfold lifespan_startup.
    apply (steps_try_except same_setup); [|intros e; apply (steps_ret same_setup)].
    apply (steps_bind same_setup); [apply steps_initialize_hf_llm_setup|].
    intros l. apply (steps_ret same_setup).
  - intros request request' Hnot. cbv zeta.
    destruct (Hpost request) as (_ & _ & _ & Havail).
    rewrite <- Havail. apply post_lesson_404. by rewrite Havail.
Qed.

Lemma handlers_keep_the_catalogue_witness :
  let w' := snd (post_lesson healthy_env algebra_request ready_world) in
  fst (post_lesson healthy_env physics_request w')
  = ErrorResponse 404 "Subject 'Physics' not found. Available: Mathematics".
Proof.
  cbv zeta.
  destruct (handlers_keep_the_catalogue healthy_env ready_world) as (_ & _ & _ & _ & H).
  rewrite (H algebra_request physics_request); [reflexivity|].
  intros Hin%list_elem_of_In. simpl in Hin. destruct Hin as [Hin|[]]. discriminate Hin.
Defined.

(* ===================================================================== *)
(** * More on the model, the handlers and the import                      *)
(* ===================================================================== *)

(** X12.  The model is created at most once.  A call of
    [initialize_hf_llm] that returns leaves the model it returns in [LLM],
    and every later call returns that model and changes nothing; the model
    is constructed, with the repository id and the token, only when [LLM] is
    [None] and the token is set and not empty.  A call that raises leaves
    [LLM] at [None], so the next call tries again. *)
Theorem initialize_hf_llm_creates_once (E : Env) (w : world) :
  match initialize_hf_llm E w with
  | (Ok l, w') =>
      LLM w' = Some l
      /\ initialize_hf_llm E w' = (Ok l, w')
      /\ ((LLM w = Some l /\ w' = w)
          \/ (LLM w = None
              /\ exists tok, hf_token w = Some tok /\ tok <> ""%string
                   /\ new_chat_model E (clock w) REPO_ID tok = Ok l
                   /\ w' = set_LLM (Some l) (tick w)))
  | (Raise e, w') =>
      LLM w = None /\ LLM w' = None
      /\ (((hf_token w = None \/ hf_token w = Some ""%string)
           /\ w' = w /\ exists msg, e = EnvironmentError msg)
          \/ (exists tok, hf_token w = Some tok /\ tok <> ""%string
                /\ new_chat_model E (clock w) REPO_ID tok = Raise e
                /\ w' = tick w))
  end.
Proof.
  rewrite (initialize_hf_llm_eq E w).
  destruct (LLM w) as [l|] eqn:HLLM.
  - split; [done|]. split; [by rewrite initialize_hf_llm_eq, HLLM|]. by left.
  - destruct (hf_token w) as [tok|] eqn:Htok.
    + destruct (String.eqb tok "") eqn:Hempty.
      * apply String.eqb_eq in Hempty as ->.
        split; [done|]. split; [done|]. left. split; [by right|]. split; [done|].
        by eexists.
      * apply String.eqb_neq in Hempty.
        destruct (new_chat_model E (clock w) REPO_ID tok) as [l|e] eqn:Hnew.
        -- split; [done|]. split; [by rewrite initialize_hf_llm_eq|].
           right. split; [done|]. by exists tok.
        -- split; [done|]. split; [done|]. right. by exists tok.
    + split; [done|]. split; [done|]. left. split; [by left|]. split; [done|].
      by eexists.
Qed.

Lemma initialize_hf_llm_no_token (E : Env) (w : world) :
  LLM w = None -> hf_token w = None \/ hf_token w = Some ""%string ->
  exists msg, initialize_hf_llm E w = (Raise (EnvironmentError msg), w).
Proof.
  intros HLLM Htok. rewrite initialize_hf_llm_eq, HLLM.
  destruct Htok as [->| ->]; by eexists.
Qed.

(** X13.  Without a token nothing is served.  When [LLM] is [None] and the
    token is not set or is empty, the startup hook returns all the same,
    [load_subject_components] returns [False], and a request for a subject
    that is available and not loaded is answered 503; none of them reads the
    disk or changes anything. *)
Theorem without_token_lessons_are_503 (E : Env) (w : world) :
  LLM w = None ->
  hf_token w = None \/ hf_token w = Some ""%string ->
  lifespan_startup E w = (Ok tt, w)
  /\ (forall s, load_subject_components E s w = (Ok false, w))
  /\ forall request,
       req_subject request ∈ AVAILABLE_SUBJECTS w ->
       RAG_COMPONENTS w !! req_subject request = None ->
       post_lesson E request w
       = (ErrorResponse 503
            ("Could not initialize '" +:+ req_subject request
               +:+ "': Failed to initialize " +:+ req_subject request), w).
Proof.
  intros HLLM Htok.
  destruct (initialize_hf_llm_no_token E w HLLM Htok) as [msg Hinit].
  assert (Hload : forall s, load_subject_components E s w = (Ok false, w)).
  { intros s. unfold load_subject_components.
    rewrite (bind_ok _ _ w w (LLM w)) by reflexivity. rewrite HLLM.
    rewrite (bind_ok _ _ w w false); [reflexivity|].
    erewrite try_except_raise; [reflexivity|]. by apply bind_raise. }
  split; [|split; [exact Hload|]].
  - unfold lifespan_startup. erewrite try_except_raise; [reflexivity|].
    by apply bind_raise.
  - intros request Havail Hrag. unfold post_lesson, create_lesson.
    rewrite (bind_ok _ _ w w (AVAILABLE_SUBJECTS w)) by reflexivity.
    rewrite bool_decide_eq_true_2 by done. cbn [negb].
    rewrite (bind_ok _ _ w w tt) by reflexivity.
    rewrite (bind_ok _ _ w w false).
    2:{ unfold gets. rewrite Hrag. reflexivity. }
    cbn [negb].
    rewrite (bind_raise _ _ w w
      (HTTPException 503
         ("Could not initialize '" +:+ req_subject request
            +:+ "': Failed to initialize " +:+ req_subject request))); [reflexivity|].
    rewrite (try_except_raise _ _ w w
      (PyException ("Failed to initialize " +:+ req_subject request))); [reflexivity|].
    by rewrite (bind_ok _ _ _ _ _ (Hload (req_subject request))).
Qed.

Lemma without_token_lessons_are_503_witness :
  post_lesson healthy_env algebra_request no_token_world
  = (ErrorResponse 503 "Could not initialize 'Mathematics': Failed to initialize Mathematics",
     no_token_world).
Proof.
  destruct (without_token_lessons_are_503 healthy_env no_token_world eq_refl
              (or_introl eq_refl)) as (_ & _ & H).
  apply (H algebra_request); [|reflexivity].
  apply list_elem_of_In. simpl. by left.
Defined.

#[export] Instance only_console_preorder : PreOrder only_console.
Proof.
  split.
  - intros w. split; [reflexivity|done].
  - intros w1 w2 w3 [Hg1 Hv1] [Hg2 Hv2]. split; [by etrans|congruence].
Qed.

#[export] Instance only_console_ticking : Ticking only_console.
Proof. split; [apply _|]. intros w. split; [apply ticking_tick|done]. Qed.

Lemma steps_print_console (l : log_line) : steps only_console (print l).
Proof. intros w. split; [apply disk_only_stdout|done]. Qed.

Lemma steps_generate_lesson_console (E : Env) s topic level pace :
  steps only_console (generate_lesson E s topic level pace).
Proof. unfold generate_lesson. frame_tac ltac:(apply steps_print_console). Qed.

Lemma create_lesson_ready (E : Env) (request : LessonRequest) (w : world) :
  req_subject request ∈ AVAILABLE_SUBJECTS w ->
  is_Some (RAG_COMPONENTS w !! req_subject request) ->
  exists r w',
    generate_lesson E (req_subject request) (req_topic request)
      (level_str (req_sss_level request)) (req_learning_pace request) w = (Ok r, w')
    /\ create_lesson E request w
       = (Ok {| subject := req_subject request;
                topic := req_topic request;
                sss_level := level_str (req_sss_level request);
                learning_pace := pace_str (req_learning_pace request);
                lesson_notes :=
                  match r with
                  | Some text => if String.eqb text "" then PLACEHOLDER_NOTES else text
                  | None => PLACEHOLDER_NOTES
                  end;
                status := "success" |}, w').
Proof.
  intros Havail Hready.
  pose proof (create_lesson_run E request w) as Hrun. cbv zeta in Hrun.
  rewrite bool_decide_eq_true_2 in Hrun by done.
  destruct Hrun as (w1 & [[_ ->]|(Hnone & _)] & Hgen).
  - destruct (Hgen (or_introl Hready)) as (r & w2 & Hg & _ & Hc). by exists r, w2.
  - rewrite Hnone in Hready. by destruct Hready.
Qed.

(** X14.  A subject that is loaded is not loaded again.  A request for an
    available subject that has an entry in [RAG_COMPONENTS] is answered 200
    with what [generate_lesson] gives from the world as it is, and the run
    changes nothing but the clock and the console: no file is written, the
    model and [RAG_COMPONENTS] stay. *)
Theorem loaded_subject_is_served_as_is (E : Env) (request : LessonRequest) (w : world) :
  req_subject request ∈ AVAILABLE_SUBJECTS w ->
  is_Some (RAG_COMPONENTS w !! req_subject request) ->
  exists r w',
    generate_lesson E (req_subject request) (req_topic request)
      (level_str (req_sss_level request)) (req_learning_pace request) w = (Ok r, w')
    /\ post_lesson E request w
       = (Response 200
            {| subject := req_subject request;
               topic := req_topic request;
               sss_level := level_str (req_sss_level request);
               learning_pace := pace_str (req_learning_pace request);
               lesson_notes :=
                 match r with
                 | Some text => if String.eqb text "" then PLACEHOLDER_NOTES else text
                 | None => PLACEHOLDER_NOTES
                 end;
               status := "success" |}, w')
    /\ only_console w w'.
Proof.
  intros Havail Hready.
  destruct (create_lesson_ready E request w Havail Hready) as (r & w' & Hg & Hc).
  exists r, w'. split; [exact Hg|]. split.
  - unfold post_lesson. by rewrite Hc.
  - pose proof (steps_generate_lesson_console E (req_subject request)
      (req_topic request) (level_str (req_sss_level request))
      (req_learning_pace request) w) as Hstep.
    by rewrite Hg in Hstep.
Qed.

Lemma loaded_subject_is_served_as_is_witness :
  fst (post_lesson healthy_env algebra_request ready_world)
  = Response 200 {| subject := "Mathematics";
                    topic := "Algebra";
                    sss_level := "SSS 1";
                    learning_pace := "low";
                    lesson_notes := "# Algebra";
                    status := "success" |}
  /\ vectorstores (snd (post_lesson healthy_env algebra_request ready_world))
     = vectorstores ready_world.
Proof.
  destruct (loaded_subject_is_served_as_is healthy_env algebra_request ready_world)
    as (r & w' & Hg & Hp & _ & Hv).
  - apply list_elem_of_In. simpl. by left.
  - by eexists.
  - rewrite Hp. split; [|exact Hv].
    vm_compute in Hg. injection Hg as <- _. reflexivity.
Defined.

(* ===================================================================== *)
(** * Responses, the status and the import                                *)
(* ===================================================================== *)

Lemma get_status_eq (w : world) :
  get_status w
  = (Ok {| available_subjects := AVAILABLE_SUBJECTS w;
           initialized_subjects :=
             List.filter (fun s => bool_decide (is_Some (RAG_COMPONENTS w !! s)))
                         (AVAILABLE_SUBJECTS w);
           ready := true |}, w).
Proof. reflexivity. Qed.

(** X15.  What a 200 means.  The body of a 200 repeats the four fields of
    the request, its status is "success" and its notes are never empty; the
    subject is then among the available ones and loaded, and the status
    endpoint lists it as initialized. *)
Theorem lesson_response_shape (E : Env) (request : LessonRequest) (w w' : world)
    (body : LessonResponse) :
  post_lesson E request w = (Response 200 body, w') ->
  subject body = req_subject request
  /\ topic body = req_topic request
  /\ sss_level body = level_str (req_sss_level request)
  /\ learning_pace body = pace_str (req_learning_pace request)
  /\ status body = "success"%string
  /\ lesson_notes body <> ""%string
  /\ req_subject request ∈ AVAILABLE_SUBJECTS w
  /\ is_Some (RAG_COMPONENTS w' !! req_subject request)
  /\ exists st, get_status w' = (Ok st, w')
                /\ req_subject request ∈ initialized_subjects st
                /\ available_subjects st = AVAILABLE_SUBJECTS w.
Proof.
  intros Hpost.
  assert (Hsetup : same_setup w w').
  { pose proof (steps_create_lesson_setup E request w) as H.
    rewrite <- post_lesson_world in H. by rewrite Hpost in H. }
  pose proof (create_lesson_run E request w) as Hrun. cbv zeta in Hrun.
  destruct (bool_decide (req_subject request ∈ AVAILABLE_SUBJECTS w)) eqn:Havail.
  2:{ destruct Hrun as (detail & Hc). unfold post_lesson in Hpost.
      rewrite Hc in Hpost. discriminate Hpost. }
  apply bool_decide_eq_true in Havail.
  destruct Hrun as (w1 & Hload & Hgen).
  assert (Hok : (is_Some (RAG_COMPONENTS w !! req_subject request)
                 \/ load_subject_components E (req_subject request) w = (Ok true, w1))
                /\ is_Some (RAG_COMPONENTS w1 !! req_subject request)).
  { destruct Hload as [[Hsome ->]|(Hnone & b & Hb & H503)]; [by split; [left|]|].
    destruct b.
    - split; [by right|].
      destruct (load_subject_components_run E (req_subject request) w)
        as (b' & w'' & Heq & Hb').
      rewrite Hb in Heq. injection Heq as <- <-.
      destruct Hb' as (l & vs & emb & c & wa & wb & wc & _ & _ & _ & _ & Hrag).
      rewrite Hrag, lookup_insert_eq. by eexists.
    - destruct (H503 eq_refl) as (detail & Hc). unfold post_lesson in Hpost.
      rewrite Hc in Hpost. discriminate Hpost. }
  destruct Hok as [Hc Hsome].
  destruct (Hgen Hc) as (r & w2 & _ & Hrag & Hcreate).
  unfold post_lesson in Hpost. rewrite Hcreate in Hpost.
  injection Hpost as <- <-. cbn [subject topic sss_level learning_pace status lesson_notes].
  repeat (split; [done|]).
  split.
  { destruct r as [text|]; [|done]. destruct (String.eqb text "") eqn:He; [done|].
    by apply String.eqb_neq. }
  split; [done|]. split; [by rewrite Hrag|].
  destruct Hsetup as (_ & _ & _ & Hav).
  eexists. split; [apply get_status_eq|]. cbn [initialized_subjects available_subjects].
  split; [|done].
  apply list_elem_of_In, filter_In. split.
  - apply list_elem_of_In. by rewrite Hav.
  - apply bool_decide_eq_true. by rewrite Hrag.
Qed.

Lemma lesson_response_shape_witness :
  exists body,
    fst (post_lesson healthy_env algebra_request fresh_world) = Response 200 body
    /\ lesson_notes body <> ""%string
    /\ is_Some (RAG_COMPONENTS (snd (post_lesson healthy_env algebra_request fresh_world))
                  !! "Mathematics"%string).
Proof.
  assert (Hrun : exists body,
            post_lesson healthy_env algebra_request fresh_world
            = (Response 200 body, snd (post_lesson healthy_env algebra_request fresh_world))).
  { eexists. vm_compute. reflexivity. }
  destruct Hrun as [body Hrun]. exists body.
  destruct (lesson_response_shape healthy_env algebra_request fresh_world _ body Hrun)
    as (_ & _ & _ & _ & _ & Hnotes & _ & Hsome & _).
  split; [by rewrite Hrun|]. by split.
Defined.

(** X16.  The status endpoint never fails and changes nothing.  Its
    [initialized_subjects] are the available subjects that have an entry in
    [RAG_COMPONENTS], in the order of [AVAILABLE_SUBJECTS]; [ready] is
    [True] whatever the state, with no model and nothing loaded too. *)
Theorem get_status_lists_loaded_subjects (w : world) :
  exists st,
    get_status w = (Ok st, w)
    /\ available_subjects st = AVAILABLE_SUBJECTS w
    /\ ready st = true
    /\ (forall s, s ∈ initialized_subjects st <->
                  s ∈ AVAILABLE_SUBJECTS w /\ is_Some (RAG_COMPONENTS w !! s))
    /\ sublist (initialized_subjects st) (AVAILABLE_SUBJECTS w)
    /\ (RAG_COMPONENTS w = ∅ -> initialized_subjects st = []).
Proof.
  eexists. split; [apply get_status_eq|].
  cbn [initialized_subjects available_subjects ready].
  split; [done|]. split; [done|]. split; [|split].
  - intros s. rewrite !list_elem_of_In, filter_In, bool_decide_eq_true. done.
  - induction (AVAILABLE_SUBJECTS w) as [|a l IH]; [constructor|].
    cbn [List.filter]. destruct (bool_decide _); by constructor.
  - intros ->. induction (AVAILABLE_SUBJECTS w) as [|a l IH]; [done|].
    cbn [List.filter]. rewrite lookup_empty.
    rewrite bool_decide_eq_false_2; [exact IH|]. by intros [? ?].
Qed.

Lemma get_status_lists_loaded_subjects_witness :
  exists st,
    get_status fresh_world = (Ok st, fresh_world)
    /\ ready st = true /\ initialized_subjects st = [].
Proof.
  destruct (get_status_lists_loaded_subjects fresh_world)
    as (st & Hst & _ & Hready & _ & _ & Hempty).
  exists st. split; [exact Hst|]. split; [exact Hready|]. by apply Hempty.
Defined.

Lemma import_modules_eq (w : world) :
  import_modules w
  = match get_available_subjects (set_GLOBAL_VECTORSTORES ∅ w) with
    | (Ok subjects, w1) =>
        (Ok tt, set_RAG_COMPONENTS ∅ (set_LLM None (set_AVAILABLE_SUBJECTS subjects w1)))
    | (Raise e, w1) => (Raise e, w1)
    end.
Proof.
  unfold import_modules, initialize_all_vectorstores. unfold_monad.
  by destruct (get_available_subjects (set_GLOBAL_VECTORSTORES ∅ w)) as [[subjects|e] w1].
Qed.

Lemma get_available_subjects_root (w w1 : world) :
  curriculum_data w1 = curriculum_data w ->
  fst (get_available_subjects w1) = fst (get_available_subjects w)
  /\ snd (get_available_subjects w1) = w1.
Proof.
  intros Hc. unfold get_available_subjects. unfold_monad. rewrite Hc.
  by destruct (curriculum_data w) as [| |entries].
Qed.

Lemma get_available_subjects_fst (w : world) :
  fst (get_available_subjects w)
  = match curriculum_data w with
    | NoRoot => Ok []
    | RootFile => Raise NotADirectoryError
    | RootDir entries =>
        Ok (sorted
              (flat_map (fun '(name, node) =>
                 match node with
                 | SubjectDir f => match path_glob_pdf f with [] => [] | _ => [name] end
                 | PlainFile => []
                 end) entries))
    end.
Proof.
  unfold get_available_subjects. unfold_monad.
  by destruct (curriculum_data w) as [| |entries].
Qed.

(** X17.  What the import settles.  When the curriculum root is a file the
    import fails with [NotADirectoryError].  Otherwise it leaves the list
    [get_available_subjects] gives in [AVAILABLE_SUBJECTS], no model, nothing
    loaded and nothing cached, and it touches no file; from then on a request
    for a subject that is not in the list is answered 404 and changes
    nothing.  With no curriculum root the list is empty. *)
Theorem import_settles_the_subjects (w : world) :
  match curriculum_data w with
  | RootFile => fst (import_modules w) = Raise NotADirectoryError
  | root =>
      exists subjects w0,
        fst (get_available_subjects w) = Ok subjects
        /\ import_modules w = (Ok tt, w0)
        /\ AVAILABLE_SUBJECTS w0 = subjects
        /\ (root = NoRoot -> subjects = [])
        /\ LLM w0 = None /\ RAG_COMPONENTS w0 = ∅ /\ GLOBAL_VECTORSTORES w0 = ∅
        /\ curriculum_data w0 = curriculum_data w
        /\ vectorstores w0 = vectorstores w
        /\ forall E request,
             req_subject request ∉ subjects ->
             post_lesson E request w0
             = (ErrorResponse 404
                  ("Subject '" +:+ req_subject request +:+ "' not found. Available: "
                     +:+ join ", " subjects), w0)
  end.
Proof.
  pose proof (get_available_subjects_root w (set_GLOBAL_VECTORSTORES ∅ w) eq_refl)
    as [Hfst Hsnd].
  pose proof (import_modules_eq w) as Himport.
  destruct (get_available_subjects (set_GLOBAL_VECTORSTORES ∅ w)) as [r w1].
  cbn [fst snd] in Hfst, Hsnd. subst w1.
  assert (Hshape : forall subjects,
            fst (get_available_subjects w) = Ok subjects ->
            (curriculum_data w = NoRoot -> subjects = []) ->
            exists subjects0 w0,
              fst (get_available_subjects w) = Ok subjects0
              /\ import_modules w = (Ok tt, w0)
              /\ AVAILABLE_SUBJECTS w0 = subjects0
              /\ (curriculum_data w = NoRoot -> subjects0 = [])
              /\ LLM w0 = None /\ RAG_COMPONENTS w0 = ∅ /\ GLOBAL_VECTORSTORES w0 = ∅
              /\ curriculum_data w0 = curriculum_data w
              /\ vectorstores w0 = vectorstores w
              /\ forall E request,
                   req_subject request ∉ subjects0 ->
                   post_lesson E request w0
                   = (ErrorResponse 404
                        ("Subject '" +:+ req_subject request
                           +:+ "' not found. Available: " +:+ join ", " subjects0), w0)).
  { intros subjects Hsub Hnil. rewrite Hsub in Hfst. subst r.
    eexists subjects, _. split; [done|]. split; [exact Himport|].
    repeat (split; [done|]).
    intros E request Hnot. by apply post_lesson_404. }
  pose proof (get_available_subjects_fst w) as Hlist.
  destruct (curriculum_data w) as [| |entries] eqn:Hroot.
  - by apply (Hshape []).
  - rewrite Himport. rewrite Hlist in Hfst. by subst r.
  - by eapply Hshape.
Qed.

Lemma import_settles_the_subjects_witness :
  exists w0,
    import_modules fresh_world = (Ok tt, w0)
    /\ AVAILABLE_SUBJECTS w0 = ["Mathematics"%string]
    /\ fst (post_lesson healthy_env physics_request w0)
       = ErrorResponse 404 "Subject 'Physics' not found. Available: Mathematics".
Proof.
  destruct (import_settles_the_subjects fresh_world)
    as (subjects & w0 & Hsub & Himport & Havail & _ & _ & _ & _ & _ & _ & H404).
  vm_compute in Hsub. injection Hsub as <-.
  exists w0. split; [exact Himport|]. split; [exact Havail|].
  rewrite (H404 healthy_env physics_request); [reflexivity|].
  intros Hin%list_elem_of_In. simpl in Hin. destruct Hin as [Hin|[]]. discriminate Hin.
Defined.

(* ===================================================================== *)
(** * The text of a fingerprint, the text of a lesson                     *)
(* ===================================================================== *)

Lemma hex_digit_is_hex (n : Z) :
  (0 <= n < 16)%Z -> is_hex (MD5.hex_digit n) = true.
Proof.
  intros Hn. unfold MD5.hex_digit.
  assert (Hk : Z.to_nat n < 16) by lia.
  generalize dependent (Z.to_nat n). intros k Hk.
  do 16 (destruct k as [|k]; [reflexivity|]). lia.
Qed.

Lemma length_string_of_list_ascii (l : list ascii) :
  String.length (string_of_list_ascii l) = length l.
Proof. induction l as [|c l IH]; simpl; congruence. Qed.

Lemma hex_of_bytes_shape (bs : list Z) :
  Forall (fun b => 0 <= b < 256)%Z bs ->
  String.length (MD5.hex_of_bytes bs) = 2 * length bs
  /\ forallb is_hex (list_ascii_of_string (MD5.hex_of_bytes bs)) = true.
Proof.
  intros Hbs. unfold MD5.hex_of_bytes.
  rewrite length_string_of_list_ascii, list_ascii_of_string_of_list_ascii.
  induction Hbs as [|b bs Hb Hbs [IHlen IHhex]]; [done|].
  cbn [flat_map app length forallb]. split; [lia|].
  rewrite IHhex, !hex_digit_is_hex; [done| |].
  - change 15%Z with (Z.ones 4). rewrite Z.land_ones by lia.
    apply Z.mod_pos_bound. lia.
  - rewrite Z.shiftr_div_pow2 by lia. split.
    + apply Z.div_pos; lia.
    + apply Z.div_lt_upper_bound; lia.
Qed.

Lemma le_bytes_shape (n : nat) (x : Z) :
  length (MD5.le_bytes n x) = n
  /\ Forall (fun b => 0 <= b < 256)%Z (MD5.le_bytes n x).
Proof.
  unfold MD5.le_bytes. split; [by rewrite length_map, length_seq|].
  apply Forall_map, Forall_forall. intros k _. cbv beta.
  change 255%Z with (Z.ones 8). rewrite Z.land_ones by lia.
  apply Z.mod_pos_bound. lia.
Qed.

Lemma hexdigest_shape (h : MD5.hasher) :
  String.length (MD5.hexdigest h) = 32
  /\ forallb is_hex (list_ascii_of_string (MD5.hexdigest h)) = true.
Proof.
  unfold MD5.hexdigest, MD5.hexdigest_of, MD5.digest.
  set (st := fold_left MD5.compress _ MD5.init).
  destruct (le_bytes_shape 4 (MD5.sA st)) as [La Fa].
  destruct (le_bytes_shape 4 (MD5.sB st)) as [Lb Fb].
  destruct (le_bytes_shape 4 (MD5.sC st)) as [Lc Fc].
  destruct (le_bytes_shape 4 (MD5.sD st)) as [Ld Fd].
  destruct (hex_of_bytes_shape
              (MD5.le_bytes 4 (MD5.sA st) ++ MD5.le_bytes 4 (MD5.sB st) ++
               MD5.le_bytes 4 (MD5.sC st) ++ MD5.le_bytes 4 (MD5.sD st)))
    as [Hlen Hhex].
  { repeat (apply Forall_app; split); done. }
  split; [|exact Hhex].
  rewrite Hlen, !length_app, La, Lb, Lc, Ld. reflexivity.
Qed.

(** X18.  The text of a fingerprint.  Whatever the folder, when
    [get_folder_hash] returns, what it returns is 32 characters long and
    each of them is one of [0123456789abcdef]. *)
Theorem get_folder_hash_is_32_hex_digits (d : option folder) (h : string) :
  get_folder_hash d = Ok h ->
  String.length h = 32
  /\ forallb is_hex (list_ascii_of_string h) = true.
Proof.
  unfold get_folder_hash. destruct (hashed_bytes d) as [hb|e]; simpl; [|done].
  intros [= <-]. apply hexdigest_shape.
Qed.

Lemma get_folder_hash_is_32_hex_digits_witness :
  get_folder_hash (Some maths_folder) = Ok maths_hash
  /\ String.length maths_hash = 32.
Proof.
  assert (Hh : get_folder_hash (Some maths_folder) = Ok maths_hash)
    by (vm_compute; reflexivity).
  split; [exact Hh|].
  exact (proj1 (get_folder_hash_is_32_hex_digits (Some maths_folder) maths_hash Hh)).
Defined.

(** X19.  What a lesson is made of.  For a loaded subject whose retriever
    answers the retrieval query and whose chain answers on the pages
    retrieved, the response is 200 and its notes are the text of the chain,
    or the placeholder when that text is empty; the two calls are the only
    ones made, and two lines are printed.  The level of a request already
    starts with "SSS", so the retrieval query starts with "SSS SSS". *)
Theorem lesson_is_the_text_of_the_chain (E : Env) (request : LessonRequest) (w : world)
    (r : retriever) (ch : llm_chain) (docs : list document) (text : string) :
  let s := req_subject request in
  let topic := req_topic request in
  let level := level_str (req_sss_level request) in
  let pace := req_learning_pace request in
  s ∈ AVAILABLE_SUBJECTS w ->
  RAG_COMPONENTS w !! s = Some (Components (Some r) (Some ch)) ->
  get_relevant_documents E (clock w) r (retrieval_query level s topic) = Ok docs ->
  chain_invoke E (S (clock w)) ch (context_of docs) topic level pace s = Ok text ->
  String.prefix "SSS SSS " (retrieval_query level s topic) = true
  /\ exists w',
       post_lesson E request w
       = (Response 200
            {| subject := s;
               topic := topic;
               sss_level := level;
               learning_pace := pace_str pace;
               lesson_notes := if String.eqb text "" then PLACEHOLDER_NOTES else text;
               status := "success" |}, w')
       /\ clock w' = 2 + clock w
       /\ stdout w' = stdout w ++ [ LogGenerating s topic level pace;
                                    LogLesson s level pace text ].
Proof.
  cbv zeta. intros Havail Hrag Hdocs Htext. split.
  { unfold retrieval_query. by destruct (req_sss_level request). }
  destruct (create_lesson_ready E request w Havail) as (r0 & w' & Hg & Hc);
    [by rewrite Hrag|].
  assert (Hgen : generate_lesson E (req_subject request) (req_topic request)
                   (level_str (req_sss_level request)) (req_learning_pace request) w
                 = (Ok (Some text),
                    set_stdout
                      (stdout w ++ [ LogGenerating (req_subject request)
                                       (req_topic request)
                                       (level_str (req_sss_level request))
                                       (req_learning_pace request);
                                     LogLesson (req_subject request)
                                       (level_str (req_sss_level request))
                                       (req_learning_pace request) text ])
                      (tick (tick w)))).
  { unfold generate_lesson. unfold_monad. rewrite Hrag. cbn.
    rewrite Hdocs. cbn. rewrite Htext. cbn. by rewrite <- app_assoc. }
  rewrite Hgen in Hg. injection Hg as <- <-.
  eexists. split; [unfold post_lesson; by rewrite Hc|]. by split.
Qed.

Lemma lesson_is_the_text_of_the_chain_witness :
  fst (post_lesson healthy_env algebra_request ready_world)
  = Response 200 {| subject := "Mathematics";
                    topic := "Algebra";
                    sss_level := "SSS 1";
                    learning_pace := "low";
                    lesson_notes := "# Algebra";
                    status := "success" |}
  /\ retrieval_query "SSS 1" "Mathematics" "Algebra"
     = "SSS SSS 1 Mathematics syllabus content for the topic: Algebra"%string.
Proof.
  destruct (lesson_is_the_text_of_the_chain healthy_env algebra_request ready_world
              (VectorStoreRetriever (FAISS []) 3)
              (LLMChain (ChatHuggingFace REPO_ID "hf_token")) [] "# Algebra")
    as (_ & w' & Hp & _).
  - apply list_elem_of_In. simpl. by left.
  - reflexivity.
  - reflexivity.
  - reflexivity.
  - split; [by rewrite Hp|reflexivity].
Defined.

(* ===================================================================== *)
(** * What the components of a subject are made from                      *)
(* ===================================================================== *)

Lemma create_rag_components_some (E : Env) (s : string) vs l (w w' : world)
    (c : components) :
  create_rag_components E s vs l w = (Ok (Some c), w') ->
  exists v m ret ch,
    vs = Some v /\ l = Some m
    /\ new_llm_chain E (clock w) m = Ok ch
    /\ as_retriever E (S (clock w)) v 3 = Ok ret
    /\ c = Components (Some ret) (Some ch)
    /\ w' = tick (tick w).
Proof.
  unfold create_rag_components. destruct vs as [v|]; [|by intros [=]].
  destruct l as [m|]; [|by intros [=]]. unfold_monad.
  destruct (new_llm_chain E (clock w) m) as [ch|e] eqn:Hch; [|by intros [=]].
  cbn [clock tick].
  destruct (as_retriever E (S (clock w)) v 3) as [ret|e] eqn:Hret; [|by intros [=]].
  intros [= <- <-]. by exists v, m, ret, ch.
Qed.

(** X20.  What a load leaves in [RAG_COMPONENTS].  [load_subject_components]
    first makes sure of the language model; let [w1] be the world this
    leaves.  When the load returns [True], the model [l] is set in [w1],
    the run of [initialize_vectorstore] from [w1] returned a vectorstore
    [vs] and left a world [w2], and the entry stored for the subject holds
    a chain made from [l] and a retriever made, with [k = 3], from [vs]:
    the chain was made first, at the time of [w2], the retriever right
    after it.  The world the load leaves is [w2], two calls later, with
    this entry; the model in [LLM] is still [l] and no other entry has
    changed. *)
Theorem loaded_components_are_made_from (E : Env) (s : string) (w w' : world) :
  load_subject_components E s w = (Ok true, w') ->
  let w1 := llm_ensured E w in
  exists l vs emb ret ch w2,
    LLM w1 = Some l
    /\ initialize_vectorstore E s false w1 = (Ok (Some vs, emb), w2)
    /\ new_llm_chain E (clock w2) l = Ok ch
    /\ as_retriever E (S (clock w2)) vs 3 = Ok ret
    /\ w' = set_RAG_COMPONENTS
              (<[s := Components (Some ret) (Some ch)]> (RAG_COMPONENTS w2))
              (tick (tick w2))
    /\ LLM w' = Some l
    /\ RAG_COMPONENTS w'
       = <[s := Components (Some ret) (Some ch)]> (RAG_COMPONENTS w).
Proof.
  intros Hload. cbv zeta.
  pose proof (llm_ensured_rag E w) as Hrag1.
  rewrite (load_subject_components_eq E s w) in Hload. cbv zeta in Hload.
  set (w1 := llm_ensured E w) in *.
  destruct (LLM w1) as [l|] eqn:HLLM; [|discriminate Hload].
  pose proof (initialize_vectorstore_same_globals E s false w1) as Hsame.
  destruct (initialize_vectorstore E s false w1) as [[[[vs|] emb]|e] w2] eqn:Hinit;
    try discriminate Hload.
  simpl in Hsame. destruct Hsame as (_ & _ & _ & _ & HL2 & HR2).
  destruct (create_rag_components E s (Some vs) (Some l) w2) as [[[c|]|e] w3] eqn:Hc;
    try discriminate Hload.
  injection Hload as <-.
  destruct (create_rag_components_some E s _ _ _ _ _ Hc)
    as (v & m & ret & ch & [= <-] & [= <-] & Hch & Hret & -> & ->).
  exists l, vs, emb, ret, ch, w2.
  split; [done|]. split; [done|]. split; [done|]. split; [done|].
  split; [done|]. split; [simpl; congruence|]. simpl. congruence.
Qed.

Lemma loaded_components_are_made_from_witness :
  exists vs,
    RAG_COMPONENTS (snd (load_subject_components healthy_env "Mathematics" fresh_world))
    !! "Mathematics"%string
    = Some (Components (Some (VectorStoreRetriever vs 3))
                       (Some (LLMChain (ChatHuggingFace REPO_ID "hf_token")))).
Proof.
  assert (Hload : load_subject_components healthy_env "Mathematics" fresh_world
                  = (Ok true,
                     snd (load_subject_components healthy_env "Mathematics" fresh_world)))
    by (vm_compute; reflexivity).
  destruct (loaded_components_are_made_from healthy_env "Mathematics" fresh_world _ Hload)
    as (l & vs & emb & ret & ch & w2 & HLLM & _ & Hch & Hret & _ & _ & Hrag).
  exists vs. rewrite Hrag, lookup_insert_eq.
  cbn in Hch, Hret. injection Hch as <-. injection Hret as <-.
  vm_compute in HLLM. by injection HLLM as <-.
Defined.
